(** * The validated-attribute pattern of the Fluent-Python demonstrations

    A shallow embedding of the managed-attribute code of
    [Part5-Metaprogramming]: the weight property of [property_bulkfood.py],
    the property factories of [property_factory.py], the descriptors of
    [descriptor_bulkfood.py] and [descriptor_bulkfood2.py], and the class
    decorator and metaclasses of [descriptor_bulkfood2.py] and
    [metaclass_bulkfood.py].

    Python objects that the code mutates are kept in explicit stores: the
    [__dict__] of a managed instance is a finite map from attribute names to
    values, descriptor objects live in a heap addressed by references (so that
    two names bound to one descriptor alias it), and class-level counters are
    class attributes found through the method resolution order.  Code that may
    raise runs in a state-and-exception monad in which the store survives an
    exception, as it does in Python. *)

From Stdlib Require Import ZArith String Ascii List Bool Lia.
From Stdlib Require Import Floats.SpecFloat.
From stdpp Require Import base gmap strings list pretty.

Import ListNotations.
Local Open Scope string_scope.
Local Open Scope Z_scope.

(** ** Values and exceptions *)

(** References to class-level objects (descriptor and property objects). *)
Abbreviation ref := nat.

(** The Python values that reach the managed attributes: [int] (unbounded),
    [float] (IEEE 754 binary64, as a [spec_float] with [prec = 53] and
    [emax = 1024]), [str], [None], lists of names, references to descriptor
    and property objects, and bound methods (named by the function they
    wrap).  These are the values of the doctests and of the class-level
    code.  Python has more (Decimal and Fraction, which the comparisons with
    0 accept, and [bytes], which has a [strip] method); they are not values
    of the model, and a statement over every [value] speaks of the types
    listed here only. *)
Inductive value : Type :=
| VInt (n : Z)
| VFloat (f : spec_float)
| VStr (s : string)
| VNone
| VList (names : list string)
| VRef (r : ref)
| VMethod (qualname : string).

Inductive exn : Type :=
| ValueError (msg : string)
| TypeError
| AttributeError (name : string)
| KeyError (key : string)
| OverflowError
| RecursionError.

Inductive result (A : Type) : Type :=
| Ok (a : A)
| Raise (e : exn).
Arguments Ok {A} a.
Arguments Raise {A} e.

(** ** The state-and-exception monad

    [M S A] is a computation over a store of type [S] that returns an [A] or
    raises.  The store is returned in both cases: what was written before an
    exception stays written. *)
Definition M (S A : Type) : Type := S -> result A * S.

Definition ret {S A} (a : A) : M S A := fun s => (Ok a, s).
Definition raise {S A} (e : exn) : M S A := fun s => (Raise e, s).
Definition bind {S A B} (m : M S A) (k : A -> M S B) : M S B :=
  fun s => match m s with
           | (Ok a, s') => k a s'
           | (Raise e, s') => (Raise e, s')
           end.
Definition get_state {S} : M S S := fun s => (Ok s, s).
Definition lift {S A} (r : result A) : M S A := fun s => (r, s).

Notation "'let*' x ':=' m 'in' k" := (bind m (fun x => k))
  (at level 10, x name, m at level 100, k at level 200).
Notation "m >>> k" := (bind m (fun _ => k))
  (at level 90, right associativity).

(** [for x in xs: body x] *)
Fixpoint for_each {S A} (xs : list A) (body : A -> M S unit) : M S unit :=
  match xs with
  | [] => ret tt
  | x :: xs' => body x >>> for_each xs' body
  end.

(** ** Built-in operations used by the source *)

Definition binary64_prec : Z := 53.
Definition binary64_emax : Z := 1024.
Definition float_zero : spec_float := S754_zero false.

(** [value > 0]: the comparison of a number with the [int] literal [0];
    other operand types do not support the ordering. *)
Definition py_gt0 (value : value) : result bool :=
  match value with
  | VInt n => Ok (0 <? n)
  | VFloat f => Ok (SFltb float_zero f)
  | _ => Raise TypeError
  end.

(** [value <= 0] *)
Definition py_le0 (value : value) : result bool :=
  match value with
  | VInt n => Ok (n <=? 0)
  | VFloat f => Ok (SFleb f float_zero)
  | _ => Raise TypeError
  end.

(** [float(n)] for an [int] operand of a mixed product: correctly rounded,
    [OverflowError] when [n] is too large for a double. *)
Definition float_of_int (n : Z) : result spec_float :=
  match binary_normalize binary64_prec binary64_emax n 0 false with
  | S754_infinity _ => Raise OverflowError
  | f => Ok f
  end.

Fixpoint str_repeat (s : string) (n : nat) : string :=
  match n with
  | O => EmptyString
  | S n' => s ++ str_repeat s n'
  end.

Fixpoint list_repeat (l : list string) (n : nat) : list string :=
  match n with
  | O => []
  | S n' => (l ++ list_repeat l n')%list
  end.

(** [a * b].  Products of numbers, and the repetition of a [str] or a list
    by an [int]; memory exhaustion on huge repetitions is not modelled. *)
Definition py_mul (a b : value) : result value :=
  match a, b with
  | VInt x, VInt y => Ok (VInt (x * y))
  | VFloat x, VFloat y => Ok (VFloat (SFmul binary64_prec binary64_emax x y))
  | VInt x, VFloat y =>
      match float_of_int x with
      | Ok fx => Ok (VFloat (SFmul binary64_prec binary64_emax fx y))
      | Raise e => Raise e
      end
  | VFloat x, VInt y =>
      match float_of_int y with
      | Ok fy => Ok (VFloat (SFmul binary64_prec binary64_emax x fy))
      | Raise e => Raise e
      end
  | VInt x, VStr s => Ok (VStr (str_repeat s (Z.to_nat x)))
  | VStr s, VInt y => Ok (VStr (str_repeat s (Z.to_nat y)))
  | VInt x, VList l => Ok (VList (list_repeat l (Z.to_nat x)))
  | VList l, VInt y => Ok (VList (list_repeat l (Z.to_nat y)))
  | _, _ => Raise TypeError
  end.

(** [str.isspace] on the code points below 256, which is what a [string] of
    this development holds. *)
Definition py_isspace (c : ascii) : bool :=
  let n := nat_of_ascii c in
  ((9 <=? n) && (n <=? 13) || (28 <=? n) && (n <=? 32)
   || (n =? 133) || (n =? 160))%nat.

Fixpoint lstrip (s : string) : string :=
  match s with
  | String c s' => if py_isspace c then lstrip s' else s
  | EmptyString => EmptyString
  end.

Fixpoint rstrip (s : string) : string :=
  match s with
  | String c s' =>
      match rstrip s' with
      | EmptyString => if py_isspace c then EmptyString else String c EmptyString
      | t => String c t
      end
  | EmptyString => EmptyString
  end.

(** [s.strip()] *)
Definition str_strip (s : string) : string := rstrip (lstrip s).

(** ['_{}#{}'.format(a, b)] and ['_{}:{}'.format(a, b)] *)
Definition format_hash (a b : string) : string := "_" ++ a ++ "#" ++ b.
Definition format_colon (a b : string) : string := "_" ++ a ++ ":" ++ b.

(** [str(k)] of a counter value. *)
Definition str_of_nat (k : nat) : string := pretty k.


(** ** Instances, descriptor objects and classes *)

(** The [__dict__] of the managed instance is the store of instance-level
    code. *)
Abbreviation IM := (M (gmap string value)).
Abbreviation IM_value := (M (gmap string value) value).

(** [instance.__dict__[key]] and [instance.__dict__[key] = v] *)
Definition dict_getitem (key : string) : IM value :=
  fun d => match d !! key with
           | Some v => (Ok v, d)
           | None => (Raise (KeyError key), d)
           end.
Definition dict_setitem (key : string) (v : value) : IM unit :=
  fun d => (Ok tt, <[key := v]> d).

(** A managed instance as the code holds it: the built-ins [getattr] and
    [setattr] applied to it (attribute syntax [instance.name] is
    [py_getattr instance "name"]). *)
Record obj : Type := {
  py_getattr : string -> IM value;
  py_setattr : string -> value -> IM unit
}.

(** [self] inside a descriptor method. *)
Record self_t : Type := Self { self_ref : ref; storage_name : string }.

(** A descriptor class: its [__name__], the qualified names of its
    [__mro__], whether [abc] forbids instantiating it, and its [__get__] and
    [__set__] slots after inheritance ([None] when no class of the MRO
    defines the method). *)
Record dtype : Type := {
  tp_name : string;
  tp_mro : list string;
  tp_abstract : bool;
  tp_get : option (self_t -> option obj -> IM value);
  tp_set : option (self_t -> obj -> value -> IM unit)
}.

(** Class-level objects: descriptor instances with their mutable
    [storage_name] attribute, and [property] objects with their getter and
    setter closures. *)
Inductive cobj : Type :=
| Descriptor (ob_type : dtype) (sn : string)
| Property (fget : obj -> IM value) (fset : obj -> value -> IM unit).

(** What a class dictionary binds a name to: a reference to a class-level
    object, a function, a plain value, or a list of names. *)
Inductive cattr : Type :=
| CRef (r : ref)
| CFunction (qualname : string)
| CValue (v : value)
| CList (names : list string).

(** A class namespace, in insertion order (an [OrderedDict], or the class
    [__dict__]). *)
Abbreviation namespace := (list (string * cattr)).

Fixpoint ns_lookup (ns : namespace) (name : string) : option cattr :=
  match ns with
  | [] => None
  | (k, a) :: ns' => if String.eqb k name then Some a else ns_lookup ns' name
  end.

(** [ns[name] = a]: an existing key keeps its position. *)
Fixpoint ns_set (ns : namespace) (name : string) (a : cattr) : namespace :=
  match ns with
  | [] => [(name, a)]
  | (k, b) :: ns' =>
      if String.eqb k name then (k, a) :: ns' else (k, b) :: ns_set ns' name a
  end.

Record pyclass : Type := {
  cls_name : string;
  cls_dict : namespace
}.

(** ** The attribute protocol

    [object.__getattribute__], [object.__setattr__] and
    [type.__getattribute__] for classes whose attributes are found in their
    own dictionary (the base classes of the managed classes, [object],
    [Entity] and [Entity2], declare no managed attribute). *)
Section Protocol.
Variable heap : list cobj.
Variable cls : pyclass.

(** The instance [__dict__] is looked up first. *)
Definition dict_or (name : string) (otherwise : IM value) : IM value :=
  fun d => match d !! name with
           | Some v => (Ok v, d)
           | None => otherwise d
           end.

(** [getattr(instance, name)], [instance] being the handle passed on to
    descriptor methods. *)
Definition object_getattribute (instance : obj) (name : string) : IM value :=
  match ns_lookup (cls_dict cls) name with
  | Some (CRef r) =>
      match heap !! r with
      | Some (Descriptor tp sn) =>
          match tp_get tp, tp_set tp with
          | Some get, Some _ => get (Self r sn) (Some instance)
          | Some get, None => dict_or name (get (Self r sn) (Some instance))
          | None, _ => dict_or name (ret (VRef r))
          end
      | Some (Property fget _) => fget instance
      | None => dict_or name (raise (AttributeError name))
      end
  | Some (CFunction q) => dict_or name (ret (VMethod q))
  | Some (CValue v) => dict_or name (ret v)
  | Some (CList names) => dict_or name (ret (VList names))
  | None => dict_or name (raise (AttributeError name))
  end.

(** [setattr(instance, name, v)] *)
Definition object_setattr (instance : obj) (name : string) (v : value)
  : IM unit :=
  match ns_lookup (cls_dict cls) name with
  | Some (CRef r) =>
      match heap !! r with
      | Some (Descriptor tp sn) =>
          match tp_set tp with
          | Some set => set (Self r sn) instance v
          | None => dict_setitem name v
          end
      | Some (Property _ fset) => fset instance v
      | None => dict_setitem name v
      end
  | _ => dict_setitem name v
  end.

(** The instance at a given depth of nested attribute accesses; at depth
    0 the interpreter gives up with [RecursionError]. *)
Fixpoint instance_at (depth : nat) : obj :=
  match depth with
  | O => {| py_getattr := fun _ => raise RecursionError;
            py_setattr := fun _ _ => raise RecursionError |}
  | S n => let inner := instance_at n in
           {| py_getattr := object_getattribute inner;
              py_setattr := object_setattr inner |}
  end.

(** Access through the class: [cls.name].  It runs next to whatever
    instance store there is and has no instance to work on. *)
Definition type_getattribute (name : string) : IM value :=
  match ns_lookup (cls_dict cls) name with
  | Some (CRef r) =>
      match heap !! r with
      | Some (Descriptor tp sn) =>
          match tp_get tp with
          | Some get => get (Self r sn) None
          | None => ret (VRef r)
          end
      | Some (Property _ _) => ret (VRef r)
      | None => raise (AttributeError name)
      end
  | Some (CFunction q) => ret (VMethod q)
  | Some (CValue v) => ret v
  | Some (CList names) => ret (VList names)
  | None => raise (AttributeError name)
  end.
End Protocol.

Definition recursion_limit : nat := 1000.

(** A managed instance of [cls]. *)
Definition managed_instance (heap : list cobj) (cls : pyclass) : obj :=
  instance_at heap cls recursion_limit.

(** [cls(args)]: the new instance [self], with an empty [__dict__], is
    passed to [__init__]; the call returns the instance's [__dict__], or
    raises. *)
Definition instantiate (self : obj) (init : obj -> IM unit)
  : result (gmap string value) :=
  match init self ∅ with
  | (Ok _, d) => Ok d
  | (Raise e, _) => Raise e
  end.

(** ** Class-level state *)

(** The store of module-level code: the heap of class-level objects, the
    [int] class attributes (qualified class name and attribute name), and the
    function attribute [quantity_auto.counter]. *)
Record cstate : Type := {
  heap : list cobj;
  class_attrs : gmap (string * string) nat;
  quantity_auto_counter : option nat
}.
Abbreviation CM := (M cstate).

Definition alloc (o : cobj) : CM ref :=
  fun s => (Ok (length (heap s)),
            {| heap := heap s ++ [o]; class_attrs := class_attrs s;
               quantity_auto_counter := quantity_auto_counter s |}).

(** The object at a reference.  References are made by [alloc] only, so
    that the lookup succeeds; a dangling one would be an AttributeError. *)
Definition deref (r : ref) : CM cobj :=
  fun s => match heap s !! r with
           | Some o => (Ok o, s)
           | None => (Raise (AttributeError "storage_name"), s)
           end.

(** [attr.storage_name = name] *)
Definition set_storage_name (r : ref) (name : string) : CM unit :=
  fun s => match heap s !! r with
           | Some (Descriptor tp _) =>
               (Ok tt, {| heap := <[r := Descriptor tp name]> (heap s);
                          class_attrs := class_attrs s;
                          quantity_auto_counter := quantity_auto_counter s |})
           | _ => (Raise (AttributeError "storage_name"), s)
           end.

(** [cls.attr] for an [int] class attribute: the first class of the MRO
    that has it. *)
Fixpoint mro_lookup (attrs : gmap (string * string) nat) (mro : list string)
    (attr : string) : option nat :=
  match mro with
  | [] => None
  | c :: mro' =>
      match attrs !! (c, attr) with
      | Some k => Some k
      | None => mro_lookup attrs mro' attr
      end
  end.

Definition class_getattr (tp : dtype) (attr : string) : CM nat :=
  fun s => match mro_lookup (class_attrs s) (tp_mro tp) attr with
           | Some k => (Ok k, s)
           | None => (Raise (AttributeError attr), s)
           end.

(** [cls.attr = k]: written in the dictionary of [cls] itself. *)
Definition class_setattr (tp : dtype) (attr : string) (k : nat) : CM unit :=
  fun s => match tp_mro tp with
           | c :: _ =>
               (Ok tt, {| heap := heap s;
                          class_attrs := <[(c, attr) := k]> (class_attrs s);
                          quantity_auto_counter := quantity_auto_counter s |})
           | [] => (Raise TypeError, s)
           end.

(** [isinstance(attr, base)] for a class attribute: a descriptor object
    whose class has [base] in its MRO. *)
Definition isinstance (h : list cobj) (a : cattr) (base : string) : bool :=
  match a with
  | CRef r =>
      match h !! r with
      | Some (Descriptor tp _) => existsb (String.eqb base) (tp_mro tp)
      | _ => false
      end
  | _ => false
  end.

(** [cls()] for a descriptor class whose [__init__] computes the
    [storage_name] of the new object. *)
Definition new (tp : dtype) (init : dtype -> CM string) : CM ref :=
  if tp_abstract tp then raise TypeError
  else let* sn := init tp in alloc (Descriptor tp sn).

(** [for x in xs: acc = body acc x], for a loop that rebinds a local. *)
Fixpoint for_fold {S A B} (xs : list A) (acc : B) (body : B -> A -> M S B)
    : M S B :=
  match xs with
  | [] => ret acc
  | x :: xs' => let* acc' := body acc x in for_fold xs' acc' body
  end.

(** [type(attr).__name__] of a class attribute that is a descriptor. *)
Definition type_name (a : cattr) : CM string :=
  match a with
  | CRef r =>
      let* o := deref r in
      match o with
      | Descriptor tp _ => ret (tp_name tp)
      | Property _ _ => ret "property"
      end
  | _ => raise TypeError
  end.

(** [attr.storage_name = name] on a class attribute. *)
Definition attr_set_storage_name (a : cattr) (name : string) : CM unit :=
  match a with
  | CRef r => set_storage_name r name
  | _ => raise (AttributeError "storage_name")
  end.

(** A fresh interpreter. *)
Definition fresh : cstate :=
  {| heap := []; class_attrs := ∅; quantity_auto_counter := None |}.

(** The entries every class body starts with.  (The [__doc__] entry of a
    class with a docstring, and the entries that [type] adds to the class
    [__dict__], hold strings and attribute descriptors of the runtime; none
    is a descriptor of this code, no code here reads them, and they are left
    out.) *)
Definition body_start (module qualname : string) (ns : namespace) : namespace :=
  ns_set (ns_set ns "__module__" (CValue (VStr module)))
         "__qualname__" (CValue (VStr qualname)).

(** ** property_bulkfood.py *)
Module property_bulkfood.

Module LineItem.
(** [self.__weight] is the attribute [_LineItem__weight]. *)
Definition weight_getter (self : obj) : IM value :=
  py_getattr self "_LineItem__weight".

Definition weight_setter (self : obj) (value : value) : IM unit :=
  let* positive := lift (py_gt0 value) in
  if positive then py_setattr self "_LineItem__weight" value
  else raise (ValueError "value must be > 0").

Definition __init__ (self : obj) (description weight price : value)
  : IM unit :=
  py_setattr self "description" description >>>
  py_setattr self "weight" weight >>>
  py_setattr self "price" price.

Definition subtotal (self : obj) : IM value :=
  let* w := py_getattr self "weight" in
  let* p := py_getattr self "price" in
  lift (py_mul w p).

Definition class_body : CM pyclass :=
  let ns := body_start "property_bulkfood" "LineItem" [] in
  let ns := ns_set ns "__init__" (CFunction "LineItem.__init__") in
  let ns := ns_set ns "subtotal" (CFunction "LineItem.subtotal") in
  let* weight := alloc (Property weight_getter weight_setter) in
  let ns := ns_set ns "weight" (CRef weight) in
  ret {| cls_name := "LineItem"; cls_dict := ns |}.
End LineItem.

Module LineItemClassic.
Definition __init__ (self : obj) (description weight price : value)
  : IM unit :=
  py_setattr self "description" description >>>
  py_setattr self "weight" weight >>>
  py_setattr self "price" price.

Definition subtotal (self : obj) : IM value :=
  let* w := py_getattr self "weight" in
  let* p := py_getattr self "price" in
  lift (py_mul w p).

Definition get_weight (self : obj) : IM value :=
  py_getattr self "_LineItemClassic__weight".

Definition set_weight (self : obj) (value : value) : IM unit :=
  let* positive := lift (py_gt0 value) in
  if positive then py_setattr self "_LineItemClassic__weight" value
  else raise (ValueError "value must be > 0").

Definition class_body : CM pyclass :=
  let ns := body_start "property_bulkfood" "LineItemClassic" [] in
  let ns := ns_set ns "__init__" (CFunction "LineItemClassic.__init__") in
  let ns := ns_set ns "subtotal" (CFunction "LineItemClassic.subtotal") in
  let ns := ns_set ns "get_weight" (CFunction "LineItemClassic.get_weight") in
  let ns := ns_set ns "set_weight" (CFunction "LineItemClassic.set_weight") in
  let* weight := alloc (Property get_weight set_weight) in
  let ns := ns_set ns "weight" (CRef weight) in
  ret {| cls_name := "LineItemClassic"; cls_dict := ns |}.
End LineItemClassic.

(** The module, run at import: [LineItem] and [LineItemClassic]. *)
Definition module : CM (pyclass * pyclass) :=
  let* c1 := LineItem.class_body in
  let* c2 := LineItemClassic.class_body in
  ret (c1, c2).
End property_bulkfood.

(** ** descriptor_bulkfood.py *)
Module descriptor_bulkfood.

Module Quantity.
Definition __init__ (storage_name : string) (cls : dtype) : CM string :=
  ret storage_name.

Definition __set__ (self : self_t) (instance : obj) (value : value)
  : IM unit :=
  let* positive := lift (py_gt0 value) in
  if positive then dict_setitem (storage_name self) value
  else raise (ValueError "value must be > 0").

Definition type_object : dtype :=
  {| tp_name := "Quantity";
     tp_mro := ["descriptor_bulkfood.Quantity"; "object"];
     tp_abstract := false;
     tp_get := None;
     tp_set := Some __set__ |}.
End Quantity.

Module LineItem.
Definition __init__ (self : obj) (description weight price : value)
  : IM unit :=
  py_setattr self "description" description >>>
  py_setattr self "weight" weight >>>
  py_setattr self "price" price.

Definition subtotal (self : obj) : IM value :=
  let* w := py_getattr self "weight" in
  let* p := py_getattr self "price" in
  lift (py_mul w p).

Definition class_body : CM pyclass :=
  let ns := body_start "descriptor_bulkfood" "LineItem" [] in
  let* weight := new Quantity.type_object (Quantity.__init__ "weight") in
  let ns := ns_set ns "weight" (CRef weight) in
  let* price := new Quantity.type_object (Quantity.__init__ "price") in
  let ns := ns_set ns "price" (CRef price) in
  let ns := ns_set ns "__init__" (CFunction "LineItem.__init__") in
  let ns := ns_set ns "subtotal" (CFunction "LineItem.subtotal") in
  ret {| cls_name := "LineItem"; cls_dict := ns |}.
End LineItem.

Module QuantityAuto.
(** [cls.__counter] is the class attribute [_QuantityAuto__counter]. *)
Definition __init__ (cls : dtype) : CM string :=
  let prefix := tp_name cls in
  let* index := class_getattr cls "_QuantityAuto__counter" in
  let storage_name := format_hash prefix (str_of_nat index) in
  let* counter := class_getattr cls "_QuantityAuto__counter" in
  class_setattr cls "_QuantityAuto__counter" (counter + 1)%nat >>>
  ret storage_name.

Definition __get__ (self : self_t) (instance : option obj) : IM value :=
  match instance with
  | None => ret (VRef (self_ref self))
  | Some instance => py_getattr instance (storage_name self)
  end.

Definition __set__ (self : self_t) (instance : obj) (value : value)
  : IM unit :=
  let* positive := lift (py_gt0 value) in
  if positive then py_setattr instance (storage_name self) value
  else raise (ValueError "value must be > 0").

Definition type_object : dtype :=
  {| tp_name := "QuantityAuto";
     tp_mro := ["descriptor_bulkfood.QuantityAuto"; "object"];
     tp_abstract := false;
     tp_get := Some __get__;
     tp_set := Some __set__ |}.

(** The class statement: [__counter = 0] in the class body. *)
Definition class_statement : CM unit :=
  class_setattr type_object "_QuantityAuto__counter" 0%nat.
End QuantityAuto.

Module LineItemAuto.
Definition __init__ (self : obj) (description weight price : value)
  : IM unit :=
  py_setattr self "description" description >>>
  py_setattr self "price" price >>>
  py_setattr self "weight" weight.

Definition subtotal (self : obj) : IM value :=
  let* w := py_getattr self "weight" in
  let* p := py_getattr self "price" in
  lift (py_mul w p).

Definition class_body : CM pyclass :=
  let ns := body_start "descriptor_bulkfood" "LineItemAuto" [] in
  let* weight := new QuantityAuto.type_object QuantityAuto.__init__ in
  let ns := ns_set ns "weight" (CRef weight) in
  let* price := new QuantityAuto.type_object QuantityAuto.__init__ in
  let ns := ns_set ns "price" (CRef price) in
  let ns := ns_set ns "__init__" (CFunction "LineItemAuto.__init__") in
  let ns := ns_set ns "subtotal" (CFunction "LineItemAuto.subtotal") in
  ret {| cls_name := "LineItemAuto"; cls_dict := ns |}.
End LineItemAuto.

(** The module, run at import: [LineItem] and [LineItemAuto]. *)
Definition module : CM (pyclass * pyclass) :=
  let* c1 := LineItem.class_body in
  QuantityAuto.class_statement >>>
  let* c2 := LineItemAuto.class_body in
  ret (c1, c2).
End descriptor_bulkfood.

(** ** descriptor_bulkfood2.py *)
Module descriptor_bulkfood2.

Module AutoStorage.
(** [cls.__counter] is the class attribute [_AutoStorage__counter],
    found through the MRO of [cls] and written in [cls] itself. *)
Definition __init__ (cls : dtype) : CM string :=
  let prefix := tp_name cls in
  let* index := class_getattr cls "_AutoStorage__counter" in
  let storage_name := format_hash prefix (str_of_nat index) in
  let* counter := class_getattr cls "_AutoStorage__counter" in
  class_setattr cls "_AutoStorage__counter" (counter + 1)%nat >>>
  ret storage_name.

Definition __get__ (self : self_t) (instance : option obj) : IM value :=
  match instance with
  | None => ret (VRef (self_ref self))
  | Some instance => py_getattr instance (storage_name self)
  end.

Definition __set__ (self : self_t) (instance : obj) (value : value)
  : IM unit :=
  py_setattr instance (storage_name self) value.

Definition type_object : dtype :=
  {| tp_name := "AutoStorage";
     tp_mro := ["descriptor_bulkfood2.AutoStorage"; "object"];
     tp_abstract := false;
     tp_get := Some __get__;
     tp_set := Some __set__ |}.

(** The class statement: [__counter = 0] in the class body. *)
Definition class_statement : CM unit :=
  class_setattr type_object "_AutoStorage__counter" 0%nat.
End AutoStorage.

Module Validated.
(** The template method: [validate] is the method that the class of
    [self] provides. *)
Definition __set__ (validate : self_t -> obj -> value -> IM value)
    (self : self_t) (instance : obj) (value : value) : IM unit :=
  let* value := validate self instance value in
  AutoStorage.__set__ self instance value.

(** The abstract method has only a docstring for a body. *)
Definition validate (self : self_t) (instance : obj) (value : value)
  : IM_value := ret VNone.

Definition type_object : dtype :=
  {| tp_name := "Validated";
     tp_mro := ["descriptor_bulkfood2.Validated"; "abc.ABC";
                "descriptor_bulkfood2.AutoStorage"; "object"];
     tp_abstract := true;
     tp_get := Some AutoStorage.__get__;
     tp_set := Some (__set__ validate) |}.
End Validated.

Module Quantity.
Definition validate (self : self_t) (instance : obj) (value : value)
  : IM_value :=
  let* nonpositive := lift (py_le0 value) in
  if nonpositive then raise (ValueError "value must be > 0")
  else ret value.

Definition type_object : dtype :=
  {| tp_name := "Quantity";
     tp_mro := ["descriptor_bulkfood2.Quantity";
                "descriptor_bulkfood2.Validated"; "abc.ABC";
                "descriptor_bulkfood2.AutoStorage"; "object"];
     tp_abstract := false;
     tp_get := Some AutoStorage.__get__;
     tp_set := Some (Validated.__set__ validate) |}.
End Quantity.

Module NonBlank.
(** [value.strip()] exists on a [str] only. *)
Definition validate (self : self_t) (instance : obj) (value : value)
  : IM_value :=
  match value with
  | VStr s =>
      let value := str_strip s in
      if (String.length value =? 0)%nat
      then raise (ValueError "value cannot be empty or blank")
      else ret (VStr value)
  | _ => raise (AttributeError "strip")
  end.

Definition type_object : dtype :=
  {| tp_name := "NonBlank";
     tp_mro := ["descriptor_bulkfood2.NonBlank";
                "descriptor_bulkfood2.Validated"; "abc.ABC";
                "descriptor_bulkfood2.AutoStorage"; "object"];
     tp_abstract := false;
     tp_get := Some AutoStorage.__get__;
     tp_set := Some (Validated.__set__ validate) |}.
End NonBlank.

(** The loop body shared by the class decorator and the metaclasses. *)
Definition rename (key : string) (attr : cattr) : CM unit :=
  let* s := get_state in
  if isinstance (heap s) attr "descriptor_bulkfood2.Validated" then
    let* type_name := type_name attr in
    attr_set_storage_name attr (format_hash type_name key)
  else ret tt.

Definition entity (cls : pyclass) : CM pyclass :=
  for_each (cls_dict cls) (fun item => rename (fst item) (snd item)) >>>
  ret cls.

Module LineItem.
Definition __init__ (self : obj) (description weight price : value)
  : IM unit :=
  py_setattr self "description" description >>>
  py_setattr self "price" price >>>
  py_setattr self "weight" weight.

Definition subtotal (self : obj) : IM value :=
  let* w := py_getattr self "weight" in
  let* p := py_getattr self "price" in
  lift (py_mul w p).

Definition class_body : CM pyclass :=
  let ns := body_start "descriptor_bulkfood2" "LineItem" [] in
  let* description := new NonBlank.type_object AutoStorage.__init__ in
  let ns := ns_set ns "description" (CRef description) in
  let* weight := new Quantity.type_object AutoStorage.__init__ in
  let ns := ns_set ns "weight" (CRef weight) in
  let* price := new Quantity.type_object AutoStorage.__init__ in
  let ns := ns_set ns "price" (CRef price) in
  let ns := ns_set ns "__init__" (CFunction "LineItem.__init__") in
  let ns := ns_set ns "subtotal" (CFunction "LineItem.subtotal") in
  ret {| cls_name := "LineItem"; cls_dict := ns |}.
End LineItem.

(** The module, run at import: the descriptor classes, then the decorated
    [LineItem]. *)
Definition module : CM pyclass :=
  AutoStorage.class_statement >>>
  let* cls := LineItem.class_body in
  entity cls.
End descriptor_bulkfood2.

(** ** property_factory.py *)
Module property_factory.

Module quantity.
Definition qty_getter (storage_name : string) (instance : obj)
  : IM value :=
  dict_getitem storage_name.

Definition qty_setter (storage_name : string) (instance : obj)
    (value : value) : IM unit :=
  let* positive := lift (py_gt0 value) in
  if positive then dict_setitem storage_name value
  else raise (ValueError "value must be > 0").
End quantity.

Definition quantity (storage_name : string) : CM ref :=
  alloc (Property (quantity.qty_getter storage_name)
                  (quantity.qty_setter storage_name)).

Module quantity_auto.
Definition qty_getter (storage_name : string) (instance : obj)
  : IM value :=
  py_getattr instance storage_name.

Definition qty_setter (storage_name : string) (instance : obj)
    (value : value) : IM unit :=
  let* positive := lift (py_gt0 value) in
  if positive then py_setattr instance storage_name value
  else raise (ValueError "value must be > 0").

(** The [try] statement on the function attribute
    [quantity_auto.counter]. *)
Definition bump_counter : CM nat :=
  fun s =>
    let counter := match quantity_auto_counter s with
                   | Some k => (k + 1)%nat
                   | None => 0%nat
                   end in
    (Ok counter, {| heap := heap s; class_attrs := class_attrs s;
                    quantity_auto_counter := Some counter |}).

Definition storage_name_of (counter : nat) : string :=
  format_colon "quantity_auto" (str_of_nat counter).
End quantity_auto.

Definition quantity_auto : CM ref :=
  let* counter := quantity_auto.bump_counter in
  let storage_name := quantity_auto.storage_name_of counter in
  alloc (Property (quantity_auto.qty_getter storage_name)
                  (quantity_auto.qty_setter storage_name)).

Module LineItem.
Definition __init__ (self : obj) (description weight price : value)
  : IM unit :=
  py_setattr self "description" description >>>
  py_setattr self "weight" weight >>>
  py_setattr self "price" price.

Definition subtotal (self : obj) : IM value :=
  let* w := py_getattr self "weight" in
  let* p := py_getattr self "price" in
  lift (py_mul w p).

Definition class_body : CM pyclass :=
  let ns := body_start "property_factory" "LineItem" [] in
  let* weight := quantity "weight" in
  let ns := ns_set ns "weight" (CRef weight) in
  let* price := quantity "price" in
  let ns := ns_set ns "price" (CRef price) in
  let ns := ns_set ns "__init__" (CFunction "LineItem.__init__") in
  let ns := ns_set ns "subtotal" (CFunction "LineItem.subtotal") in
  ret {| cls_name := "LineItem"; cls_dict := ns |}.
End LineItem.

Module LineItemAuto.
Definition __init__ (self : obj) (description weight price : value)
  : IM unit :=
  py_setattr self "description" description >>>
  py_setattr self "weight" weight >>>
  py_setattr self "price" price.

Definition subtotal (self : obj) : IM value :=
  let* w := py_getattr self "weight" in
  let* p := py_getattr self "price" in
  lift (py_mul w p).

Definition class_body : CM pyclass :=
  let ns := body_start "property_factory" "LineItemAuto" [] in
  let* weight := quantity_auto in
  let ns := ns_set ns "weight" (CRef weight) in
  let* price := quantity_auto in
  let ns := ns_set ns "price" (CRef price) in
  let ns := ns_set ns "__init__" (CFunction "LineItemAuto.__init__") in
  let ns := ns_set ns "subtotal" (CFunction "LineItemAuto.subtotal") in
  ret {| cls_name := "LineItemAuto"; cls_dict := ns |}.
End LineItemAuto.

(** The module, run at import: [LineItem] and [LineItemAuto]. *)
Definition module : CM (pyclass * pyclass) :=
  let* c1 := LineItem.class_body in
  let* c2 := LineItemAuto.class_body in
  ret (c1, c2).
End property_factory.

(** ** metaclass_bulkfood.py *)
Module metaclass_bulkfood.
Import descriptor_bulkfood2.

(** [cls.name = a] on a class, and [cls.name.append(key)] on a class
    attribute that is a list. *)
Definition type_setattr (cls : pyclass) (name : string) (a : cattr)
  : pyclass :=
  {| cls_name := cls_name cls; cls_dict := ns_set (cls_dict cls) name a |}.

Definition list_append (cls : pyclass) (name key : string) : CM pyclass :=
  match ns_lookup (cls_dict cls) name with
  | Some (CList names) => ret (type_setattr cls name (CList (names ++ [key])))
  | _ => raise (AttributeError name)
  end.

(** [type.__new__] followed by the metaclass [__init__]: the class gets a
    copy of the namespace that the class body filled. *)
Definition build_class (name : string) (body : CM namespace)
    (init : pyclass -> namespace -> CM pyclass) : CM pyclass :=
  let* attr_dict := body in
  init {| cls_name := name; cls_dict := attr_dict |} attr_dict.

Module EntityMeta.
Definition __init__ (cls : pyclass) (attr_dict : namespace) : CM pyclass :=
  for_each attr_dict (fun item => rename (fst item) (snd item)) >>>
  ret cls.
End EntityMeta.

Module EntityMeta2.
(** An empty [OrderedDict]. *)
Definition __prepare__ : namespace := [].

Definition __init__ (cls : pyclass) (attr_dict : namespace) : CM pyclass :=
  let cls := type_setattr cls "_field_names" (CList []) in
  for_fold attr_dict cls (fun cls item =>
    let key := fst item in
    let attr := snd item in
    let* s := get_state in
    if isinstance (heap s) attr "descriptor_bulkfood2.Validated" then
      let* type_name := type_name attr in
      attr_set_storage_name attr (format_hash type_name key) >>>
      list_append cls "_field_names" key
    else ret cls).
End EntityMeta2.

Module Entity2.
(** The generator, as the list of what it yields. *)
Definition field_names (cls : pyclass) : result (list string) :=
  match ns_lookup (cls_dict cls) "_field_names" with
  | Some (CList names) => Ok names
  | Some _ => Raise TypeError
  | None => Raise (AttributeError "_field_names")
  end.

Definition class_body : CM namespace :=
  let ns := body_start "metaclass_bulkfood" "Entity2" EntityMeta2.__prepare__ in
  ret (ns_set ns "field_names" (CFunction "Entity2.field_names")).
End Entity2.

Module LineItem.
Definition __init__ (self : obj) (description weight price : value)
  : IM unit :=
  py_setattr self "description" description >>>
  py_setattr self "price" price >>>
  py_setattr self "weight" weight.

Definition subtotal (self : obj) : IM value :=
  let* w := py_getattr self "weight" in
  let* p := py_getattr self "price" in
  lift (py_mul w p).

Definition class_body : CM namespace :=
  let ns := body_start "metaclass_bulkfood" "LineItem" EntityMeta2.__prepare__ in
  let* description := new NonBlank.type_object AutoStorage.__init__ in
  let ns := ns_set ns "description" (CRef description) in
  let* weight := new Quantity.type_object AutoStorage.__init__ in
  let ns := ns_set ns "weight" (CRef weight) in
  let* price := new Quantity.type_object AutoStorage.__init__ in
  let ns := ns_set ns "price" (CRef price) in
  let ns := ns_set ns "__init__" (CFunction "LineItem.__init__") in
  let ns := ns_set ns "subtotal" (CFunction "LineItem.subtotal") in
  ret ns.
End LineItem.

(** The module, run at import: the import of [descriptor_bulkfood2] runs
    that module first; then [Entity], [Entity2] and [LineItem] are
    built. *)
Definition module : CM (pyclass * pyclass) :=
  let* _imported := descriptor_bulkfood2.module in
  let* _Entity :=
    build_class "Entity" (ret (body_start "metaclass_bulkfood" "Entity" []))
                EntityMeta.__init__ in
  let* Entity2 :=
    build_class "Entity2" Entity2.class_body EntityMeta2.__init__ in
  let* LineItem :=
    build_class "LineItem" LineItem.class_body EntityMeta2.__init__ in
  ret (Entity2, LineItem).
End metaclass_bulkfood.

(** ** The LineItem classes of the repository *)

(** What a module leaves after its import in a fresh interpreter.  The
    imports succeed ([imports_succeed] below), so the default is never
    used. *)
Definition no_class : pyclass :=
  {| cls_name := EmptyString; cls_dict := [] |}.

Definition classes_of {A} (module : CM A) (default : A) : A :=
  match fst (module fresh) with
  | Ok a => a
  | Raise _ => default
  end.

Definition heap_of {A} (module : CM A) : list cobj := heap (snd (module fresh)).

Inductive line_item : Type :=
| property_LineItem          (* property_bulkfood.LineItem *)
| property_LineItemClassic   (* property_bulkfood.LineItemClassic *)
| descriptor_LineItem        (* descriptor_bulkfood.LineItem *)
| descriptor_LineItemAuto    (* descriptor_bulkfood.LineItemAuto *)
| validated_LineItem         (* descriptor_bulkfood2.LineItem *)
| metaclass_LineItem         (* metaclass_bulkfood.LineItem *)
| factory_LineItem           (* property_factory.LineItem *)
| factory_LineItemAuto.      (* property_factory.LineItemAuto *)

Definition heap_for (i : line_item) : list cobj :=
  match i with
  | property_LineItem | property_LineItemClassic =>
      heap_of property_bulkfood.module
  | descriptor_LineItem | descriptor_LineItemAuto =>
      heap_of descriptor_bulkfood.module
  | validated_LineItem => heap_of descriptor_bulkfood2.module
  | metaclass_LineItem => heap_of metaclass_bulkfood.module
  | factory_LineItem | factory_LineItemAuto => heap_of property_factory.module
  end.

Definition class_for (i : line_item) : pyclass :=
  match i with
  | property_LineItem =>
      fst (classes_of property_bulkfood.module (no_class, no_class))
  | property_LineItemClassic =>
      snd (classes_of property_bulkfood.module (no_class, no_class))
  | descriptor_LineItem =>
      fst (classes_of descriptor_bulkfood.module (no_class, no_class))
  | descriptor_LineItemAuto =>
      snd (classes_of descriptor_bulkfood.module (no_class, no_class))
  | validated_LineItem => classes_of descriptor_bulkfood2.module no_class
  | metaclass_LineItem =>
      snd (classes_of metaclass_bulkfood.module (no_class, no_class))
  | factory_LineItem =>
      fst (classes_of property_factory.module (no_class, no_class))
  | factory_LineItemAuto =>
      snd (classes_of property_factory.module (no_class, no_class))
  end.

Definition init_for (i : line_item)
  : obj -> value -> value -> value -> IM unit :=
  match i with
  | property_LineItem => property_bulkfood.LineItem.__init__
  | property_LineItemClassic => property_bulkfood.LineItemClassic.__init__
  | descriptor_LineItem => descriptor_bulkfood.LineItem.__init__
  | descriptor_LineItemAuto => descriptor_bulkfood.LineItemAuto.__init__
  | validated_LineItem => descriptor_bulkfood2.LineItem.__init__
  | metaclass_LineItem => metaclass_bulkfood.LineItem.__init__
  | factory_LineItem => property_factory.LineItem.__init__
  | factory_LineItemAuto => property_factory.LineItemAuto.__init__
  end.

Definition subtotal_for (i : line_item) : obj -> IM value :=
  match i with
  | property_LineItem => property_bulkfood.LineItem.subtotal
  | property_LineItemClassic => property_bulkfood.LineItemClassic.subtotal
  | descriptor_LineItem => descriptor_bulkfood.LineItem.subtotal
  | descriptor_LineItemAuto => descriptor_bulkfood.LineItemAuto.subtotal
  | validated_LineItem => descriptor_bulkfood2.LineItem.subtotal
  | metaclass_LineItem => metaclass_bulkfood.LineItem.subtotal
  | factory_LineItem => property_factory.LineItem.subtotal
  | factory_LineItemAuto => property_factory.LineItemAuto.subtotal
  end.

(** An instance of the class, and the call [LineItem(description, weight,
    price)]. *)
Definition instance_for (i : line_item) : obj :=
  managed_instance (heap_for i) (class_for i).

Definition construct_item (i : line_item) (description weight price : value)
  : result (gmap string value) :=
  instantiate (instance_for i)
    (fun self => init_for i self description weight price).

(** An attribute is managed when the class binds its name to a descriptor
    or property object. *)
Definition is_managed (i : line_item) (a : string) : bool :=
  match ns_lookup (cls_dict (class_for i)) a with
  | Some (CRef _) => true
  | _ => false
  end.

(** The three variants that the description of the pattern names. *)
Definition named_variants : list line_item :=
  [property_LineItem; descriptor_LineItem; validated_LineItem].

(** The stores an instance goes through: construction, then assignments to
    its three attributes, each of which may succeed or raise. *)
Inductive live (i : line_item) : gmap string value -> Prop :=
| live_new description weight price d :
    construct_item i description weight price = Ok d -> live i d
| live_assign a v d r d' :
    live i d -> In a ["description"; "weight"; "price"] ->
    py_setattr (instance_for i) a v d = (r, d') -> live i d'.

(** ** What the attributes of the eight classes amount to

    A summary of each attribute of each class: the storage attribute in the
    instance [__dict__], the check made before storing, and the outcome of a
    read when the storage attribute is missing.  [attribute_summary] below
    proves that the code behaves as the summary says. *)
Inductive guard : Type :=
| Unchecked        (* stored as given *)
| Positive         (* stored if [value > 0], else ValueError *)
| NotNonPositive   (* ValueError if [value <= 0], else stored *)
| Stripped.        (* [value.strip()] stored unless it is empty *)

Definition store (g : guard) (sn : string) (v : value) : IM unit :=
  match g with
  | Unchecked => dict_setitem sn v
  | Positive =>
      let* positive := lift (py_gt0 v) in
      if positive then dict_setitem sn v
      else raise (ValueError "value must be > 0")
  | NotNonPositive =>
      let* checked :=
        (let* nonpositive := lift (py_le0 v) in
         if nonpositive then raise (ValueError "value must be > 0")
         else ret v) in
      dict_setitem sn checked
  | Stripped =>
      let* stripped :=
        match v with
        | VStr s =>
            if (String.length (str_strip s) =? 0)%nat
            then raise (ValueError "value cannot be empty or blank")
            else ret (VStr (str_strip s))
        | _ => raise (AttributeError "strip")
        end in
      dict_setitem sn stripped
  end.

(** The guards of the quantity attributes. *)
Definition checks_quantity (g : guard) : Prop :=
  g = Positive \/ g = NotNonPositive.

Definition load (sn : string) (absent : result value) : IM value :=
  fun d => match d !! sn with
           | Some v => (Ok v, d)
           | None => (absent, d)
           end.

Definition storage_for (i : line_item) (a : string) : string :=
  if String.eqb a "weight" then
    match i with
    | property_LineItem => "_LineItem__weight"
    | property_LineItemClassic => "_LineItemClassic__weight"
    | descriptor_LineItem | factory_LineItem => "weight"
    | descriptor_LineItemAuto => "_QuantityAuto#0"
    | validated_LineItem | metaclass_LineItem => "_Quantity#weight"
    | factory_LineItemAuto => "_quantity_auto:0"
    end
  else if String.eqb a "price" then
    match i with
    | descriptor_LineItemAuto => "_QuantityAuto#1"
    | validated_LineItem | metaclass_LineItem => "_Quantity#price"
    | factory_LineItemAuto => "_quantity_auto:1"
    | _ => "price"
    end
  else if String.eqb a "description" then
    match i with
    | validated_LineItem | metaclass_LineItem => "_NonBlank#description"
    | _ => "description"
    end
  else a.

Definition guard_for (i : line_item) (a : string) : guard :=
  if negb (is_managed i a) then Unchecked
  else if String.eqb a "description" then Stripped
  else match i with
       | validated_LineItem | metaclass_LineItem => NotNonPositive
       | _ => Positive
       end.

Definition absent_for (i : line_item) (a : string) : result value :=
  match ns_lookup (cls_dict (class_for i)) a, i with
  | Some (CRef r), descriptor_LineItem => Ok (VRef r)
  | Some (CRef _), factory_LineItem => Raise (KeyError (storage_for i a))
  | _, _ => Raise (AttributeError (storage_for i a))
  end.

(** ** Auto-generated storage names *)

(** The constructors that generate a storage name from a counter. *)
Inductive auto_ctor : Type :=
| make_AutoStorage      (* AutoStorage() *)
| make_Quantity         (* Quantity(), of descriptor_bulkfood2 *)
| make_NonBlank         (* NonBlank() *)
| make_QuantityAuto     (* QuantityAuto() *)
| make_quantity_auto.   (* quantity_auto() *)

Definition construct (k : auto_ctor) : CM ref :=
  match k with
  | make_AutoStorage =>
      new descriptor_bulkfood2.AutoStorage.type_object
          descriptor_bulkfood2.AutoStorage.__init__
  | make_Quantity =>
      new descriptor_bulkfood2.Quantity.type_object
          descriptor_bulkfood2.AutoStorage.__init__
  | make_NonBlank =>
      new descriptor_bulkfood2.NonBlank.type_object
          descriptor_bulkfood2.AutoStorage.__init__
  | make_QuantityAuto =>
      new descriptor_bulkfood.QuantityAuto.type_object
          descriptor_bulkfood.QuantityAuto.__init__
  | make_quantity_auto => property_factory.quantity_auto
  end.

(** The interpreter once the descriptor classes are defined (their class
    bodies set the counters to 0) and before any descriptor is made. *)
Definition classes_defined : cstate :=
  snd ((descriptor_bulkfood2.AutoStorage.class_statement >>>
        descriptor_bulkfood.QuantityAuto.class_statement) fresh).

(** The name that a constructor derives from the counter value [index]. *)
Definition auto_name (k : auto_ctor) (index : nat) : string :=
  match k with
  | make_AutoStorage => format_hash "AutoStorage" (str_of_nat index)
  | make_Quantity => format_hash "Quantity" (str_of_nat index)
  | make_NonBlank => format_hash "NonBlank" (str_of_nat index)
  | make_QuantityAuto => format_hash "QuantityAuto" (str_of_nat index)
  | make_quantity_auto => format_colon "quantity_auto" (str_of_nat index)
  end.

(** An instance handle that answers every read with the name it was asked
    for: it shows which attribute a property getter reads. *)
Definition spy : obj :=
  {| py_getattr := fun name => ret (VStr name);
     py_setattr := fun _ _ => ret tt |}.

(** The storage attribute of a class-level object: the [storage_name] of a
    descriptor, the attribute that the getter of a property asks for. *)
Definition storage_attribute (o : cobj) : option string :=
  match o with
  | Descriptor _ sn => Some sn
  | Property fget _ =>
      match fget spy ∅ with
      | (Ok (VStr name), _) => Some name
      | _ => None
      end
  end.

Definition storage_attribute_at (s : cstate) (r : ref) : option string :=
  match heap s !! r with
  | Some o => storage_attribute o
  | None => None
  end.


(** ** A class that binds one descriptor under two names

    [[
    @entity
    class Shared:
        weight = price = Quantity()
    ]] *)
Definition shared_class_body : CM pyclass :=
  let ns := body_start "shared" "Shared" [] in
  let* q := new descriptor_bulkfood2.Quantity.type_object
                descriptor_bulkfood2.AutoStorage.__init__ in
  let ns := ns_set ns "weight" (CRef q) in
  let ns := ns_set ns "price" (CRef q) in
  ret {| cls_name := "Shared"; cls_dict := ns |}.

Definition shared_module : CM pyclass :=
  descriptor_bulkfood2.AutoStorage.class_statement >>>
  let* cls := shared_class_body in
  descriptor_bulkfood2.entity cls.

(** ** The source files and their imports

    Every import of every file under the source directory: the import
    statements of the code (at module level or inside a function) and the
    import lines of the doctests ([>>> import m], [>>> from m import x]),
    each with its line. *)

Inductive import_place : Type :=
| statement   (* an import statement of the code *)
| doctest.    (* an import line of a doctest *)

Record import_line : Type := imp {
  at_line : nat;
  place : import_place;
  imported : string
}.

Record source_file : Type := {
  path : string;
  module_name : string;
  imports : list import_line
}.

Definition repository : list source_file :=
  [
    {| path := "Part1-Data-Structures/structure_frenchdeck.py";
       module_name := "structure_frenchdeck";
       imports :=
         [imp 1 statement "collections";
          imp 20 doctest "random";
          imp 63 doctest "random"] |};
    {| path := "Part1-Data-Structures/structure_mapping.py";
       module_name := "structure_mapping";
       imports :=
         [imp 2 statement "collections";
          imp 3 statement "sys";
          imp 4 statement "re"] |};
    {| path := "Part1-Data-Structures/unicode_normeq.py";
       module_name := "unicode_normeq";
       imports :=
         [imp 41 statement "unicodedata";
          imp 42 statement "re"] |};
    {| path := "Part2-Functions-as-Objects/decorator_clock.py";
       module_name := "decorator_clock";
       imports :=
         [imp 1 statement "time";
          imp 2 statement "functools"] |};
    {| path := "Part2-Functions-as-Objects/decorator_closure.py";
       module_name := "decorator_closure";
       imports :=
         [] |};
    {| path := "Part2-Functions-as-Objects/decorator_parameter.py";
       module_name := "decorator_parameter";
       imports :=
         [imp 1 statement "time"] |};
    {| path := "Part2-Functions-as-Objects/decorator_registration.py";
       module_name := "decorator_registration";
       imports :=
         [imp 20 doctest "decorator_registration"] |};
    {| path := "Part2-Functions-as-Objects/decorator_singledispatch.py";
       module_name := "decorator_singledispatch";
       imports :=
         [imp 1 statement "functools";
          imp 2 statement "collections";
          imp 3 statement "html";
          imp 4 statement "numbers"] |};
    {| path := "Part2-Functions-as-Objects/function.py";
       module_name := "function";
       imports :=
         [imp 4 doctest "functools";
          imp 5 doctest "operator";
          imp 49 doctest "collections";
          imp 66 doctest "operator";
          imp 74 doctest "operator";
          imp 91 doctest "unicodedata";
          imp 118 doctest "inspect";
          imp 162 doctest "inspect";
          imp 215 doctest "inspect";
          imp 234 doctest "functools"] |};
    {| path := "Part3-Object-Oriented-Idioms/abc_tombola.py";
       module_name := "abc_tombola";
       imports :=
         [imp 1 statement "abc";
          imp 2 statement "random"] |};
    {| path := "Part3-Object-Oriented-Idioms/class_Vector2d.py";
       module_name := "class_Vector2d";
       imports :=
         [imp 1 statement "array";
          imp 2 statement "math"] |};
    {| path := "Part3-Object-Oriented-Idioms/inheritance_mro.py";
       module_name := "inheritance_mro";
       imports :=
         [imp 39 doctest "structure_frenchdeck";
          imp 42 doctest "numbers";
          imp 45 doctest "io"] |};
    {| path := "Part3-Object-Oriented-Idioms/inheritance_subclassing.py";
       module_name := "inheritance_subclassing";
       imports :=
         [imp 8 statement "collections"] |};
    {| path := "Part3-Object-Oriented-Idioms/object_reference_mutability.py";
       module_name := "object_reference_mutability";
       imports :=
         [imp 4 doctest "copy";
          imp 114 doctest "weakref"] |};
    {| path := "Part3-Object-Oriented-Idioms/operator_overloading.py";
       module_name := "operator_overloading";
       imports :=
         [imp 1 statement "itertools";
          imp 2 statement "numbers";
          imp 4 statement "abc_tombola";
          imp 5 statement "class_Vector";
          imp 45 doctest "class_Vector2d";
          imp 85 doctest "fractions"] |};
    {| path := "Part4-Control-Flow/contextmanager_mirror.py";
       module_name := "contextmanager_mirror";
       imports :=
         [imp 1 statement "contextlib";
          imp 54 statement "sys";
          imp 72 statement "sys";
          imp 107 statement "sys"] |};
    {| path := "Part4-Control-Flow/generator.py";
       module_name := "generator";
       imports :=
         [imp 11 doctest "itertools";
          imp 30 doctest "itertools";
          imp 36 doctest "operator";
          imp 54 doctest "itertools";
          imp 85 doctest "itertools";
          imp 115 doctest "itertools";
          imp 165 statement "itertools";
          imp 179 doctest "fractions";
          imp 183 doctest "decimal"] |};
    {| path := "Part4-Control-Flow/iterator_sentence.py";
       module_name := "iterator_sentence";
       imports :=
         [imp 1 statement "re";
          imp 2 statement "reprlib";
          imp 3 statement "random"] |};
    {| path := "Part5-Metaprogramming/attribute_osconfeed.py";
       module_name := "attribute_osconfeed";
       imports :=
         [imp 1 statement "keyword";
          imp 2 statement "urllib.request";
          imp 3 statement "warnings";
          imp 4 statement "os";
          imp 5 statement "json";
          imp 6 statement "collections"] |};
    {| path := "Part5-Metaprogramming/attribute_schedule.py";
       module_name := "attribute_schedule";
       imports :=
         [imp 1 statement "warnings";
          imp 2 statement "attribute_osconfeed";
          imp 31 doctest "shelve"] |};
    {| path := "Part5-Metaprogramming/attribute_schedule2.py";
       module_name := "attribute_schedule2";
       imports :=
         [imp 1 statement "warnings";
          imp 2 statement "inspect";
          imp 3 statement "attribute_osconfeed";
          imp 39 doctest "shelve"] |};
    {| path := "Part5-Metaprogramming/descriptor_bulkfood.py";
       module_name := "descriptor_bulkfood";
       imports :=
         [] |};
    {| path := "Part5-Metaprogramming/descriptor_bulkfood2.py";
       module_name := "descriptor_bulkfood2";
       imports :=
         [imp 1 statement "abc"] |};
    {| path := "Part5-Metaprogramming/descriptor_kinds.py";
       module_name := "descriptor_kinds";
       imports :=
         [] |};
    {| path := "Part5-Metaprogramming/metaclass_bulkfood.py";
       module_name := "metaclass_bulkfood";
       imports :=
         [imp 1 statement "collections";
          imp 3 statement "descriptor_bulkfood2"] |};
    {| path := "Part5-Metaprogramming/metaclass_evalsupport.py";
       module_name := "metaclass_evalsupport";
       imports :=
         [] |};
    {| path := "Part5-Metaprogramming/metaclass_evaltime.py";
       module_name := "metaclass_evaltime";
       imports :=
         [imp 1 statement "metaclass_evalsupport";
          imp 74 doctest "evaltime"] |};
    {| path := "Part5-Metaprogramming/metaclass_evaltime2.py";
       module_name := "metaclass_evaltime2";
       imports :=
         [imp 12 doctest "descriptor_bulkfood2";
          imp 22 doctest "collections";
          imp 25 doctest "abc";
          imp 33 statement "metaclass_evalsupport";
          imp 34 statement "metaclass_evalsupport";
          imp 100 doctest "metaclass_evaltime2.py"] |};
    {| path := "Part5-Metaprogramming/metaclass_factory.py";
       module_name := "metaclass_factory";
       imports :=
         [] |};
    {| path := "Part5-Metaprogramming/property_attributes.py";
       module_name := "property_attributes";
       imports :=
         [] |};
    {| path := "Part5-Metaprogramming/property_bulkfood.py";
       module_name := "property_bulkfood";
       imports :=
         [] |};
    {| path := "Part5-Metaprogramming/property_factory.py";
       module_name := "property_factory";
       imports :=
         [] |}
  ]%nat.

(** The first component of a dotted module name: the module that the
    import loads first. *)
Fixpoint top_level (m : string) : string :=
  match m with
  | EmptyString => EmptyString
  | String c m' => if Ascii.eqb c "."%char then EmptyString
                   else String c (top_level m')
  end.

Definition is_repository_module (m : string) : bool :=
  existsb (fun f => String.eqb (module_name f) m) repository.

(** An import of another source file of the repository. *)
Definition is_sibling (f : source_file) (i : import_line) : bool :=
  let m := top_level (imported i) in
  is_repository_module m && negb (String.eqb m (module_name f)).

Definition sibling_imports (f : source_file) : list import_line :=
  List.filter (is_sibling f) (imports f).

(** A file is self-contained when none of its imports, in the code or in a
    doctest, is of another source file of the repository. *)
Definition self_contained (f : source_file) : bool :=
  forallb (fun i => negb (is_sibling f i)) (imports f).

Definition is_statement (i : import_line) : bool :=
  match place i with
  | statement => true
  | doctest => false
  end.

(** The same for the import statements of the code alone. *)
Definition self_contained_code (f : source_file) : bool :=
  forallb (fun i => negb (is_sibling f i && is_statement i)) (imports f).

(** The files that are not self-contained, with the lines and the modules
    of their sibling imports. *)
Definition dependent_files : list (string * list (nat * string)) :=
  map (fun f => (module_name f,
                 map (fun i => (at_line i, imported i)) (sibling_imports f)))
      (List.filter (fun f => negb (self_contained f)) repository).

(** [attr.storage_name] of the descriptor object at a reference. *)
Definition storage_name_at (h : list cobj) (r : ref) : option string :=
  match h !! r with
  | Some (Descriptor _ sn) => Some sn
  | _ => None
  end.

(** [int] and [float] values. *)
Definition is_number (v : value) : Prop :=
  match v with
  | VInt _ | VFloat _ => True
  | _ => False
  end.

(** The description is one that the class accepts on a new instance. *)
Definition accepts_description (i : line_item) (description : value) : Prop :=
  fst (py_setattr (instance_for i) "description" description ∅) = Ok tt.


(** The storage name that a new object receives: [k().storage_name], or
    for a property the attribute that its getter reads. *)
Definition received_name (k : auto_ctor) : CM string :=
  let* r := construct k in
  let* s := get_state in
  match storage_attribute_at s r with
  | Some name => ret name
  | None => raise (AttributeError "storage_name")
  end.

Fixpoint received_names (ks : list auto_ctor) : CM (list string) :=
  match ks with
  | [] => ret []
  | k :: ks' =>
      let* name := received_name k in
      let* names := received_names ks' in
      ret (name :: names)
  end.

(** The counter value that the next call of a constructor will read. *)
Definition next_index (s : cstate) (k : auto_ctor) : option nat :=
  match k with
  | make_AutoStorage =>
      mro_lookup (class_attrs s)
        (tp_mro descriptor_bulkfood2.AutoStorage.type_object)
        "_AutoStorage__counter"
  | make_Quantity =>
      mro_lookup (class_attrs s)
        (tp_mro descriptor_bulkfood2.Quantity.type_object)
        "_AutoStorage__counter"
  | make_NonBlank =>
      mro_lookup (class_attrs s)
        (tp_mro descriptor_bulkfood2.NonBlank.type_object)
        "_AutoStorage__counter"
  | make_QuantityAuto =>
      mro_lookup (class_attrs s)
        (tp_mro descriptor_bulkfood.QuantityAuto.type_object)
        "_QuantityAuto__counter"
  | make_quantity_auto =>
      Some match quantity_auto_counter s with
           | Some k => S k
           | None => O
           end
  end.

(** The effect of one round of the renaming loop on the heap, and of the
    whole loop. *)
Definition with_heap (s : cstate) (h : list cobj) : cstate :=
  {| heap := h; class_attrs := class_attrs s;
     quantity_auto_counter := quantity_auto_counter s |}.

Definition renamed (h : list cobj) (key : string) (attr : cattr) : list cobj :=
  match attr with
  | CRef r =>
      match h !! r with
      | Some (Descriptor tp _) =>
          if isinstance h attr "descriptor_bulkfood2.Validated"
          then <[r := Descriptor tp (format_hash (tp_name tp) key)]> h
          else h
      | _ => h
      end
  | _ => h
  end.

Fixpoint renamed_all (h : list cobj) (ns : namespace) : list cobj :=
  match ns with
  | [] => h
  | (key, attr) :: ns' => renamed_all (renamed h key attr) ns'
  end.

(** The names bound to Validated descriptors, in the order of the
    namespace. *)
Definition validated_names (h : list cobj) (ns : namespace) : list string :=
  map fst (List.filter
             (fun item => isinstance h (snd item) "descriptor_bulkfood2.Validated")
             ns).

(** The [float] literals of the doctests: 6.95, 17.95, 13.95, 10.00 and
    69.5. *)
Definition float_6_95 : spec_float := S754_finite false 7825004352556237 (-50).
Definition float_17_95 : spec_float := S754_finite false 5052475831956275 (-48).
Definition float_13_95 : spec_float := S754_finite false 7853151850227302 (-49).
Definition float_10_00 : spec_float := S754_finite false 5629499534213120 (-49).
Definition float_69_5 : spec_float := S754_finite false 4890627720347648 (-46).

(** A class whose descriptor stores under the name it is bound to, through
    [getattr] and [setattr]: the recursion that the source warns about.

    [[
    class Looping:
        weight = QuantityAuto()
    Looping.weight.storage_name = 'weight'
    ]] *)
Definition looping_class : pyclass :=
  {| cls_name := "Looping"; cls_dict := [("weight", CRef 0%nat)] |}.
Definition looping_heap : list cobj :=
  [Descriptor descriptor_bulkfood.QuantityAuto.type_object "weight"].

(** ** Values that a check lets through

    What [store] requires of a value to write it unchanged. *)
Definition passes (g : guard) (v : value) : Prop :=
  match g with
  | Unchecked => True
  | Positive => py_gt0 v = Ok true
  | NotNonPositive => py_le0 v = Ok false
  | Stripped => exists s, v = VStr s /\ str_strip s = s /\ s <> EmptyString
  end.

(** The storage attributes of the attributes listed in [names] hold values
    that have passed the check of their attribute. *)
Definition stored_ok (i : line_item) (names : list string)
    (d : gmap string value) : Prop :=
  forall a, In a names ->
            exists v, d !! storage_for i a = Some v /\
                      passes (guard_for i a) v.

(** The first and the last character of a string. *)
Definition str_head (s : string) : option ascii :=
  match s with
  | String c _ => Some c
  | EmptyString => None
  end.


(** ** What the renaming loop amounts to *)

(** [isinstance(o, Validated)] from the class of a descriptor. *)
Definition is_validated (tp : dtype) : bool :=
  existsb (String.eqb "descriptor_bulkfood2.Validated") (tp_mro tp).

(** The key of the last item of a namespace whose value is the object at
    [r]: the loop over the items assigns [storage_name] once for each, and
    the last assignment stays. *)
Fixpoint last_key (ns : namespace) (r : ref) : option string :=
  match ns with
  | [] => None
  | (key, attr) :: ns' =>
      match last_key ns' r with
      | Some k => Some k
      | None =>
          match attr with
          | CRef r' => if (r' =? r)%nat then Some key else None
          | _ => None
          end
      end
  end.

(** The object at [r] once the loop has run over [ns]. *)
Definition customized (ns : namespace) (r : ref) (o : cobj) : cobj :=
  match o with
  | Descriptor tp sn =>
      if is_validated tp then
        match last_key ns r with
        | Some key => Descriptor tp (format_hash (tp_name tp) key)
        | None => o
        end
      else o
  | Property _ _ => o
  end.

(** ** Names that attribute syntax can reach

    The characters of a Python identifier: the ASCII letters, digits and
    the underscore; of the code points from 128 on, some are letters and
    all are let through here. *)
Definition identifier_char (c : ascii) : bool :=
  let n := nat_of_ascii c in
  ((65 <=? n) && (n <=? 90) || (97 <=? n) && (n <=? 122)
   || (48 <=? n) && (n <=? 57) || (n =? 95) || (128 <=? n))%nat.

(** A name that [instance.name] can spell is made of such characters. *)
Definition identifier_chars (name : string) : bool :=
  forallb identifier_char (list_ascii_of_string name).

(** The class attribute that a call of a constructor writes: the counter,
    in the class of the new object.  ([quantity_auto] keeps its counter on
    the function.) *)
Definition counter_of (k : auto_ctor) : option (string * string) :=
  match k with
  | make_AutoStorage =>
      Some ("descriptor_bulkfood2.AutoStorage", "_AutoStorage__counter")
  | make_Quantity =>
      Some ("descriptor_bulkfood2.Quantity", "_AutoStorage__counter")
  | make_NonBlank =>
      Some ("descriptor_bulkfood2.NonBlank", "_AutoStorage__counter")
  | make_QuantityAuto =>
      Some ("descriptor_bulkfood.QuantityAuto", "_QuantityAuto__counter")
  | make_quantity_auto => None
  end.

(** ** Sessions with an instance

    What a user does with a LineItem: assign to an attribute, read one, ask
    for the subtotal.  A session constructs an instance and serves the
    requests in turn, going on after a request that raises (as an
    interactive session does); it yields the outcome of the construction
    and of every request. *)
Inductive request : Type :=
| Assign (a : string) (v : value)   (* [item.a = v] *)
| Read (a : string)                 (* [item.a] *)
| Subtotal.                         (* [item.subtotal()] *)

Definition serve (i : line_item) (q : request) : IM value :=
  match q with
  | Assign a v => py_setattr (instance_for i) a v >>> ret VNone
  | Read a => py_getattr (instance_for i) a
  | Subtotal => subtotal_for i (instance_for i)
  end.

Fixpoint responses (i : line_item) (qs : list request)
    (d : gmap string value) : list (result value) :=
  match qs with
  | [] => []
  | q :: qs' => fst (serve i q d) :: responses i qs' (snd (serve i q d))
  end.

Definition session (i : line_item) (description weight price : value)
    (qs : list request) : result unit * list (result value) :=
  match construct_item i description weight price with
  | Ok d => (Ok tt, responses i qs d)
  | Raise e => (Raise e, [])
  end.

(** The requests that name one of the three attributes of the class. *)
Definition public (q : request) : Prop :=
  match q with
  | Assign a _ | Read a => In a ["description"; "weight"; "price"]
  | Subtotal => True
  end.

(** The pairs of classes that the source presents as two ways of writing
    one class: the weight property with and without decorators, the
    set-only descriptor and the property factory, the factory with and
    without automatic storage names, the class decorator and the
    metaclass. *)
Definition interchangeable : list (line_item * line_item) :=
  [(property_LineItem, property_LineItemClassic);
   (descriptor_LineItem, factory_LineItem);
   (factory_LineItem, factory_LineItemAuto);
   (validated_LineItem, metaclass_LineItem)].

(** Two stores hold the same values for the three attributes, each under
    the storage names of its class. *)
Definition alike (i j : line_item) (di dj : gmap string value) : Prop :=
  forall a, In a ["description"; "weight"; "price"] ->
            di !! storage_for i a = dj !! storage_for j a.

Definition complete (i : line_item) (d : gmap string value) : Prop :=
  forall a, In a ["description"; "weight"; "price"] ->
            is_Some (d !! storage_for i a).

(** ** property_factory.py: BlackKnight

    The class keeps two lists in the instance and prints.  Its methods run
    on the knight and on what has been printed so far (one string for each
    call of [print]); indexing or popping an empty list raises
    IndexError. *)
Module BlackKnight.

Record knight : Type := {
  members : list string;
  phrases : list string
}.

Record world : Type := {
  self : knight;
  stdout : list string
}.

Inductive outcome (A : Type) : Type :=
| Returns (a : A)
| IndexError (msg : string).
Arguments Returns {A} a.
Arguments IndexError {A} msg.

Definition print (line : string) (w : world) : world :=
  {| self := self w; stdout := (stdout w ++ [line])%list |}.

Definition __init__ : knight :=
  {| members := ["an arm"; "another arm"];
     phrases := ["'Tis but a scratch."; "It's just a flesh wound."] |}.

(** ['BLACK KNIGHT (loses {})\n-- {}'.format(member, phrase)] *)
Definition text (member phrase : string) : string :=
  "BLACK KNIGHT (loses " ++ member ++ ")"
  ++ String "010"%char ("-- " ++ phrase).

(** The getter of the property [member]: it prints, then indexes. *)
Definition member (w : world) : outcome string * world :=
  let w := print "next member is:" w in
  match members (self w) with
  | m :: _ => (Returns m, w)
  | [] => (IndexError "list index out of range", w)
  end.

(** The deleter of [member].  The arguments of [format] are evaluated from
    left to right: [self.members.pop(0)], then [self.phrases.pop(0)]; the
    line is printed last. *)
Definition del_member (w : world) : outcome unit * world :=
  match members (self w) with
  | [] => (IndexError "pop from empty list", w)
  | m :: ms =>
      let w := {| self := {| members := ms; phrases := phrases (self w) |};
                  stdout := stdout w |} in
      match phrases (self w) with
      | [] => (IndexError "pop from empty list", w)
      | p :: ps =>
          (Returns tt,
           print (text m p)
                 {| self := {| members := ms; phrases := ps |};
                    stdout := stdout w |})
      end
  end.

(** What is done to a knight: [knight.member] and [del knight.member]; a
    session goes on after an IndexError. *)
Inductive action : Type := get_member | delete_member.

Definition act (w : world) (a : action) : world :=
  match a with
  | get_member => snd (member w)
  | delete_member => snd (del_member w)
  end.

(** [knight = BlackKnight()], then the actions in turn. *)
Definition after (acts : list action) : world :=
  fold_left act acts {| self := __init__; stdout := [] |}.

Definition is_deletion (a : action) : bool :=
  match a with
  | delete_member => true
  | get_member => false
  end.

(** The deletions asked for, and the reads. *)
Definition deletions (acts : list action) : nat :=
  length (List.filter is_deletion acts).
Definition reads (acts : list action) : nat :=
  length (List.filter (fun a => negb (is_deletion a)) acts).

(** The lines printed by deletions. *)
Definition losses (out : list string) : list string :=
  List.filter (fun line => negb (String.eqb line "next member is:")) out.
End BlackKnight.

(** ** Values of another type than the check expects

    The values of the model that Python does not order with an [int]:
    [str], [None], a list, a descriptor or property object, a bound method.
    For each of them [value > 0] and [value <= 0] raise TypeError.  (Python
    has further numbers, such as Decimal and Fraction, which the checks
    accept; they are not among the values of the model.) *)
Definition unordered (v : value) : Prop :=
  match v with
  | VStr _ | VNone | VList _ | VRef _ | VMethod _ => True
  | VInt _ | VFloat _ => False
  end.

(** The values of the model that have no [strip] method: [int], [float],
    [None], a list, a descriptor or property object, a bound method. *)
Definition stripless (v : value) : Prop :=
  match v with
  | VInt _ | VFloat _ | VNone | VList _ | VRef _ | VMethod _ => True
  | VStr _ => False
  end.

(** The stores an instance goes through when weight and price are only
    ever given an [int] or a [float], in the constructor and in every
    assignment. *)
Inductive live_on_numbers (i : line_item) : gmap string value -> Prop :=
| numbers_new description weight price d :
    is_number weight -> is_number price ->
    construct_item i description weight price = Ok d ->
    live_on_numbers i d
| numbers_assign a v d r d' :
    live_on_numbers i d ->
    In a ["description"; "weight"; "price"] ->
    (In a ["weight"; "price"] -> is_number v) ->
    py_setattr (instance_for i) a v d = (r, d') ->
    live_on_numbers i d'.

(** ** Class bodies that declare managed attributes

    The body of a managed class, statement by statement, as the classes of
    the source are written:
    [[
        weight = QuantityAuto()
        price = QuantityAuto()
        def subtotal(self): ...
    ]]
    An attribute statement calls one of the constructors and binds the name
    to the new object; a [def] binds the name to a function. *)
Inductive member : Type :=
| attribute (k : auto_ctor)      (* [key = K()] *)
| method (qualname : string).    (* [def key(self, ...): ...] *)





(** * Properties *)

(** ** The built-ins on the values of the doctests *)

Example str_strip_ex : str_strip "  Golden raisins  " = "Golden raisins".
Proof. reflexivity. Qed.

(** [10 * 6.95] is [69.5]. *)
Example py_mul_ex :
  py_mul (VInt 10) (VFloat float_6_95) = Ok (VFloat float_69_5).
Proof. vm_compute. reflexivity. Qed.

(** A product with an [int] beyond the range of [float] raises. *)
Example py_mul_overflow :
  py_mul (VInt (2 ^ 1024)) (VFloat float_6_95) = Raise OverflowError.
Proof. vm_compute. reflexivity. Qed.

(** ** The doctests of the modules *)

(** property_bulkfood.LineItem *)
Example doctest_property_bulkfood :
  match construct_item property_LineItem
          (VStr "Golden raisins") (VInt 10) (VFloat float_6_95) with
  | Ok raisins =>
      let item := instance_for property_LineItem in
      fst (py_getattr item "weight" raisins) = Ok (VInt 10) /\
      fst (py_getattr item "description" raisins)
      = Ok (VStr "Golden raisins") /\
      fst (py_getattr item "price" raisins) = Ok (VFloat float_6_95) /\
      fst (subtotal_for property_LineItem item raisins)
      = Ok (VFloat float_69_5) /\
      fst (py_setattr item "weight" (VInt (-20)) raisins)
      = Raise (ValueError "value must be > 0") /\
      fst (py_getattr item "_LineItem__weight" raisins) = Ok (VInt 10)
  | Raise _ => False
  end /\
  construct_item property_LineItem (VStr "walnuts") (VInt 0)
    (VFloat float_10_00)
  = Raise (ValueError "value must be > 0").
Proof. vm_compute. repeat split; reflexivity. Qed.

(** descriptor_bulkfood.LineItemAuto *)
Example doctest_descriptor_bulkfood :
  fst (type_getattribute (heap_for descriptor_LineItemAuto)
         (class_for descriptor_LineItemAuto) "price" ∅)
  = Ok (VRef 3%nat) /\
  match construct_item descriptor_LineItemAuto
          (VStr "Brazilian coconut") (VInt 20) (VFloat float_17_95) with
  | Ok coconuts =>
      let item := instance_for descriptor_LineItemAuto in
      fst (py_getattr item "weight" coconuts) = Ok (VInt 20) /\
      fst (py_getattr item "price" coconuts) = Ok (VFloat float_17_95) /\
      fst (py_getattr item "_QuantityAuto#0" coconuts) = Ok (VInt 20) /\
      fst (py_getattr item "_QuantityAuto#1" coconuts)
      = Ok (VFloat float_17_95)
  | Raise _ => False
  end.
Proof. vm_compute. repeat split; reflexivity. Qed.

(** descriptor_bulkfood2.LineItem *)
Example doctest_descriptor_bulkfood2 :
  storage_name_at (heap_for validated_LineItem) 0%nat
  = Some "_NonBlank#description" /\
  match construct_item validated_LineItem
          (VStr "Golden raisins") (VInt 10) (VFloat float_6_95) with
  | Ok raisins =>
      let item := instance_for validated_LineItem in
      raisins = <["_NonBlank#description" := VStr "Golden raisins"]>
                  (<["_Quantity#price" := VFloat float_6_95]>
                     {["_Quantity#weight" := VInt 10]}) /\
      fst (py_getattr item "description" raisins)
      = Ok (VStr "Golden raisins") /\
      fst (py_getattr item "_NonBlank#description" raisins)
      = Ok (VStr "Golden raisins")
  | Raise _ => False
  end.
Proof.
  split; [reflexivity |]. vm_compute. repeat split; reflexivity.
Qed.

(** property_factory.LineItem *)
Example doctest_property_factory :
  match construct_item factory_LineItem
          (VStr "Moluccan nutmeg") (VInt 8) (VFloat float_13_95) with
  | Ok nutmeg =>
      let item := instance_for factory_LineItem in
      fst (py_getattr item "weight" nutmeg) = Ok (VInt 8) /\
      fst (py_getattr item "price" nutmeg) = Ok (VFloat float_13_95) /\
      nutmeg = <["description" := VStr "Moluccan nutmeg"]>
                 (<["price" := VFloat float_13_95]> {["weight" := VInt 8]})
  | Raise _ => False
  end.
Proof. vm_compute. repeat split; reflexivity. Qed.

(** The recursion that the comments of the source warn about: a descriptor
    that reads its storage attribute with [getattr] under the name of the
    managed attribute itself never returns. *)
Example storage_under_own_name_recurses :
  fst (py_getattr (managed_instance looping_heap looping_class) "weight" ∅)
  = Raise RecursionError /\
  fst (py_setattr (managed_instance looping_heap looping_class) "weight"
         (VInt 1) ∅)
  = Raise RecursionError.
Proof. vm_compute. split; reflexivity. Qed.

(** ** Comparisons with zero *)

Lemma SFleb_zero_not_SFltb f :
  SFleb f float_zero = true -> SFltb float_zero f = false.
Proof.
  unfold SFleb, SFltb, float_zero.
  destruct f as [s | s | | s m e]; simpl; try discriminate; auto;
    destruct s; simpl; auto; discriminate.
Qed.

Lemma SFltb_zero_not_SFleb f :
  SFltb float_zero f = true -> SFleb f float_zero = false.
Proof.
  intros H. destruct (SFleb f float_zero) eqn:E; auto.
  apply SFleb_zero_not_SFltb in E. congruence.
Qed.

Lemma le0_not_gt0 v : py_le0 v = Ok true -> py_gt0 v = Ok false.
Proof.
  destruct v; simpl; try discriminate; intros H; injection H as H; f_equal.
  - apply Z.leb_le in H. apply Z.ltb_ge. exact H.
  - apply SFleb_zero_not_SFltb. exact H.
Qed.

Lemma gt0_not_le0 v : py_gt0 v = Ok true -> py_le0 v = Ok false.
Proof.
  destruct v; simpl; try discriminate; intros H; injection H as H; f_equal.
  - apply Z.ltb_lt in H. apply Z.leb_gt. exact H.
  - apply SFltb_zero_not_SFleb. exact H.
Qed.

(** ** The modules import *)

Lemma imports_succeed :
  (exists c, fst (property_bulkfood.module fresh) = Ok c) /\
  (exists c, fst (descriptor_bulkfood.module fresh) = Ok c) /\
  (exists c, fst (descriptor_bulkfood2.module fresh) = Ok c) /\
  (exists c, fst (property_factory.module fresh) = Ok c) /\
  (exists c, fst (metaclass_bulkfood.module fresh) = Ok c).
Proof. repeat split; eexists; vm_compute; reflexivity. Qed.

(** ** The attribute protocol, one access at a time *)
Section ProtocolFacts.
Variable h : list cobj.
Variable c : pyclass.

Lemma managed_instance_depth :
  managed_instance h c = instance_at h c (S (S 998)).
Proof. reflexivity. Qed.

Lemma setattr_plain n a v d :
  ns_lookup (cls_dict c) a = None ->
  py_setattr (instance_at h c (S n)) a v d = store Unchecked a v d.
Proof. intros H. simpl. unfold object_setattr. rewrite H. reflexivity. Qed.

Lemma getattr_plain n a d :
  ns_lookup (cls_dict c) a = None ->
  py_getattr (instance_at h c (S n)) a d
  = load a (Raise (AttributeError a)) d.
Proof.
  intros H. simpl. unfold object_getattribute. rewrite H. reflexivity.
Qed.

Lemma setattr_descriptor n a r tp sn set v :
  ns_lookup (cls_dict c) a = Some (CRef r) ->
  h !! r = Some (Descriptor tp sn) ->
  tp_set tp = Some set ->
  py_setattr (instance_at h c (S n)) a v
  = set (Self r sn) (instance_at h c n) v.
Proof.
  intros Ha Hr Hs. simpl. unfold object_setattr.
  rewrite Ha, Hr, Hs. reflexivity.
Qed.

Lemma getattr_data_descriptor n a r tp sn get set :
  ns_lookup (cls_dict c) a = Some (CRef r) ->
  h !! r = Some (Descriptor tp sn) ->
  tp_get tp = Some get -> tp_set tp = Some set ->
  py_getattr (instance_at h c (S n)) a
  = get (Self r sn) (Some (instance_at h c n)).
Proof.
  intros Ha Hr Hg Hs. simpl. unfold object_getattribute.
  rewrite Ha, Hr, Hg, Hs. reflexivity.
Qed.

Lemma getattr_set_only n a r tp sn d :
  ns_lookup (cls_dict c) a = Some (CRef r) ->
  h !! r = Some (Descriptor tp sn) ->
  tp_get tp = None ->
  py_getattr (instance_at h c (S n)) a d = load a (Ok (VRef r)) d.
Proof.
  intros Ha Hr Hg. simpl. unfold object_getattribute.
  rewrite Ha, Hr, Hg. reflexivity.
Qed.

Lemma setattr_property n a r fget fset v :
  ns_lookup (cls_dict c) a = Some (CRef r) ->
  h !! r = Some (Property fget fset) ->
  py_setattr (instance_at h c (S n)) a v = fset (instance_at h c n) v.
Proof.
  intros Ha Hr. simpl. unfold object_setattr. rewrite Ha, Hr. reflexivity.
Qed.

Lemma getattr_property n a r fget fset :
  ns_lookup (cls_dict c) a = Some (CRef r) ->
  h !! r = Some (Property fget fset) ->
  py_getattr (instance_at h c (S n)) a = fget (instance_at h c n).
Proof.
  intros Ha Hr. simpl. unfold object_getattribute. rewrite Ha, Hr.
  reflexivity.
Qed.

(** A positive check in front of a write of a plain attribute. *)
Lemma positive_then_setattr n sn v d :
  ns_lookup (cls_dict c) sn = None ->
  (let* positive := lift (py_gt0 v) in
   if positive then py_setattr (instance_at h c (S n)) sn v
   else raise (ValueError "value must be > 0")) d
  = store Positive sn v d.
Proof.
  intros H. unfold store, bind, lift.
  destruct (py_gt0 v) as [[|]|]; try reflexivity.
  apply setattr_plain. exact H.
Qed.
End ProtocolFacts.

(** ** The descriptors in any managed class

    A class that binds [a] to one of the descriptors, and whose storage
    name [sn] is not itself a class attribute, gets the behaviour of the
    summaries below for [a]. *)
Section AnyManagedClass.
Variable h : list cobj.
Variable c : pyclass.
Variables a sn : string.
Variable r : ref.
Hypothesis Hattr : ns_lookup (cls_dict c) a = Some (CRef r).
Hypothesis Hplain : ns_lookup (cls_dict c) sn = None.

Lemma auto_storage_get_in_any_class tp set d :
  h !! r = Some (Descriptor tp sn) ->
  tp_get tp = Some descriptor_bulkfood2.AutoStorage.__get__ ->
  tp_set tp = Some set ->
  py_getattr (managed_instance h c) a d
  = load sn (Raise (AttributeError sn)) d.
Proof.
  intros Hr Hg Hs. rewrite managed_instance_depth.
  rewrite (getattr_data_descriptor h c _ a r tp sn _ set Hattr Hr Hg Hs).
  unfold descriptor_bulkfood2.AutoStorage.__get__. cbn [storage_name].
  apply getattr_plain, Hplain.
Qed.

Lemma validated_quantity_in_any_class v d :
  h !! r = Some (Descriptor descriptor_bulkfood2.Quantity.type_object sn) ->
  py_setattr (managed_instance h c) a v d = store NotNonPositive sn v d.
Proof.
  intros Hr. rewrite managed_instance_depth.
  rewrite (setattr_descriptor h c _ a r _ sn _ v Hattr Hr eq_refl).
  unfold descriptor_bulkfood2.Validated.__set__,
    descriptor_bulkfood2.Quantity.validate,
    descriptor_bulkfood2.AutoStorage.__set__, store, bind, lift, raise, ret.
  cbn [storage_name].
  destruct (py_le0 v) as [[|] |]; try reflexivity.
  apply setattr_plain, Hplain.
Qed.

Lemma nonblank_in_any_class v d :
  h !! r = Some (Descriptor descriptor_bulkfood2.NonBlank.type_object sn) ->
  py_setattr (managed_instance h c) a v d = store Stripped sn v d.
Proof.
  intros Hr. rewrite managed_instance_depth.
  rewrite (setattr_descriptor h c _ a r _ sn _ v Hattr Hr eq_refl).
  unfold descriptor_bulkfood2.Validated.__set__,
    descriptor_bulkfood2.NonBlank.validate,
    descriptor_bulkfood2.AutoStorage.__set__, store, bind, raise, ret.
  cbn [storage_name].
  destruct v; try reflexivity.
  destruct (String.length (str_strip s) =? 0)%nat; try reflexivity.
  apply setattr_plain, Hplain.
Qed.

Lemma quantity_auto_in_any_class v d :
  h !! r = Some (Descriptor descriptor_bulkfood.QuantityAuto.type_object sn) ->
  py_setattr (managed_instance h c) a v d = store Positive sn v d /\
  py_getattr (managed_instance h c) a d
  = load sn (Raise (AttributeError sn)) d.
Proof.
  intros Hr. rewrite managed_instance_depth. split.
  - rewrite (setattr_descriptor h c _ a r _ sn _ v Hattr Hr eq_refl).
    unfold descriptor_bulkfood.QuantityAuto.__set__. cbn [storage_name].
    apply positive_then_setattr, Hplain.
  - rewrite (getattr_data_descriptor h c _ a r _ sn _ _ Hattr Hr
               eq_refl eq_refl).
    unfold descriptor_bulkfood.QuantityAuto.__get__. cbn [storage_name].
    apply getattr_plain, Hplain.
Qed.

(** The set-only descriptor writes the instance [__dict__] itself, so the
    storage name may well be the attribute name. *)
Lemma set_only_quantity_in_any_class v d :
  h !! r = Some (Descriptor descriptor_bulkfood.Quantity.type_object sn) ->
  py_setattr (managed_instance h c) a v d = store Positive sn v d /\
  py_getattr (managed_instance h c) a d = load a (Ok (VRef r)) d.
Proof.
  intros Hr. rewrite managed_instance_depth. split.
  - rewrite (setattr_descriptor h c _ a r _ sn _ v Hattr Hr eq_refl).
    reflexivity.
  - apply (getattr_set_only h c _ a r _ sn d Hattr Hr eq_refl).
Qed.

Lemma quantity_property_in_any_class v d :
  h !! r = Some (Property (property_factory.quantity.qty_getter sn)
                          (property_factory.quantity.qty_setter sn)) ->
  py_setattr (managed_instance h c) a v d = store Positive sn v d /\
  py_getattr (managed_instance h c) a d = load sn (Raise (KeyError sn)) d.
Proof.
  intros Hr. rewrite managed_instance_depth. split.
  - rewrite (setattr_property h c _ a r _ _ v Hattr Hr). reflexivity.
  - rewrite (getattr_property h c _ a r _ _ Hattr Hr). reflexivity.
Qed.
End AnyManagedClass.

(** ** The eight classes behave as their summaries *)

Ltac eval_tables :=
  repeat match goal with
  | |- context [guard_for ?i ?a] =>
      let g := eval vm_compute in (guard_for i a) in
      change (guard_for i a) with g
  | |- context [storage_for ?i ?a] =>
      let g := eval vm_compute in (storage_for i a) in
      change (storage_for i a) with g
  | |- context [absent_for ?i ?a] =>
      let g := eval vm_compute in (absent_for i a) in
      change (absent_for i a) with g
  end.

Lemma attribute_summary i a :
  In a ["description"; "weight"; "price"] ->
  (forall v d, py_setattr (instance_for i) a v d
               = store (guard_for i a) (storage_for i a) v d) /\
  (forall d, py_getattr (instance_for i) a d
             = load (storage_for i a) (absent_for i a) d).
Proof.
  intros Ha. simpl in Ha.
  destruct Ha as [<- | [<- | [<- | []]]]; destruct i; split; intros;
    eval_tables; reflexivity.
Qed.

Lemma setattr_summary i a v d :
  In a ["description"; "weight"; "price"] ->
  py_setattr (instance_for i) a v d
  = store (guard_for i a) (storage_for i a) v d.
Proof. intros Ha. apply attribute_summary, Ha. Qed.

Lemma getattr_summary i a d :
  In a ["description"; "weight"; "price"] ->
  py_getattr (instance_for i) a d = load (storage_for i a) (absent_for i a) d.
Proof. intros Ha. apply attribute_summary, Ha. Qed.

Lemma managed_quantity_guard i a :
  In a ["weight"; "price"] -> is_managed i a = true ->
  checks_quantity (guard_for i a).
Proof.
  intros Ha. simpl in Ha. destruct Ha as [<- | [<- | []]]; destruct i;
    vm_compute; intros H; try discriminate H; auto.
Qed.

Lemma quantity_is_attribute a :
  In a ["weight"; "price"] -> In a ["description"; "weight"; "price"].
Proof. simpl. tauto. Qed.

Lemma store_le0 g sn v d :
  checks_quantity g -> py_le0 v = Ok true ->
  store g sn v d = (Raise (ValueError "value must be > 0"), d).
Proof.
  intros [-> | ->] H; unfold store, bind, lift.
  - rewrite (le0_not_gt0 _ H). reflexivity.
  - rewrite H. reflexivity.
Qed.

Lemma store_gt0 g sn v d :
  checks_quantity g -> py_gt0 v = Ok true ->
  store g sn v d = (Ok tt, <[sn := v]> d).
Proof.
  intros [-> | ->] H; unfold store, bind, lift.
  - rewrite H. reflexivity.
  - rewrite (gt0_not_le0 _ H). reflexivity.
Qed.

(** A store that raises writes nothing. *)
Lemma store_raise g sn v d e d' :
  store g sn v d = (Raise e, d') -> d' = d.
Proof.
  destruct g; unfold store, bind, lift, raise, ret, dict_setitem.
  - discriminate.
  - destruct (py_gt0 v) as [[|]|]; intros H; inversion H; reflexivity.
  - destruct (py_le0 v) as [[|]|]; intros H; inversion H; reflexivity.
  - destruct v; try (intros H; inversion H; reflexivity).
    destruct (String.length (str_strip s) =? 0)%nat;
      intros H; inversion H; reflexivity.
Qed.

(** A store that succeeds writes the storage attribute and nothing else. *)
Lemma store_ok g sn v d u d' :
  store g sn v d = (Ok u, d') ->
  exists v', d' = <[sn := v']> d /\ (g <> Stripped -> v' = v).
Proof.
  destruct g; unfold store, bind, lift, raise, ret, dict_setitem.
  - intros H; inversion H; eauto.
  - destruct (py_gt0 v) as [[|]|]; intros H; inversion H; eauto.
  - destruct (py_le0 v) as [[|]|]; intros H; inversion H; eauto.
  - destruct v; try discriminate.
    destruct (String.length (str_strip s) =? 0)%nat;
      intros H; inversion H. eexists; split; [reflexivity | congruence].
Qed.

Lemma load_insert sn absent v (d : gmap string value) :
  load sn absent (<[sn := v]> d) = (Ok v, <[sn := v]> d).
Proof. unfold load. rewrite lookup_insert_eq. reflexivity. Qed.

Lemma load_present sn absent v (d : gmap string value) :
  d !! sn = Some v -> load sn absent d = (Ok v, d).
Proof. unfold load. intros ->. reflexivity. Qed.

Lemma load_ok sn absent v (d d' : gmap string value) :
  load sn absent d = (Ok v, d') ->
  d' = d /\ (d !! sn = Some v \/ (d !! sn = None /\ absent = Ok v)).
Proof.
  unfold load. destruct (d !! sn) eqn:E; intros H; inversion H; subst; auto.
Qed.

Lemma number_gt0 v : is_number v -> exists b, py_gt0 v = Ok b.
Proof. destruct v; simpl; try tauto; eauto. Qed.

Lemma number_le0 v : is_number v -> exists b, py_le0 v = Ok b.
Proof. destruct v; simpl; try tauto; eauto. Qed.

(** A quantity store either writes the value or raises the ValueError of
    the quantities, as soon as the value is a number. *)
Lemma store_number g sn v d :
  checks_quantity g -> is_number v ->
  store g sn v d = (Ok tt, <[sn := v]> d) \/
  store g sn v d = (Raise (ValueError "value must be > 0"), d).
Proof.
  intros [-> | ->] Hv; unfold store, bind, lift.
  - destruct (number_gt0 v Hv) as [[|] ->]; auto.
  - destruct (number_le0 v Hv) as [[|] ->]; auto.
Qed.

Lemma store_unchecked sn v d : store Unchecked sn v d = (Ok tt, <[sn := v]> d).
Proof. reflexivity. Qed.

Lemma guard_cases i a :
  In a ["weight"; "price"] ->
  (is_managed i a = true /\ checks_quantity (guard_for i a)) \/
  (is_managed i a = false /\ guard_for i a = Unchecked).
Proof.
  intros Ha. destruct (is_managed i a) eqn:E.
  - left. split; [reflexivity | apply managed_quantity_guard; assumption].
  - right. split; [reflexivity |]. unfold guard_for. rewrite E. reflexivity.
Qed.

(** The constructors assign the description first, then weight and price
    in one of the two orders. *)
Lemma init_order i self description weight price :
  init_for i self description weight price
  = (py_setattr self "description" description >>>
     py_setattr self "weight" weight >>> py_setattr self "price" price)
  \/ init_for i self description weight price
  = (py_setattr self "description" description >>>
     py_setattr self "price" price >>> py_setattr self "weight" weight).
Proof. destruct i; simpl; auto. Qed.

Lemma accepted_description i description d :
  accepts_description i description ->
  exists d', py_setattr (instance_for i) "description" description d
             = (Ok tt, d').
Proof.
  unfold accepts_description.
  rewrite !setattr_summary by (simpl; tauto).
  destruct (guard_for i "description"); unfold store, bind, lift, raise, ret,
    dict_setitem; simpl.
  - eauto.
  - destruct (py_gt0 description) as [[|]|]; simpl; try discriminate; eauto.
  - destruct (py_le0 description) as [[|]|]; simpl; try discriminate; eauto.
  - destruct description; simpl; try discriminate.
    destruct (String.length (str_strip s) =? 0)%nat; simpl;
      try discriminate; eauto.
Qed.

(** C1, as amended.  In each of the eight LineItem classes, an assignment
    to weight or price, when the class manages that attribute (price is a
    plain attribute in the two classes of property_bulkfood.py), raises
    ValueError('value must be > 0') and writes nothing if the value is
    [<= 0], and succeeds if the value is [> 0].  The constructor, given a
    description that the class accepts, succeeds when weight and price are
    both [> 0], and raises that ValueError when they are numbers and a
    managed one of them is [<= 0]. *)
Theorem quantity_assignment_validated (i : line_item) :
  (forall a v d,
      In a ["weight"; "price"] -> is_managed i a = true ->
      (py_le0 v = Ok true ->
       py_setattr (instance_for i) a v d
       = (Raise (ValueError "value must be > 0"), d)) /\
      (py_gt0 v = Ok true ->
       exists d', py_setattr (instance_for i) a v d = (Ok tt, d'))) /\
  (forall description weight price,
      accepts_description i description ->
      (py_gt0 weight = Ok true -> py_gt0 price = Ok true ->
       exists d, construct_item i description weight price = Ok d) /\
      (is_number weight -> is_number price ->
       (is_managed i "weight" = true /\ py_le0 weight = Ok true) \/
       (is_managed i "price" = true /\ py_le0 price = Ok true) ->
       construct_item i description weight price
       = Raise (ValueError "value must be > 0"))).
Proof.
  split.
  - intros a v d Ha Hm.
    rewrite setattr_summary by (apply quantity_is_attribute, Ha).
    pose proof (managed_quantity_guard i a Ha Hm) as Hg. split; intros Hv.
    + apply store_le0; assumption.
    + eexists. apply store_gt0; assumption.
  - intros description weight price Hd.
    assert (Hw : In "weight" ["weight"; "price"]) by (simpl; tauto).
    assert (Hp : In "price" ["weight"; "price"]) by (simpl; tauto).
    unfold construct_item, instantiate.
    split.
    + intros Gw Gp.
      destruct (accepted_description i description ∅ Hd) as [d0 E0].
      assert (Sw : forall d, py_setattr (instance_for i) "weight" weight d
                             = (Ok tt, <[storage_for i "weight" := weight]> d)).
      { intros d. rewrite setattr_summary by (simpl; tauto).
        destruct (guard_cases i "weight" Hw) as [[_ G] | [_ ->]];
          [apply store_gt0; assumption | reflexivity]. }
      assert (Sp : forall d, py_setattr (instance_for i) "price" price d
                             = (Ok tt, <[storage_for i "price" := price]> d)).
      { intros d. rewrite setattr_summary by (simpl; tauto).
        destruct (guard_cases i "price" Hp) as [[_ G] | [_ ->]];
          [apply store_gt0; assumption | reflexivity]. }
      destruct (init_order i (instance_for i) description weight price)
        as [-> | ->]; unfold bind; rewrite E0; [rewrite Sw, Sp | rewrite Sp, Sw];
        eauto.
    + intros Nw Np Hbad.
      destruct (accepted_description i description ∅ Hd) as [d0 E0].
      assert (Sw : forall d,
                 py_setattr (instance_for i) "weight" weight d
                 = (Ok tt, <[storage_for i "weight" := weight]> d) \/
                 py_setattr (instance_for i) "weight" weight d
                 = (Raise (ValueError "value must be > 0"), d)).
      { intros d. rewrite setattr_summary by (simpl; tauto).
        destruct (guard_cases i "weight" Hw) as [[_ G] | [_ ->]];
          [apply store_number; assumption | left; reflexivity]. }
      assert (Sp : forall d,
                 py_setattr (instance_for i) "price" price d
                 = (Ok tt, <[storage_for i "price" := price]> d) \/
                 py_setattr (instance_for i) "price" price d
                 = (Raise (ValueError "value must be > 0"), d)).
      { intros d. rewrite setattr_summary by (simpl; tauto).
        destruct (guard_cases i "price" Hp) as [[_ G] | [_ ->]];
          [apply store_number; assumption | left; reflexivity]. }
      assert (Bw : is_managed i "weight" = true /\ py_le0 weight = Ok true ->
                   forall d, py_setattr (instance_for i) "weight" weight d
                             = (Raise (ValueError "value must be > 0"), d)).
      { intros [Hm Hv] d. rewrite setattr_summary by (simpl; tauto).
        apply store_le0; [apply managed_quantity_guard |]; assumption. }
      assert (Bp : is_managed i "price" = true /\ py_le0 price = Ok true ->
                   forall d, py_setattr (instance_for i) "price" price d
                             = (Raise (ValueError "value must be > 0"), d)).
      { intros [Hm Hv] d. rewrite setattr_summary by (simpl; tauto).
        apply store_le0; [apply managed_quantity_guard |]; assumption. }
      destruct (init_order i (instance_for i) description weight price)
        as [-> | ->]; unfold bind; rewrite E0.
      * destruct Hbad as [Hbad | Hbad].
        -- rewrite (Bw Hbad). reflexivity.
        -- destruct (Sw d0) as [-> | ->]; [| reflexivity].
           rewrite (Bp Hbad). reflexivity.
      * destruct Hbad as [Hbad | Hbad].
        -- destruct (Sp d0) as [-> | ->]; [| reflexivity].
           rewrite (Bw Hbad). reflexivity.
        -- rewrite (Bp Hbad). reflexivity.
Qed.

Lemma quantity_assignment_validated_witness :
  py_setattr (instance_for validated_LineItem) "weight" (VInt 0) ∅
  = (Raise (ValueError "value must be > 0"), ∅) /\
  (exists d', py_setattr (instance_for descriptor_LineItem) "price" (VInt 6) ∅
              = (Ok tt, d')) /\
  (exists d, construct_item validated_LineItem
               (VStr "Golden raisins") (VInt 10) (VInt 6) = Ok d) /\
  construct_item property_LineItem (VStr "walnuts") (VInt 0) (VInt 10)
  = Raise (ValueError "value must be > 0").
Proof.
  split; [| split; [| split]].
  - apply (quantity_assignment_validated validated_LineItem);
      [simpl; tauto | reflexivity | reflexivity].
  - apply (quantity_assignment_validated descriptor_LineItem);
      [simpl; tauto | reflexivity | reflexivity].
  - apply (quantity_assignment_validated validated_LineItem);
      [vm_compute; reflexivity | reflexivity | reflexivity].
  - apply (quantity_assignment_validated property_LineItem);
      [vm_compute; reflexivity | exact I | exact I |].
    left. split; reflexivity.
Defined.

(** C1 as stated fails on the property-based variant: the price of
    property_bulkfood.LineItem is a plain attribute, so a price [<= 0] is
    stored by a direct assignment and by the constructor. *)
Lemma property_LineItem_price_unchecked :
  In property_LineItem named_variants /\
  py_le0 (VInt (-1)) = Ok true /\
  fst (py_setattr (instance_for property_LineItem) "price" (VInt (-1)) ∅)
  = Ok tt /\
  match construct_item property_LineItem
          (VStr "walnuts") (VInt 10) (VInt (-1)) with
  | Ok d => d !! "price" = Some (VInt (-1))
  | Raise _ => False
  end.
Proof.
  split; [simpl; tauto |]. split; [reflexivity |].
  split; vm_compute; reflexivity.
Qed.

(** C2.  An assignment to an attribute of a LineItem that raises ValueError
    leaves the instance as it was, and the attribute still reads as the
    value it held. *)
Theorem failed_assignment_changes_nothing
    (i : line_item) (a : string) (w v : value) (msg : string)
    (d d' : gmap string value) :
  In a ["description"; "weight"; "price"] ->
  py_getattr (instance_for i) a d = (Ok w, d) ->
  py_setattr (instance_for i) a v d = (Raise (ValueError msg), d') ->
  d' = d /\ py_getattr (instance_for i) a d' = (Ok w, d').
Proof.
  intros Ha Hget Hset.
  rewrite setattr_summary in Hset by exact Ha.
  apply store_raise in Hset. subst d'. split; [reflexivity | exact Hget].
Qed.

Lemma failed_assignment_changes_nothing_witness :
  ({["_Quantity#weight" := VInt 10]} : gmap string value)
  = {["_Quantity#weight" := VInt 10]} /\
  py_getattr (instance_for validated_LineItem) "weight"
    {["_Quantity#weight" := VInt 10]}
  = (Ok (VInt 10), {["_Quantity#weight" := VInt 10]}).
Proof.
  apply (failed_assignment_changes_nothing validated_LineItem "weight"
           (VInt 10) (VInt (-20)) "value must be > 0"
           {["_Quantity#weight" := VInt 10]} {["_Quantity#weight" := VInt 10]});
    [simpl; tauto | reflexivity | reflexivity].
Defined.

(** C4.  In each of the eight classes, setting a managed weight or price to
    a value [> 0] succeeds, and reading the attribute then returns that
    value. *)
Theorem set_then_get (i : line_item) (a : string) (v : value)
    (d : gmap string value) :
  In a ["weight"; "price"] -> is_managed i a = true ->
  py_gt0 v = Ok true ->
  exists d', py_setattr (instance_for i) a v d = (Ok tt, d') /\
             py_getattr (instance_for i) a d' = (Ok v, d').
Proof.
  intros Ha Hm Hv.
  exists (<[storage_for i a := v]> d). split.
  - rewrite setattr_summary by (apply quantity_is_attribute, Ha).
    apply store_gt0; [apply managed_quantity_guard |]; assumption.
  - rewrite getattr_summary by (apply quantity_is_attribute, Ha).
    apply load_insert.
Qed.

Lemma set_then_get_witness :
  exists d', py_setattr (instance_for factory_LineItem) "weight" (VInt 8) ∅
             = (Ok tt, d') /\
             py_getattr (instance_for factory_LineItem) "weight" d'
             = (Ok (VInt 8), d').
Proof.
  apply (set_then_get factory_LineItem "weight" (VInt 8) ∅);
    [simpl; tauto | reflexivity | reflexivity].
Defined.

(** ** Access through the class and through an instance *)

Lemma storage_name_at_descriptor h r tp sn :
  h !! r = Some (Descriptor tp sn) -> storage_name_at h r = Some sn.
Proof. unfold storage_name_at. intros ->. reflexivity. Qed.

(** The [storage_name] of the descriptor bound to an attribute is the
    storage attribute of the summary. *)
Lemma descriptor_storage i a r tp sn :
  In a ["description"; "weight"; "price"] ->
  ns_lookup (cls_dict (class_for i)) a = Some (CRef r) ->
  heap_for i !! r = Some (Descriptor tp sn) ->
  sn = storage_for i a.
Proof.
  intros Ha Hl Hh. simpl in Ha.
  destruct Ha as [<- | [<- | [<- | []]]]; destruct i;
    vm_compute in Hl; try discriminate Hl;
    injection Hl as <-; apply storage_name_at_descriptor in Hh;
    vm_compute in Hh; try discriminate Hh; injection Hh as <-; reflexivity.
Qed.

Lemma managed_attribute_ref i a :
  is_managed i a = true ->
  exists r, ns_lookup (cls_dict (class_for i)) a = Some (CRef r).
Proof.
  unfold is_managed.
  destruct (ns_lookup (cls_dict (class_for i)) a) as [[r | | |] |];
    try discriminate. eauto.
Qed.

Lemma class_access i a r d :
  In a ["description"; "weight"; "price"] ->
  ns_lookup (cls_dict (class_for i)) a = Some (CRef r) ->
  type_getattribute (heap_for i) (class_for i) a d = (Ok (VRef r), d).
Proof.
  intros Ha Hl. unfold type_getattribute. rewrite Hl. simpl in Ha.
  destruct Ha as [<- | [<- | [<- | []]]]; destruct i;
    vm_compute in Hl; try discriminate Hl; injection Hl as <-; reflexivity.
Qed.

(** C5.  Through the class, [__get__] receives no instance and returns the
    descriptor itself, so a managed attribute read on the class is the
    descriptor object; through an instance, the read returns the value held
    in the storage attribute of the instance; and in the set-only variant
    the storage name is the attribute name, so that a read finds the
    instance attribute written by [__set__], and the descriptor only when
    there is none. *)
Theorem class_access_and_shadowing :
  (forall self d,
      descriptor_bulkfood2.AutoStorage.__get__ self None d
      = (Ok (VRef (self_ref self)), d) /\
      descriptor_bulkfood.QuantityAuto.__get__ self None d
      = (Ok (VRef (self_ref self)), d)) /\
  (forall i a,
      In a ["description"; "weight"; "price"] -> is_managed i a = true ->
      exists r, ns_lookup (cls_dict (class_for i)) a = Some (CRef r) /\
                forall d, type_getattribute (heap_for i) (class_for i) a d
                          = (Ok (VRef r), d)) /\
  (forall i a r tp sn v d,
      In a ["description"; "weight"; "price"] ->
      ns_lookup (cls_dict (class_for i)) a = Some (CRef r) ->
      heap_for i !! r = Some (Descriptor tp sn) ->
      d !! sn = Some v ->
      py_getattr (instance_for i) a d = (Ok v, d)) /\
  (forall a,
      In a ["weight"; "price"] ->
      exists r,
        ns_lookup (cls_dict (class_for descriptor_LineItem)) a
        = Some (CRef r) /\
        heap_for descriptor_LineItem !! r
        = Some (Descriptor descriptor_bulkfood.Quantity.type_object a) /\
        (forall d, d !! a = None ->
                   py_getattr (instance_for descriptor_LineItem) a d
                   = (Ok (VRef r), d)) /\
        (forall v d, py_gt0 v = Ok true ->
                     py_setattr (instance_for descriptor_LineItem) a v d
                     = (Ok tt, <[a := v]> d) /\
                     py_getattr (instance_for descriptor_LineItem) a
                       (<[a := v]> d)
                     = (Ok v, <[a := v]> d))).
Proof.
  split; [| split; [| split]].
  - intros self d. split; reflexivity.
  - intros i a Ha Hm. destruct (managed_attribute_ref i a Hm) as [r Hr].
    exists r. split; [exact Hr |]. intros d. apply class_access; assumption.
  - intros i a r tp sn v d Ha Hl Hh Hv.
    rewrite getattr_summary by exact Ha.
    rewrite <- (descriptor_storage i a r tp sn Ha Hl Hh).
    apply load_present, Hv.
  - intros a Ha. simpl in Ha. destruct Ha as [<- | [<- | []]];
      eexists; (split; [reflexivity |]); (split; [reflexivity |]); split.
    + intros d Hd. rewrite getattr_summary by (simpl; tauto).
      unfold load. eval_tables. rewrite Hd. reflexivity.
    + intros v d Hv. split.
      * rewrite setattr_summary by (simpl; tauto). eval_tables.
        apply store_gt0; [left; reflexivity | exact Hv].
      * rewrite getattr_summary by (simpl; tauto). eval_tables.
        apply load_insert.
    + intros d Hd. rewrite getattr_summary by (simpl; tauto).
      unfold load. eval_tables. rewrite Hd. reflexivity.
    + intros v d Hv. split.
      * rewrite setattr_summary by (simpl; tauto). eval_tables.
        apply store_gt0; [left; reflexivity | exact Hv].
      * rewrite getattr_summary by (simpl; tauto). eval_tables.
        apply load_insert.
Qed.

Lemma class_access_and_shadowing_witness :
  (exists r, ns_lookup (cls_dict (class_for descriptor_LineItemAuto)) "price"
             = Some (CRef r) /\
             forall d, type_getattribute (heap_for descriptor_LineItemAuto)
                         (class_for descriptor_LineItemAuto) "price" d
                       = (Ok (VRef r), d)) /\
  py_getattr (instance_for validated_LineItem) "description"
    {["_NonBlank#description" := VStr "Golden raisins"]}
  = (Ok (VStr "Golden raisins"),
     {["_NonBlank#description" := VStr "Golden raisins"]}) /\
  py_getattr (instance_for descriptor_LineItem) "weight" {["weight" := VInt 5]}
  = (Ok (VInt 5), {["weight" := VInt 5]}).
Proof.
  destruct class_access_and_shadowing as (_ & H2 & H3 & H4).
  split; [| split].
  - apply (H2 descriptor_LineItemAuto "price"); [simpl; tauto | reflexivity].
  - apply (H3 validated_LineItem "description" 0%nat
              descriptor_bulkfood2.NonBlank.type_object
              "_NonBlank#description");
      [simpl; tauto | reflexivity | reflexivity | reflexivity].
  - destruct (H4 "weight") as (r & _ & _ & _ & H); [simpl; tauto |].
    apply (H (VInt 5) ∅). reflexivity.
Defined.

(** ** NonBlank *)

(** C6.  In the two classes whose description is a NonBlank descriptor,
    assigning the string [s] raises ValueError('value cannot be empty or
    blank') exactly when [s.strip()] has length zero, and otherwise stores
    [s.strip()], which a read then returns. *)
Theorem nonblank_assignment (i : line_item) (s : string)
    (d : gmap string value) :
  is_managed i "description" = true ->
  ((exists d', py_setattr (instance_for i) "description" (VStr s) d
               = (Raise (ValueError "value cannot be empty or blank"), d'))
   <-> String.length (str_strip s) = 0%nat) /\
  (String.length (str_strip s) = 0%nat ->
   py_setattr (instance_for i) "description" (VStr s) d
   = (Raise (ValueError "value cannot be empty or blank"), d)) /\
  (String.length (str_strip s) <> 0%nat ->
   exists d',
     py_setattr (instance_for i) "description" (VStr s) d = (Ok tt, d') /\
     d' !! "_NonBlank#description" = Some (VStr (str_strip s)) /\
     py_getattr (instance_for i) "description" d'
     = (Ok (VStr (str_strip s)), d')).
Proof.
  intros Hm.
  assert (Ha : In "description" ["description"; "weight"; "price"])
    by (simpl; tauto).
  assert (Hg : guard_for i "description" = Stripped
               /\ storage_for i "description" = "_NonBlank#description").
  { destruct i; vm_compute in Hm; try discriminate Hm;
      split; vm_compute; reflexivity. }
  destruct Hg as [Hg Hs].
  rewrite !setattr_summary by exact Ha.
  rewrite Hg, Hs. unfold store, bind, raise, ret, dict_setitem.
  destruct (String.length (str_strip s) =? 0)%nat eqn:E.
  - apply Nat.eqb_eq in E. split; [| split].
    + split; [intros _; exact E | intros _; eauto].
    + intros _. reflexivity.
    + intros H. contradiction.
  - apply Nat.eqb_neq in E. split; [| split].
    + split; [intros [d' H]; discriminate H | intros H; contradiction].
    + intros H. contradiction.
    + intros _. eexists. split; [reflexivity |].
      split; [apply lookup_insert_eq |].
      rewrite getattr_summary by exact Ha. rewrite Hs. apply load_insert.
Qed.

Lemma nonblank_assignment_witness :
  py_setattr (instance_for validated_LineItem) "description" (VStr "   ") ∅
  = (Raise (ValueError "value cannot be empty or blank"), ∅) /\
  exists d',
    py_setattr (instance_for metaclass_LineItem) "description"
      (VStr "  Golden raisins ") ∅ = (Ok tt, d') /\
    d' !! "_NonBlank#description" = Some (VStr "Golden raisins") /\
    py_getattr (instance_for metaclass_LineItem) "description" d'
    = (Ok (VStr "Golden raisins"), d').
Proof.
  split.
  - apply (nonblank_assignment validated_LineItem "   " ∅);
      [reflexivity | reflexivity].
  - apply (nonblank_assignment metaclass_LineItem "  Golden raisins " ∅);
      [reflexivity | simpl; discriminate].
Defined.

(** ** subtotal *)

Lemma subtotal_unfold i self :
  subtotal_for i self
  = (let* w := py_getattr self "weight" in
     let* p := py_getattr self "price" in
     lift (py_mul w p)).
Proof. destruct i; reflexivity. Qed.

Lemma storage_distinct i :
  storage_for i "weight" <> storage_for i "price" /\
  storage_for i "description" <> storage_for i "weight" /\
  storage_for i "description" <> storage_for i "price".
Proof. destruct i; vm_compute; repeat split; discriminate. Qed.

Lemma quantity_guard_not_stripped i a :
  In a ["weight"; "price"] -> guard_for i a <> Stripped.
Proof.
  intros Ha. destruct (guard_cases i a Ha) as [[_ [E | E]] | [_ E]];
    rewrite E; discriminate.
Qed.

Lemma bind_ext {S A B} (m m' : M S A) (k k' : A -> M S B) (s : S) :
  (forall s, m s = m' s) -> (forall a s, k a s = k' a s) ->
  bind m k s = bind m' k' s.
Proof.
  intros Hm Hk. unfold bind. rewrite Hm.
  destruct (m' s) as [[a | e] s']; [apply Hk | reflexivity].
Qed.

(** The constructor as three stores. *)
Lemma init_summary i description weight price d :
  let sd := store (guard_for i "description") (storage_for i "description")
              description in
  let sw := store (guard_for i "weight") (storage_for i "weight") weight in
  let sp := store (guard_for i "price") (storage_for i "price") price in
  init_for i (instance_for i) description weight price d
  = (sd >>> sw >>> sp) d \/
  init_for i (instance_for i) description weight price d
  = (sd >>> sp >>> sw) d.
Proof.
  intros sd sw sp.
  destruct (init_order i (instance_for i) description weight price)
    as [-> | ->]; [left | right];
    (apply bind_ext; [| intros _ ?; apply bind_ext; [| intros _ ?]]);
    intros; apply setattr_summary; simpl; tauto.
Qed.

(** What a successful constructor call leaves in the instance. *)
Lemma constructed_storage i description weight price d :
  construct_item i description weight price = Ok d ->
  d !! storage_for i "weight" = Some weight /\
  d !! storage_for i "price" = Some price.
Proof.
  unfold construct_item, instantiate. intros H.
  destruct (storage_distinct i) as (Hwp & _ & _).
  assert (Gw : guard_for i "weight" <> Stripped)
    by (apply quantity_guard_not_stripped; simpl; tauto).
  assert (Gp : guard_for i "price" <> Stripped)
    by (apply quantity_guard_not_stripped; simpl; tauto).
  destruct (init_summary i description weight price ∅) as [E | E];
    rewrite E in H; clear E; unfold bind in H.
  - destruct (store (guard_for i "description") (storage_for i "description")
                description ∅) as [[u0 | e0] d0]; try discriminate H.
    destruct (store (guard_for i "weight") (storage_for i "weight") weight d0)
      as [[u1 | e1] d1] eqn:E1; try discriminate H.
    destruct (store (guard_for i "price") (storage_for i "price") price d1)
      as [[u2 | e2] d2] eqn:E2; try discriminate H.
    injection H as <-.
    apply store_ok in E1. destruct E1 as (v1 & -> & Hv1).
    apply store_ok in E2. destruct E2 as (v2 & -> & Hv2).
    rewrite (Hv1 Gw), (Hv2 Gp). split.
    + rewrite lookup_insert_ne by (intros Hx; apply Hwp; symmetry; exact Hx).
      apply lookup_insert_eq.
    + apply lookup_insert_eq.
  - destruct (store (guard_for i "description") (storage_for i "description")
                description ∅) as [[u0 | e0] d0]; try discriminate H.
    destruct (store (guard_for i "price") (storage_for i "price") price d0)
      as [[u1 | e1] d1] eqn:E1; try discriminate H.
    destruct (store (guard_for i "weight") (storage_for i "weight") weight d1)
      as [[u2 | e2] d2] eqn:E2; try discriminate H.
    injection H as <-.
    apply store_ok in E1. destruct E1 as (v1 & -> & Hv1).
    apply store_ok in E2. destruct E2 as (v2 & -> & Hv2).
    rewrite (Hv1 Gp), (Hv2 Gw). split.
    + apply lookup_insert_eq.
    + rewrite lookup_insert_ne by exact Hwp. apply lookup_insert_eq.
Qed.


Lemma subtotal_of_storage i d w p :
  d !! storage_for i "weight" = Some w ->
  d !! storage_for i "price" = Some p ->
  py_getattr (instance_for i) "weight" d = (Ok w, d) /\
  py_getattr (instance_for i) "price" d = (Ok p, d) /\
  subtotal_for i (instance_for i) d = (py_mul w p, d).
Proof.
  intros Hw Hp.
  assert (Gw : py_getattr (instance_for i) "weight" d = (Ok w, d)).
  { rewrite getattr_summary by (simpl; tauto). apply load_present, Hw. }
  assert (Gp : py_getattr (instance_for i) "price" d = (Ok p, d)).
  { rewrite getattr_summary by (simpl; tauto). apply load_present, Hp. }
  split; [exact Gw | split; [exact Gp |]].
  rewrite subtotal_unfold. unfold bind. rewrite Gw, Gp. reflexivity.
Qed.



(** ** Auto-generated storage names *)


Lemma alloc_lookup (h : list cobj) (o : cobj) :
  (h ++ [o])%list !! length h = Some o.
Proof. apply list_lookup_middle. reflexivity. Qed.

(** One call of a descriptor constructor whose class reads the counter
    value [i]. *)
Lemma new_auto_descriptor tp attr init i s :
  tp_abstract tp = false ->
  mro_lookup (class_attrs s) (tp_mro tp) attr = Some i ->
  (forall cls, init cls
               = (let prefix := tp_name cls in
                  let* index := class_getattr cls attr in
                  let storage_name := format_hash prefix (str_of_nat index) in
                  let* counter := class_getattr cls attr in
                  class_setattr cls attr (counter + 1)%nat >>>
                  ret storage_name)) ->
  forall c mro, tp_mro tp = c :: mro ->
  let s' := {| heap := heap s ++ [Descriptor tp
                                    (format_hash (tp_name tp) (str_of_nat i))];
               class_attrs := <[(c, attr) := S i]> (class_attrs s);
               quantity_auto_counter := quantity_auto_counter s |} in
  (let* r := new tp init in
   let* s := get_state in
   match storage_attribute_at s r with
   | Some name => ret name
   | None => raise (AttributeError "storage_name")
   end) s
  = (Ok (format_hash (tp_name tp) (str_of_nat i)), s').
Proof.
  intros Habs Hi Hinit c mro Hmro s'.
  assert (G : class_getattr tp attr s = (Ok i, s))
    by (unfold class_getattr; rewrite Hi; reflexivity).
  unfold new. rewrite Habs, Hinit. cbv zeta.
  unfold bind. rewrite G. cbn beta iota. rewrite G. cbn beta iota.
  unfold class_setattr. rewrite Hmro. cbn beta iota.
  unfold ret, alloc, get_state, storage_attribute_at.
  cbn [heap class_attrs quantity_auto_counter].
  rewrite alloc_lookup. cbn [storage_attribute].
  rewrite Nat.add_1_r. reflexivity.
Qed.

Ltac insert_lookups :=
  repeat first
    [ rewrite lookup_insert_eq
    | rewrite lookup_insert_ne by (intros [=]) ].

Ltac counter_cases :=
  repeat match goal with
  | H : context [match ?m !! ?key with _ => _ end] |- _ =>
      destruct (m !! key) eqn:?
  | |- context [match ?m !! ?key with _ => _ end] =>
      destruct (m !! key) eqn:?
  end.

(** A call of a constructor uses the counter value it finds, leaves the
    next value for its own kind, and lowers the counter of no kind. *)
Lemma received_name_step s k i :
  next_index s k = Some i ->
  exists s',
    received_name k s = (Ok (auto_name k i), s') /\
    next_index s' k = Some (S i) /\
    (forall k' j, next_index s k' = Some j ->
                  exists j', next_index s' k' = Some j' /\ (j <= j')%nat).
Proof.
  intros H. destruct k; unfold received_name, construct.
  - eexists. split; [| split].
    + apply (new_auto_descriptor descriptor_bulkfood2.AutoStorage.type_object
               "_AutoStorage__counter" _ i s eq_refl H (fun _ => eq_refl)
               _ _ eq_refl).
    + cbn. insert_lookups. reflexivity.
    + intros k' j Hj. destruct k'; cbn in *; insert_lookups;
        counter_cases; simplify_eq; eauto with lia.
  - eexists. split; [| split].
    + apply (new_auto_descriptor descriptor_bulkfood2.Quantity.type_object
               "_AutoStorage__counter" _ i s eq_refl H (fun _ => eq_refl)
               _ _ eq_refl).
    + cbn. insert_lookups. reflexivity.
    + intros k' j Hj. destruct k'; cbn in *; insert_lookups;
        counter_cases; simplify_eq; eauto with lia.
  - eexists. split; [| split].
    + apply (new_auto_descriptor descriptor_bulkfood2.NonBlank.type_object
               "_AutoStorage__counter" _ i s eq_refl H (fun _ => eq_refl)
               _ _ eq_refl).
    + cbn. insert_lookups. reflexivity.
    + intros k' j Hj. destruct k'; cbn in *; insert_lookups;
        counter_cases; simplify_eq; eauto with lia.
  - eexists. split; [| split].
    + apply (new_auto_descriptor descriptor_bulkfood.QuantityAuto.type_object
               "_QuantityAuto__counter" _ i s eq_refl H (fun _ => eq_refl)
               _ _ eq_refl).
    + cbn. insert_lookups. reflexivity.
    + intros k' j Hj. destruct k'; cbn in *; insert_lookups;
        counter_cases; simplify_eq; eauto with lia.
  - cbn in H.
    destruct (quantity_auto_counter s) as [c |] eqn:E; injection H as <-;
      (eexists; split; [| split]).
    + unfold property_factory.quantity_auto,
        property_factory.quantity_auto.bump_counter, bind, alloc, get_state,
        storage_attribute_at.
      rewrite E. cbn [heap class_attrs quantity_auto_counter].
      rewrite alloc_lookup, Nat.add_1_r. reflexivity.
    + reflexivity.
    + intros k' j Hj. destruct k'; cbn in *; eauto.
      rewrite E in Hj. injection Hj as <-. eauto.
    + unfold property_factory.quantity_auto,
        property_factory.quantity_auto.bump_counter, bind, alloc, get_state,
        storage_attribute_at.
      rewrite E. cbn [heap class_attrs quantity_auto_counter].
      rewrite alloc_lookup. reflexivity.
    + reflexivity.
    + intros k' j Hj. destruct k'; cbn in *; eauto.
      rewrite E in Hj. injection Hj as <-. eauto.
Qed.




(** The counter is a class attribute found through the MRO: a subclass
    starts from the value that AutoStorage has reached when the subclass
    is first instantiated, and counts on its own from there. *)
Example counters_are_inherited :
  fst (received_names
         [make_AutoStorage; make_AutoStorage; make_Quantity; make_NonBlank;
          make_Quantity] classes_defined)
  = Ok ["_AutoStorage#0"; "_AutoStorage#1"; "_Quantity#2"; "_NonBlank#2";
        "_Quantity#3"].
Proof. vm_compute. reflexivity. Qed.



(** ** The class decorator and the metaclasses *)

Lemma with_heap_same s : with_heap s (heap s) = s.
Proof. destruct s; reflexivity. Qed.

Lemma rename_run key attr s :
  descriptor_bulkfood2.rename key attr s
  = (Ok tt, with_heap s (renamed (heap s) key attr)).
Proof.
  unfold descriptor_bulkfood2.rename, renamed, bind, get_state.
  destruct attr as [r | q | v | l]; cbn [isinstance];
    try (rewrite with_heap_same; reflexivity).
  destruct (heap s !! r) as [[tp sn | fget fset] |] eqn:E;
    try (rewrite with_heap_same; reflexivity).
  destruct (existsb (String.eqb "descriptor_bulkfood2.Validated") (tp_mro tp));
    [| rewrite with_heap_same; reflexivity].
  unfold type_name, attr_set_storage_name, set_storage_name, deref, bind, ret.
  rewrite E. cbn beta iota. rewrite E. reflexivity.
Qed.

Lemma rename_loop ns s :
  for_each ns (fun item => descriptor_bulkfood2.rename (fst item) (snd item)) s
  = (Ok tt, with_heap s (renamed_all (heap s) ns)).
Proof.
  revert s. induction ns as [| [key attr] ns IH]; intros s.
  - cbn. unfold ret. rewrite with_heap_same. reflexivity.
  - cbn [for_each renamed_all fst snd]. unfold bind.
    rewrite rename_run, IH. reflexivity.
Qed.

(** A round of the loop keeps the class of every object, renames the
    object it is given when that is a Validated descriptor, and leaves the
    other objects alone. *)
Lemma renamed_other h key attr r :
  attr <> CRef r -> renamed h key attr !! r = h !! r.
Proof.
  intros Hne. unfold renamed.
  destruct attr as [r' | | |]; try reflexivity.
  destruct (h !! r') as [[tp sn |] |]; try reflexivity.
  destruct (isinstance h (CRef r') "descriptor_bulkfood2.Validated");
    [| reflexivity].
  apply list_lookup_insert_ne. congruence.
Qed.

Lemma renamed_self h key r tp sn :
  h !! r = Some (Descriptor tp sn) ->
  In "descriptor_bulkfood2.Validated" (tp_mro tp) ->
  renamed h key (CRef r) !! r
  = Some (Descriptor tp (format_hash (tp_name tp) key)).
Proof.
  intros Hr Hv. unfold renamed, isinstance. rewrite Hr.
  assert (E : existsb (String.eqb "descriptor_bulkfood2.Validated") (tp_mro tp)
              = true).
  { apply existsb_exists. exists "descriptor_bulkfood2.Validated".
    split; [exact Hv | apply String.eqb_refl]. }
  rewrite E. apply list_lookup_insert_eq. eapply lookup_lt_Some, Hr.
Qed.

Lemma renamed_all_named ns key r tp :
  In "descriptor_bulkfood2.Validated" (tp_mro tp) ->
  (forall key', In (key', CRef r) ns -> key' = key) ->
  forall h sn,
    h !! r = Some (Descriptor tp sn) ->
    In (key, CRef r) ns \/ sn = format_hash (tp_name tp) key ->
    renamed_all h ns !! r
    = Some (Descriptor tp (format_hash (tp_name tp) key)).
Proof.
  intros Hv. induction ns as [| [k a] ns IH]; intros Huniq h sn Hr Hin.
  - destruct Hin as [[] | ->]. exact Hr.
  - cbn [renamed_all].
    assert (Htail : forall key', In (key', CRef r) ns -> key' = key)
      by (intros key' H; apply Huniq; right; exact H).
    destruct a as [r' | q | v | l].
    + destruct (decide (r' = r)) as [-> | Hne].
      * assert (k = key) as -> by (apply Huniq; left; reflexivity).
        eapply (IH Htail); [apply (renamed_self _ _ _ _ _ Hr Hv) |].
        right. reflexivity.
      * eapply (IH Htail);
          [rewrite renamed_other by congruence; exact Hr |].
        destruct Hin as [[Hin | Hin] | Hin]; auto. congruence.
    + eapply (IH Htail); [exact Hr |].
      destruct Hin as [[Hin | Hin] | Hin]; auto. discriminate Hin.
    + eapply (IH Htail); [exact Hr |].
      destruct Hin as [[Hin | Hin] | Hin]; auto. discriminate Hin.
    + eapply (IH Htail); [exact Hr |].
      destruct Hin as [[Hin | Hin] | Hin]; auto. discriminate Hin.
Qed.

Lemma renamed_lookup h key attr r :
  renamed h key attr !! r = h !! r \/
  exists tp sn sn',
    h !! r = Some (Descriptor tp sn) /\
    renamed h key attr !! r = Some (Descriptor tp sn').
Proof.
  assert (Hcase : attr = CRef r \/ attr <> CRef r).
  { destruct attr as [r' | | |]; try (right; discriminate).
    destruct (decide (r' = r)) as [-> | Hne]; [left | right]; congruence. }
  destruct Hcase as [-> | Hne]; [| left; apply renamed_other; exact Hne].
  unfold renamed. destruct (h !! r) as [[tp sn |] |] eqn:E; auto.
  destruct (isinstance h (CRef r) "descriptor_bulkfood2.Validated"); auto.
  right. exists tp, sn. eexists. split; [reflexivity |].
  apply list_lookup_insert_eq. eapply lookup_lt_Some, E.
Qed.

Lemma renamed_isinstance h key attr a base :
  isinstance (renamed h key attr) a base = isinstance h a base.
Proof.
  destruct a as [r | | |]; try reflexivity. unfold isinstance.
  destruct (renamed_lookup h key attr r) as [-> | (tp & sn & sn' & -> & ->)];
    reflexivity.
Qed.

Lemma renamed_validated_names h key attr ns :
  validated_names (renamed h key attr) ns = validated_names h ns.
Proof.
  unfold validated_names. f_equal. apply filter_ext.
  intros item. apply renamed_isinstance.
Qed.

Lemma ns_lookup_set ns name a : ns_lookup (ns_set ns name a) name = Some a.
Proof.
  induction ns as [| [k b] ns IH]; cbn.
  - rewrite String.eqb_refl. reflexivity.
  - destruct (String.eqb k name) eqn:E; cbn; rewrite E; [reflexivity | exact IH].
Qed.

(** The loop of [EntityMeta2.__init__]: the heap goes through the same
    renaming, and [_field_names] grows by the names of the Validated
    attributes, in order. *)
Lemma field_names_loop ns :
  forall cls names s,
    ns_lookup (cls_dict cls) "_field_names" = Some (CList names) ->
    exists cls',
      for_fold ns cls (fun cls item =>
        let key := fst item in
        let attr := snd item in
        let* s := get_state in
        if isinstance (heap s) attr "descriptor_bulkfood2.Validated" then
          let* type_name := type_name attr in
          attr_set_storage_name attr (format_hash type_name key) >>>
          metaclass_bulkfood.list_append cls "_field_names" key
        else ret cls) s
      = (Ok cls', with_heap s (renamed_all (heap s) ns)) /\
      ns_lookup (cls_dict cls') "_field_names"
      = Some (CList (names ++ validated_names (heap s) ns)).
Proof.
  induction ns as [| [key attr] ns IH]; intros cls names s Hl.
  - exists cls. cbn. unfold ret. rewrite with_heap_same, app_nil_r. auto.
  - cbn [for_fold renamed_all fst snd]. cbv zeta. unfold bind at 1.
    unfold bind at 1. unfold get_state at 1.
    unfold validated_names. cbn [List.filter snd].
    fold (validated_names (heap s) ns).
    destruct (isinstance (heap s) attr "descriptor_bulkfood2.Validated") eqn:Ev.
    + assert (Hobj : exists r tp sn,
                 attr = CRef r /\ heap s !! r = Some (Descriptor tp sn)).
      { unfold isinstance in Ev. destruct attr as [r | | |]; try discriminate.
        destruct (heap s !! r) as [[tp sn |] |] eqn:E; try discriminate.
        exists r, tp, sn. split; [reflexivity | exact E]. }
      destruct Hobj as (r & tp & sn & -> & Hr).
      pose (cls1 := metaclass_bulkfood.type_setattr cls "_field_names"
                      (CList (names ++ [key])%list)).
      assert (Hl1 : ns_lookup (cls_dict cls1) "_field_names"
                    = Some (CList (names ++ [key])%list))
        by apply ns_lookup_set.
      destruct (IH cls1 (names ++ [key])%list
                  (with_heap s (renamed (heap s) key (CRef r))) Hl1)
        as (cls' & E & Hl').
      exists cls'. split.
      * assert (Hren : renamed (heap s) key (CRef r)
                       = <[r := Descriptor tp (format_hash (tp_name tp) key)]>
                           (heap s))
          by (unfold renamed; rewrite Hr, Ev; reflexivity).
        rewrite Hren in E |- *.
        unfold type_name, attr_set_storage_name, set_storage_name, deref,
          bind, ret, metaclass_bulkfood.list_append.
        rewrite Hr. cbn beta iota. rewrite Hr. cbn beta iota. rewrite Hl.
        exact E.
      * rewrite Hl'. cbn [heap with_heap].
        rewrite renamed_validated_names. cbn [map fst].
        rewrite <- app_assoc. reflexivity.
    + destruct (IH cls names (with_heap s (renamed (heap s) key attr)) Hl)
        as (cls' & E & Hl').
      assert (Hsame : renamed (heap s) key attr = heap s).
      { unfold renamed. destruct attr as [r | | |]; try reflexivity.
        destruct (heap s !! r) as [[tp sn |] |]; try reflexivity.
        rewrite Ev. reflexivity. }
      rewrite Hsame, with_heap_same in E. rewrite Hsame in Hl'.
      exists cls'. split.
      * unfold ret at 1. rewrite Hsame. exact E.
      * rewrite Hl'. reflexivity.
Qed.

Lemma field_names_init name attr_dict s :
  exists cls',
    metaclass_bulkfood.EntityMeta2.__init__
      {| cls_name := name; cls_dict := attr_dict |} attr_dict s
    = (Ok cls', with_heap s (renamed_all (heap s) attr_dict)) /\
    metaclass_bulkfood.Entity2.field_names cls'
    = Ok (validated_names (heap s) attr_dict).
Proof.
  unfold metaclass_bulkfood.EntityMeta2.__init__.
  destruct (field_names_loop attr_dict
              (metaclass_bulkfood.type_setattr
                 {| cls_name := name; cls_dict := attr_dict |}
                 "_field_names" (CList [])) [] s (ns_lookup_set _ _ _))
    as (cls' & E & Hl).
  exists cls'. split; [exact E |].
  unfold metaclass_bulkfood.Entity2.field_names. rewrite Hl. reflexivity.
Qed.

(** C7, as amended.  After a class is decorated with [entity], or built
    with EntityMeta or EntityMeta2, a Validated descriptor of type [T] that
    its namespace binds under the name [key] and under no other name has
    storage_name '_T#key'.  (A descriptor object bound under several names
    is renamed once per name, and keeps the last.) *)
Theorem storage_names_customized (name : string) (ns : namespace)
    (s : cstate) (key : string) (r : ref) (tp : dtype) (sn : string) :
  In (key, CRef r) ns ->
  (forall key', In (key', CRef r) ns -> key' = key) ->
  heap s !! r = Some (Descriptor tp sn) ->
  In "descriptor_bulkfood2.Validated" (tp_mro tp) ->
  let cls := {| cls_name := name; cls_dict := ns |} in
  let named := Some (Descriptor tp (format_hash (tp_name tp) key)) in
  (exists s', descriptor_bulkfood2.entity cls s = (Ok cls, s') /\
              heap s' !! r = named) /\
  (exists s', metaclass_bulkfood.EntityMeta.__init__ cls ns s = (Ok cls, s') /\
              heap s' !! r = named) /\
  (exists cls' s',
      metaclass_bulkfood.EntityMeta2.__init__ cls ns s = (Ok cls', s') /\
      heap s' !! r = named).
Proof.
  intros Hin Huniq Hr Hv cls named.
  assert (Hnamed : renamed_all (heap s) ns !! r = named)
    by (eapply renamed_all_named; eauto).
  split; [| split].
  - exists (with_heap s (renamed_all (heap s) ns)). split; [| exact Hnamed].
    unfold descriptor_bulkfood2.entity, bind. cbn [cls_dict cls].
    rewrite rename_loop. reflexivity.
  - exists (with_heap s (renamed_all (heap s) ns)). split; [| exact Hnamed].
    unfold metaclass_bulkfood.EntityMeta.__init__, bind.
    rewrite rename_loop. reflexivity.
  - destruct (field_names_init name ns s) as (cls' & E & _).
    exists cls', (with_heap s (renamed_all (heap s) ns)).
    split; [exact E | exact Hnamed].
Qed.

Lemma storage_names_customized_witness :
  let s := {| heap := [Descriptor descriptor_bulkfood2.NonBlank.type_object
                         "_NonBlank#0";
                       Descriptor descriptor_bulkfood2.Quantity.type_object
                         "_Quantity#0";
                       Descriptor descriptor_bulkfood2.Quantity.type_object
                         "_Quantity#1"];
              class_attrs := ∅; quantity_auto_counter := None |} in
  let cls := {| cls_name := "LineItem";
                cls_dict := [("description", CRef 0%nat);
                             ("weight", CRef 1%nat);
                             ("price", CRef 2%nat)] |} in
  exists s', descriptor_bulkfood2.entity cls s = (Ok cls, s') /\
             heap s' !! 1%nat
             = Some (Descriptor descriptor_bulkfood2.Quantity.type_object
                       "_Quantity#weight").
Proof.
  intros s cls.
  apply (storage_names_customized "LineItem" (cls_dict cls) s "weight" 1%nat
           descriptor_bulkfood2.Quantity.type_object "_Quantity#0").
  - simpl. tauto.
  - simpl. intros key' [H | [H | [H | []]]]; congruence.
  - reflexivity.
  - simpl. tauto.
Defined.

(** C7 as stated fails when the class body binds one descriptor under two
    names ([weight = price = Quantity()]): the descriptor declared under
    'weight' ends up with the storage name '_Quantity#price'. *)
Lemma shared_descriptor_keeps_last_name :
  match shared_module fresh with
  | (Ok cls, s) =>
      ns_lookup (cls_dict cls) "weight" = Some (CRef 0%nat) /\
      ns_lookup (cls_dict cls) "price" = Some (CRef 0%nat) /\
      isinstance (heap s) (CRef 0%nat) "descriptor_bulkfood2.Validated" = true /\
      storage_name_at (heap s) 0%nat = Some "_Quantity#price" /\
      storage_name_at (heap s) 0%nat <> Some (format_hash "Quantity" "weight")
  | (Raise _, _) => False
  end.
Proof. vm_compute. repeat split; discriminate. Qed.

(** ** field_names *)

(** C10.  For a class built with EntityMeta2, field_names() yields the
    names that the class body binds to Validated descriptors, in the order
    of the namespace (the OrderedDict of [__prepare__], filled in
    declaration order); for LineItem these are description, weight and
    price. *)
Theorem field_names_in_declaration_order :
  (forall (name : string) (attr_dict : namespace) (s : cstate),
      exists cls' s',
        metaclass_bulkfood.EntityMeta2.__init__
          {| cls_name := name; cls_dict := attr_dict |} attr_dict s
        = (Ok cls', s') /\
        metaclass_bulkfood.Entity2.field_names cls'
        = Ok (validated_names (heap s) attr_dict)) /\
  metaclass_bulkfood.Entity2.field_names (class_for metaclass_LineItem)
  = Ok ["description"; "weight"; "price"].
Proof.
  split.
  - intros name attr_dict s.
    destruct (field_names_init name attr_dict s) as (cls' & E & H).
    exists cls', (with_heap s (renamed_all (heap s) attr_dict)).
    split; [exact E | exact H].
  - vm_compute. reflexivity.
Qed.

(** The namespace of LineItem when EntityMeta2 receives it: the Validated
    attributes are the three fields, in this order. *)
Example LineItem_validated_names :
  match metaclass_bulkfood.build_class "LineItem"
          metaclass_bulkfood.LineItem.class_body (fun cls ns => ret cls)
          (snd (descriptor_bulkfood2.module fresh)) with
  | (Ok cls, s) =>
      map fst (cls_dict cls)
      = ["__module__"; "__qualname__"; "description"; "weight"; "price";
         "__init__"; "subtotal"] /\
      validated_names (heap s) (cls_dict cls)
      = ["description"; "weight"; "price"]
  | (Raise _, _) => False
  end.
Proof. vm_compute. split; reflexivity. Qed.

(** ** Imports between the source files *)

(** C8, as amended.  Of the 32 source files, 25 import no other source
    file of the repository, neither in their code nor in a doctest.  Seven
    depend on a sibling: inheritance_mro (structure_frenchdeck, in a
    doctest), operator_overloading (abc_tombola; class_Vector2d in a
    doctest), attribute_schedule and attribute_schedule2
    (attribute_osconfeed), metaclass_bulkfood (descriptor_bulkfood2),
    metaclass_evaltime (metaclass_evalsupport) and metaclass_evaltime2
    (metaclass_evalsupport; descriptor_bulkfood2 in a doctest).  Six of the
    seven do so by an import statement of their code. *)
Theorem self_contained_files :
  length repository = 32%nat /\
  length (List.filter self_contained repository) = 25%nat /\
  length (List.filter self_contained_code repository) = 26%nat /\
  dependent_files
  = [("inheritance_mro", [(39, "structure_frenchdeck")]);
     ("operator_overloading", [(4, "abc_tombola"); (45, "class_Vector2d")]);
     ("attribute_schedule", [(2, "attribute_osconfeed")]);
     ("attribute_schedule2", [(3, "attribute_osconfeed")]);
     ("metaclass_bulkfood", [(3, "descriptor_bulkfood2")]);
     ("metaclass_evaltime", [(1, "metaclass_evalsupport")]);
     ("metaclass_evaltime2",
      [(12, "descriptor_bulkfood2"); (33, "metaclass_evalsupport");
       (34, "metaclass_evalsupport")])]%nat.
Proof. repeat split; vm_compute; reflexivity. Qed.

(** C8 as stated fails on metaclass_bulkfood.py, which imports Validated,
    Quantity and NonBlank from descriptor_bulkfood2.py: its LineItem is made
    of the descriptor classes of that module, and its descriptors are the
    fourth to sixth objects of the heap, after those that the import of
    descriptor_bulkfood2 creates for its own LineItem. *)
Lemma metaclass_bulkfood_imports_sibling :
  (exists f, In f repository /\
             module_name f = "metaclass_bulkfood" /\
             In (imp 3 statement "descriptor_bulkfood2") (imports f) /\
             is_repository_module "descriptor_bulkfood2" = true /\
             self_contained f = false) /\
  isinstance (heap_for metaclass_LineItem) (CRef 4%nat)
    "descriptor_bulkfood2.Validated" = true /\
  map (ns_lookup (cls_dict (class_for metaclass_LineItem)))
    ["description"; "weight"; "price"]
  = [Some (CRef 3%nat); Some (CRef 4%nat); Some (CRef 5%nat)] /\
  length (heap_of descriptor_bulkfood2.module) = 3%nat.
Proof.
  split.
  - exists {| path := "Part5-Metaprogramming/metaclass_bulkfood.py";
              module_name := "metaclass_bulkfood";
              imports := [imp 1 statement "collections";
                          imp 3 statement "descriptor_bulkfood2"] |}.
    repeat split; try (vm_compute; reflexivity).
    + unfold repository. simpl. tauto.
    + simpl. tauto.
  - repeat split; vm_compute; reflexivity.
Qed.

(** * Further properties of the code *)

(** ** Stripping *)

Lemma lstrip_head s c :
  str_head (lstrip s) = Some c -> py_isspace c = false.
Proof.
  induction s as [| a s IH]; cbn [lstrip]; [discriminate |].
  destruct (py_isspace a) eqn:E; [exact IH |].
  cbn. intros H. injection H as <-. exact E.
Qed.

Lemma lstrip_fixed s :
  (forall c, str_head s = Some c -> py_isspace c = false) -> lstrip s = s.
Proof.
  destruct s as [| a s]; [reflexivity |]. intros H. cbn [lstrip].
  rewrite (H a eq_refl). reflexivity.
Qed.

Lemma rstrip_idempotent s : rstrip (rstrip s) = rstrip s.
Proof.
  induction s as [| a s IH]; [reflexivity |]. cbn [rstrip].
  destruct (rstrip s) as [| b r] eqn:E.
  - destruct (py_isspace a) eqn:Ea; [reflexivity |].
    cbn [rstrip]. rewrite Ea. reflexivity.
  - cbn [rstrip]. cbn [rstrip] in IH.
    destruct (match rstrip r with
              | EmptyString =>
                  if py_isspace b then EmptyString else String b EmptyString
              | String a0 s0 => String b (String a0 s0)
              end) eqn:E'; [discriminate IH |].
    rewrite IH. reflexivity.
Qed.

Lemma rstrip_head s c :
  str_head s = Some c -> py_isspace c = false ->
  str_head (rstrip s) = Some c.
Proof.
  destruct s as [| a s]; [discriminate |]. cbn. intros H Hc.
  injection H as ->. destruct (rstrip s); [rewrite Hc |]; reflexivity.
Qed.


Lemma strip_head s c :
  str_head (str_strip s) = Some c -> py_isspace c = false.
Proof.
  unfold str_strip. intros H.
  destruct (lstrip s) as [| a t] eqn:E; [discriminate H |].
  assert (Ha : py_isspace a = false)
    by (apply (lstrip_head s); rewrite E; reflexivity).
  rewrite (rstrip_head (String a t) a eq_refl Ha) in H.
  injection H as <-. exact Ha.
Qed.

Lemma strip_idempotent s : str_strip (str_strip s) = str_strip s.
Proof.
  unfold str_strip at 1.
  rewrite (lstrip_fixed (str_strip s) (strip_head s)).
  unfold str_strip. apply rstrip_idempotent.
Qed.

Lemma length_zero_empty s : String.length s = 0%nat <-> s = EmptyString.
Proof. destruct s; cbn; split; intros H; try reflexivity; discriminate. Qed.

(** ** What the instances hold *)

Lemma store_passes g sn v d u d' :
  store g sn v d = (Ok u, d') ->
  exists v', d' = <[sn := v']> d /\ passes g v'.
Proof.
  destruct g; unfold store, bind, lift, raise, ret, dict_setitem, passes.
  - intros H; inversion H; eauto.
  - destruct (py_gt0 v) as [[|] |] eqn:E; intros H; inversion H; eauto.
  - destruct (py_le0 v) as [[|] |] eqn:E; intros H; inversion H; eauto.
  - destruct v; try discriminate.
    destruct (String.length (str_strip s) =? 0)%nat eqn:E;
      intros H; inversion H.
    eexists. split; [reflexivity |].
    exists (str_strip s). split; [reflexivity |].
    split; [apply strip_idempotent |].
    apply Nat.eqb_neq in E. intros Hs. apply E, length_zero_empty, Hs.
Qed.

Lemma passes_store g sn v d :
  passes g v -> store g sn v d = (Ok tt, <[sn := v]> d).
Proof.
  destruct g; unfold store, bind, lift, raise, ret, dict_setitem, passes.
  - reflexivity.
  - intros ->. reflexivity.
  - intros ->. reflexivity.
  - intros (s & -> & Hs & Hne). rewrite Hs.
    destruct (String.length s =? 0)%nat eqn:E; [| reflexivity].
    apply Nat.eqb_eq, length_zero_empty in E. contradiction.
Qed.

Lemma storage_inj i a b :
  In a ["description"; "weight"; "price"] ->
  In b ["description"; "weight"; "price"] ->
  storage_for i a = storage_for i b -> a = b.
Proof.
  intros Ha Hb. simpl in Ha, Hb.
  destruct Ha as [<- | [<- | [<- | []]]];
    destruct Hb as [<- | [<- | [<- | []]]];
    destruct i; vm_compute; congruence.
Qed.

Lemma stored_ok_step i names a v d u d' :
  (forall b, In b names -> In b ["description"; "weight"; "price"]) ->
  In a ["description"; "weight"; "price"] ->
  stored_ok i names d ->
  store (guard_for i a) (storage_for i a) v d = (Ok u, d') ->
  stored_ok i (a :: names) d'.
Proof.
  intros Hnames Ha Hd H. apply store_passes in H.
  destruct H as (v' & -> & Hv'). intros b [<- | Hb].
  - exists v'. split; [apply lookup_insert_eq | exact Hv'].
  - destruct (Hd b Hb) as (w & Hw & Hpw).
    destruct (String.eqb_spec a b) as [<- | Hne].
    + exists v'. split; [apply lookup_insert_eq | exact Hv'].
    + exists w. split; [| exact Hpw].
      rewrite lookup_insert_ne; [exact Hw |].
      intros E. apply Hne. apply (storage_inj i); auto.
Qed.

Lemma stored_ok_incl i names names' d :
  (forall a, In a names' -> In a names) ->
  stored_ok i names d -> stored_ok i names' d.
Proof. intros Hincl H a Ha. apply H, Hincl, Ha. Qed.

Lemma constructed_stored_ok i description weight price d :
  construct_item i description weight price = Ok d ->
  stored_ok i ["description"; "weight"; "price"] d.
Proof.
  unfold construct_item, instantiate. intros H.
  assert (H0 : stored_ok i [] ∅) by (intros a []).
  assert (Hd : In "description" ["description"; "weight"; "price"])
    by (simpl; tauto).
  assert (Hw : In "weight" ["description"; "weight"; "price"])
    by (simpl; tauto).
  assert (Hp : In "price" ["description"; "weight"; "price"])
    by (simpl; tauto).
  destruct (init_summary i description weight price ∅) as [E | E];
    rewrite E in H; clear E; unfold bind in H;
    destruct (store (guard_for i "description") (storage_for i "description")
                description ∅) as [[u0 | e0] d0] eqn:E0; try discriminate H.
  - destruct (store (guard_for i "weight") (storage_for i "weight") weight d0)
      as [[u1 | e1] d1] eqn:E1; try discriminate H.
    destruct (store (guard_for i "price") (storage_for i "price") price d1)
      as [[u2 | e2] d2] eqn:E2; try discriminate H.
    injection H as <-.
    apply (stored_ok_step i [] "description") in E0; auto; [| intros b []].
    apply (stored_ok_step i ["description"] "weight") in E1; auto;
      [| simpl; tauto].
    apply (stored_ok_step i ["weight"; "description"] "price") in E2; auto;
      [| simpl; tauto].
    eapply stored_ok_incl; [| exact E2]. simpl. tauto.
  - destruct (store (guard_for i "price") (storage_for i "price") price d0)
      as [[u1 | e1] d1] eqn:E1; try discriminate H.
    destruct (store (guard_for i "weight") (storage_for i "weight") weight d1)
      as [[u2 | e2] d2] eqn:E2; try discriminate H.
    injection H as <-.
    apply (stored_ok_step i [] "description") in E0; auto; [| intros b []].
    apply (stored_ok_step i ["description"] "price") in E1; auto;
      [| simpl; tauto].
    apply (stored_ok_step i ["price"; "description"] "weight") in E2; auto;
      [| simpl; tauto].
    eapply stored_ok_incl; [| exact E2]. simpl. tauto.
Qed.

(** Every store that an instance goes through holds, for each of the three
    attributes, a value that has passed the check of the attribute. *)
Lemma live_stored_ok i d :
  live i d -> stored_ok i ["description"; "weight"; "price"] d.
Proof.
  induction 1 as [description weight price d H | a v d r d' _ IH Ha H].
  - eapply constructed_stored_ok, H.
  - rewrite setattr_summary in H by exact Ha.
    destruct r as [u | e].
    + eapply stored_ok_incl;
        [| eapply (stored_ok_step i _ a); [| exact Ha | exact IH | exact H]];
        [intros b Hb; right; exact Hb | auto].
    + apply store_raise in H. subst d'. exact IH.
Qed.

Lemma quantity_passes g v :
  checks_quantity g -> passes g v -> py_le0 v = Ok false.
Proof.
  intros [-> | ->]; cbn; [apply gt0_not_le0 | auto].
Qed.

Lemma positive_guard i a :
  In a ["weight"; "price"] -> is_managed i a = true ->
  i <> validated_LineItem -> i <> metaclass_LineItem ->
  guard_for i a = Positive.
Proof.
  intros Ha Hm H1 H2. simpl in Ha.
  destruct Ha as [<- | [<- | []]]; destruct i;
    first [ exfalso; apply H1; reflexivity
          | exfalso; apply H2; reflexivity
          | vm_compute in Hm; discriminate Hm
          | vm_compute; reflexivity ].
Qed.

(** X1.  No LineItem ever holds a managed weight or price that is [<= 0]:
    on every store reached from a successful construction by assignments to
    the three attributes, successful or not, a managed weight or price
    reads as a number [v] for which [v <= 0] is false; in the six classes
    that test [value > 0], [v > 0] is true. *)
Theorem managed_quantities_stay_positive (i : line_item) (a : string)
    (d : gmap string value) :
  live i d ->
  In a ["weight"; "price"] -> is_managed i a = true ->
  exists v,
    py_getattr (instance_for i) a d = (Ok v, d) /\
    py_le0 v = Ok false /\
    (i <> validated_LineItem -> i <> metaclass_LineItem ->
     py_gt0 v = Ok true).
Proof.
  intros Hlive Ha Hm.
  pose proof (quantity_is_attribute a Ha) as Ha'.
  destruct (live_stored_ok i d Hlive a Ha') as (v & Hv & Hp).
  exists v. split; [| split].
  - rewrite getattr_summary by exact Ha'. apply load_present, Hv.
  - eapply quantity_passes; [apply managed_quantity_guard |]; eassumption.
  - intros H1 H2. rewrite (positive_guard i a Ha Hm H1 H2) in Hp. exact Hp.
Qed.

Lemma managed_quantities_stay_positive_witness :
  exists v,
    py_getattr (instance_for descriptor_LineItemAuto) "weight"
      (<["_QuantityAuto#0" := VInt 20]>
         (<["_QuantityAuto#1" := VFloat float_17_95]>
            {["description" := VStr "Brazilian coconut"]}))
    = (Ok v, <["_QuantityAuto#0" := VInt 20]>
               (<["_QuantityAuto#1" := VFloat float_17_95]>
                  {["description" := VStr "Brazilian coconut"]})) /\
    py_le0 v = Ok false /\
    (descriptor_LineItemAuto <> validated_LineItem ->
     descriptor_LineItemAuto <> metaclass_LineItem -> py_gt0 v = Ok true).
Proof.
  apply (managed_quantities_stay_positive descriptor_LineItemAuto "weight").
  - apply (live_new descriptor_LineItemAuto (VStr "Brazilian coconut")
             (VInt 20) (VFloat float_17_95)).
    vm_compute. reflexivity.
  - simpl. tauto.
  - reflexivity.
Defined.

(** X2.  Assigning back the value that an attribute reads as changes
    nothing: on every store reached from a successful construction, if
    description, weight or price reads as [w], then assigning [w] to it
    succeeds and leaves the instance as it was. *)
Theorem reassigning_the_value_read (i : line_item) (a : string) (w : value)
    (d : gmap string value) :
  live i d ->
  In a ["description"; "weight"; "price"] ->
  py_getattr (instance_for i) a d = (Ok w, d) ->
  py_setattr (instance_for i) a w d = (Ok tt, d).
Proof.
  intros Hlive Ha Hget.
  destruct (live_stored_ok i d Hlive a Ha) as (v & Hv & Hp).
  rewrite getattr_summary in Hget by exact Ha.
  rewrite (load_present _ _ _ _ Hv) in Hget. injection Hget as <-.
  rewrite setattr_summary by exact Ha.
  rewrite (passes_store _ _ _ _ Hp). rewrite insert_id by exact Hv.
  reflexivity.
Qed.

Lemma reassigning_the_value_read_witness :
  py_setattr (instance_for validated_LineItem) "description"
    (VStr "Golden raisins")
    (<["_NonBlank#description" := VStr "Golden raisins"]>
       (<["_Quantity#price" := VFloat float_6_95]>
          {["_Quantity#weight" := VInt 10]}))
  = (Ok tt,
     <["_NonBlank#description" := VStr "Golden raisins"]>
       (<["_Quantity#price" := VFloat float_6_95]>
          {["_Quantity#weight" := VInt 10]})).
Proof.
  apply (reassigning_the_value_read validated_LineItem "description").
  - apply (live_new validated_LineItem (VStr "  Golden raisins ")
             (VInt 10) (VFloat float_6_95)).
    vm_compute. reflexivity.
  - simpl. tauto.
  - vm_compute. reflexivity.
Defined.

(** X3.  The three attributes are stored apart: an assignment to one of
    description, weight and price, whether it succeeds or raises, never
    changes what another of them reads as. *)
Theorem assignment_leaves_other_attributes (i : line_item) (a b : string)
    (v : value) (r : result unit) (d d' : gmap string value) :
  In a ["description"; "weight"; "price"] ->
  In b ["description"; "weight"; "price"] ->
  a <> b ->
  py_setattr (instance_for i) a v d = (r, d') ->
  fst (py_getattr (instance_for i) b d')
  = fst (py_getattr (instance_for i) b d).
Proof.
  intros Ha Hb Hne H.
  rewrite setattr_summary in H by exact Ha.
  rewrite !getattr_summary by exact Hb.
  destruct r as [u | e].
  - apply store_ok in H. destruct H as (v' & -> & _).
    unfold load. rewrite lookup_insert_ne; [| intros E; apply Hne;
      apply (storage_inj i); auto].
    destruct (d !! storage_for i b); reflexivity.
  - apply store_raise in H. subst d'. reflexivity.
Qed.

Lemma assignment_leaves_other_attributes_witness :
  fst (py_getattr (instance_for factory_LineItemAuto) "price"
         (<["_quantity_auto:0" := VInt 9]> {["_quantity_auto:1" := VInt 3]}))
  = fst (py_getattr (instance_for factory_LineItemAuto) "price"
           {["_quantity_auto:1" := VInt 3]}).
Proof.
  apply (assignment_leaves_other_attributes factory_LineItemAuto
           "weight" "price" (VInt 9) (Ok tt));
    [simpl; tauto | simpl; tauto | discriminate | vm_compute; reflexivity].
Defined.
(** ** Values of the wrong type, and NaN *)

Lemma unordered_gt0 v : unordered v -> py_gt0 v = Raise TypeError.
Proof. destruct v; simpl; tauto. Qed.

Lemma unordered_le0 v : unordered v -> py_le0 v = Raise TypeError.
Proof. destruct v; simpl; tauto. Qed.

Lemma description_guard i :
  is_managed i "description" = true -> guard_for i "description" = Stripped.
Proof. intros H. unfold guard_for. rewrite H. reflexivity. Qed.

(** X4.  A value of another type than the check expects is refused by the
    check itself, with another exception than ValueError, and nothing is
    written: a managed weight or price that is given a [str], [None], a
    list, a descriptor or property object or a bound method raises
    TypeError (the comparison with 0 fails), and a managed description that
    is given an [int], a [float], [None], a list, a descriptor or property
    object or a bound method raises AttributeError (it has no [strip]
    method). *)
Theorem ill_typed_assignment (i : line_item) (a : string) (v : value)
    (d : gmap string value) :
  is_managed i a = true ->
  (In a ["weight"; "price"] -> unordered v ->
   py_setattr (instance_for i) a v d = (Raise TypeError, d)) /\
  (a = "description" -> stripless v ->
   py_setattr (instance_for i) a v d = (Raise (AttributeError "strip"), d)).
Proof.
  intros Hm. split.
  - intros Ha Hv.
    rewrite setattr_summary by (apply quantity_is_attribute, Ha).
    destruct (managed_quantity_guard i a Ha Hm) as [-> | ->];
      unfold store, bind, lift.
    + rewrite (unordered_gt0 v Hv). reflexivity.
    + rewrite (unordered_le0 v Hv). reflexivity.
  - intros -> Hv.
    rewrite setattr_summary by (simpl; tauto).
    rewrite (description_guard i Hm). unfold store, bind, raise.
    destruct v; try reflexivity. destruct Hv.
Qed.

Lemma ill_typed_assignment_witness :
  py_setattr (instance_for property_LineItem) "weight" (VStr "heavy")
    {["description" := VStr "walnuts"]}
  = (Raise TypeError, {["description" := VStr "walnuts"]}).
Proof.
  apply (ill_typed_assignment property_LineItem "weight" (VStr "heavy")
           {["description" := VStr "walnuts"]});
    [reflexivity | simpl; tauto | exact I].
Defined.

Lemma SFltb_zero_SFleb f :
  f <> S754_nan -> SFltb float_zero f = negb (SFleb f float_zero).
Proof.
  unfold SFleb, SFltb, float_zero.
  destruct f as [s | s | | s m e]; try destruct s; simpl; congruence.
Qed.

Lemma gt0_le0 v :
  is_number v -> v <> VFloat S754_nan ->
  exists b, py_gt0 v = Ok b /\ py_le0 v = Ok (negb b).
Proof.
  destruct v; simpl; try tauto; intros _ H.
  - exists (0 <? n). split; [reflexivity |]. f_equal.
    destruct (Z.ltb_spec 0 n), (Z.leb_spec n 0); try reflexivity; lia.
  - exists (SFltb float_zero f). split; [reflexivity |]. f_equal.
    rewrite SFltb_zero_SFleb by congruence.
    destruct (SFleb f float_zero); reflexivity.
Qed.

(** X5.  The classes do not test a quantity in the same way: six test
    [value > 0] and raise otherwise, the Quantity descriptor of
    descriptor_bulkfood2.py (used also by metaclass_bulkfood.py) raises if
    [value <= 0].  On every number but NaN the two tests agree, so that any
    two managed quantities of any two classes accept the same numbers; NaN
    fails both comparisons, and is stored by the two classes that test
    [value <= 0] and refused with ValueError by the others. *)
Theorem quantity_checks_agree_except_nan :
  (forall i j a b v d d',
      In a ["weight"; "price"] -> is_managed i a = true ->
      In b ["weight"; "price"] -> is_managed j b = true ->
      is_number v -> v <> VFloat S754_nan ->
      fst (py_setattr (instance_for i) a v d)
      = fst (py_setattr (instance_for j) b v d')) /\
  (forall i a d,
      In a ["weight"; "price"] -> is_managed i a = true ->
      py_setattr (instance_for i) a (VFloat S754_nan) d
      = if match i with
           | validated_LineItem | metaclass_LineItem => true
           | _ => false
           end
        then (Ok tt, <[storage_for i a := VFloat S754_nan]> d)
        else (Raise (ValueError "value must be > 0"), d)).
Proof.
  split.
  - intros i j a b v d d' Ha Hi Hb Hj Hv Hnan.
    rewrite !setattr_summary by (apply quantity_is_attribute; assumption).
    destruct (gt0_le0 v Hv Hnan) as (p & Hp & Hq).
    destruct (managed_quantity_guard i a Ha Hi) as [-> | ->];
      destruct (managed_quantity_guard j b Hb Hj) as [-> | ->];
      unfold store, bind, lift; rewrite ?Hp, ?Hq; destruct p; reflexivity.
  - intros i a d Ha Hm.
    rewrite setattr_summary by (apply quantity_is_attribute, Ha).
    simpl in Ha. destruct Ha as [<- | [<- | []]]; destruct i;
      vm_compute in Hm; try discriminate Hm; reflexivity.
Qed.

Lemma quantity_checks_agree_except_nan_witness :
  fst (py_setattr (instance_for property_LineItem) "weight" (VInt (-3)) ∅)
  = fst (py_setattr (instance_for metaclass_LineItem) "price" (VInt (-3))
           {["_Quantity#weight" := VInt 10]}).
Proof.
  apply (proj1 quantity_checks_agree_except_nan);
    [simpl; tauto | reflexivity | simpl; tauto | reflexivity
     | exact I | discriminate].
Defined.

(** ** Storage attributes read and written directly *)

(** X6.  Reading an attribute of an instance that does not hold its storage
    attribute raises an error that names the storage attribute: a plain
    attribute and the attributes managed through [getattr] raise
    AttributeError, the [quantity] property of property_factory.py, which
    indexes the instance [__dict__], raises KeyError.  (The set-only
    descriptor of descriptor_bulkfood.py has no getter; its case is the
    class access of C5.) *)
Theorem reading_an_unset_attribute (i : line_item) (a : string)
    (d : gmap string value) :
  In a ["description"; "weight"; "price"] ->
  d !! storage_for i a = None ->
  i <> descriptor_LineItem ->
  py_getattr (instance_for i) a d
  = (Raise (if is_managed i a
            then match i with
                 | factory_LineItem => KeyError (storage_for i a)
                 | _ => AttributeError (storage_for i a)
                 end
            else AttributeError a), d).
Proof.
  intros Ha Hd Hi. rewrite getattr_summary by exact Ha.
  unfold load. rewrite Hd. f_equal.
  simpl in Ha. destruct Ha as [<- | [<- | [<- | []]]]; destruct i;
    try contradiction; reflexivity.
Qed.

Lemma reading_an_unset_attribute_witness :
  py_getattr (instance_for factory_LineItem) "price"
    {["weight" := VInt 8]}
  = (Raise (KeyError "price"), {["weight" := VInt 8]}).
Proof.
  apply (reading_an_unset_attribute factory_LineItem "price"
           {["weight" := VInt 8]});
    [simpl; tauto | reflexivity | discriminate].
Defined.

(** X7.  The storage attribute of a managed attribute is an ordinary
    instance attribute whenever it has a name of its own: [getattr] on it
    reads what the managed attribute holds, and [setattr] on it stores any
    value, without the check of the managed attribute, which then reads as
    that value. *)
Theorem storage_attribute_is_unchecked (i : line_item) (a : string)
    (v : value) (d : gmap string value) :
  In a ["description"; "weight"; "price"] ->
  is_managed i a = true ->
  storage_for i a <> a ->
  py_getattr (instance_for i) (storage_for i a) d
  = load (storage_for i a) (Raise (AttributeError (storage_for i a))) d /\
  py_setattr (instance_for i) (storage_for i a) v d
  = (Ok tt, <[storage_for i a := v]> d) /\
  py_getattr (instance_for i) a (<[storage_for i a := v]> d)
  = (Ok v, <[storage_for i a := v]> d).
Proof.
  intros Ha Hm Hne. split; [| split].
  - simpl in Ha. destruct Ha as [<- | [<- | [<- | []]]]; destruct i;
      vm_compute in Hm; try discriminate Hm;
      try (exfalso; apply Hne; reflexivity); eval_tables; reflexivity.
  - simpl in Ha. destruct Ha as [<- | [<- | [<- | []]]]; destruct i;
      vm_compute in Hm; try discriminate Hm;
      try (exfalso; apply Hne; reflexivity); eval_tables; reflexivity.
  - rewrite getattr_summary by exact Ha. apply load_insert.
Qed.

Lemma storage_attribute_is_unchecked_witness :
  py_setattr (instance_for property_LineItem) "_LineItem__weight"
    (VInt (-20)) {["_LineItem__weight" := VInt 10]}
  = (Ok tt, <["_LineItem__weight" := VInt (-20)]>
              {["_LineItem__weight" := VInt 10]}) /\
  py_getattr (instance_for property_LineItem) "weight"
    (<["_LineItem__weight" := VInt (-20)]> {["_LineItem__weight" := VInt 10]})
  = (Ok (VInt (-20)),
     <["_LineItem__weight" := VInt (-20)]> {["_LineItem__weight" := VInt 10]}).
Proof.
  apply (storage_attribute_is_unchecked property_LineItem "weight"
           (VInt (-20)) {["_LineItem__weight" := VInt 10]});
    [simpl; tauto | reflexivity | discriminate].
Defined.

(** X8.  The recursion that the source avoids.  A descriptor that goes
    through [getattr] and [setattr] must not store under the name it is
    bound to: if an AutoStorage or QuantityAuto descriptor is bound to the
    name that is also its storage name, every read of the attribute, and
    every write that passes the check, ends in RecursionError and writes
    nothing, whatever the recursion limit. *)
Theorem storage_under_managed_name_recurses (h : list cobj) (c : pyclass)
    (a : string) (r : ref) (tp : dtype) (limit : nat) (v : value)
    (d : gmap string value) :
  ns_lookup (cls_dict c) a = Some (CRef r) ->
  h !! r = Some (Descriptor tp a) ->
  tp = descriptor_bulkfood2.AutoStorage.type_object \/
  tp = descriptor_bulkfood.QuantityAuto.type_object /\ py_gt0 v = Ok true ->
  py_getattr (instance_at h c limit) a d = (Raise RecursionError, d) /\
  py_setattr (instance_at h c limit) a v d = (Raise RecursionError, d).
Proof.
  intros Ha Hr Htp. induction limit as [| n [IHg IHs]].
  - split; reflexivity.
  - destruct Htp as [-> | [-> Hv]].
    + split.
      * rewrite (getattr_data_descriptor h c n a r _ a _ _ Ha Hr
                   eq_refl eq_refl). exact IHg.
      * rewrite (setattr_descriptor h c n a r _ a _ v Ha Hr eq_refl).
        exact IHs.
    + split.
      * rewrite (getattr_data_descriptor h c n a r _ a _ _ Ha Hr
                   eq_refl eq_refl). exact IHg.
      * rewrite (setattr_descriptor h c n a r _ a _ v Ha Hr eq_refl).
        unfold descriptor_bulkfood.QuantityAuto.__set__, bind, lift.
        rewrite Hv. exact IHs.
Qed.

Lemma storage_under_managed_name_recurses_witness :
  py_getattr (instance_at looping_heap looping_class 1000) "weight" ∅
  = (Raise RecursionError, ∅) /\
  py_setattr (instance_at looping_heap looping_class 1000) "weight"
    (VInt 1) ∅
  = (Raise RecursionError, ∅).
Proof.
  apply (storage_under_managed_name_recurses looping_heap looping_class
           "weight" 0%nat descriptor_bulkfood.QuantityAuto.type_object);
    [reflexivity | reflexivity | right; split; reflexivity].
Defined.

(** ** The class decorator and the metaclasses, object by object *)

Lemma renamed_at h key attr r :
  renamed h key attr !! r
  = match attr, h !! r with
    | CRef r', Some (Descriptor tp sn) =>
        if (r' =? r)%nat && is_validated tp
        then Some (Descriptor tp (format_hash (tp_name tp) key))
        else h !! r
    | _, o => o
    end.
Proof.
  destruct attr as [r' | q | v | names];
    try (cbn [renamed]; destruct (h !! r) as [[tp sn | fg fs] |];
         reflexivity).
  destruct (Nat.eqb_spec r' r) as [-> | Hne].
  - unfold renamed, isinstance, is_validated.
    destruct (h !! r) as [[tp sn | fg fs] |] eqn:E; rewrite ?E;
      try reflexivity.
    cbn [andb].
    destruct (existsb (String.eqb "descriptor_bulkfood2.Validated")
                (tp_mro tp)); [| exact E].
    apply list_lookup_insert_eq. eapply lookup_lt_Some, E.
  - rewrite renamed_other by congruence.
    destruct (h !! r) as [[tp sn | fg fs] |]; reflexivity.
Qed.

Lemma renamed_all_at ns :
  forall h r, renamed_all h ns !! r = customized ns r <$> (h !! r).
Proof.
  induction ns as [| [key attr] ns IH]; intros h r.
  - cbn [renamed_all]. destruct (h !! r) as [[tp sn | fg fs] |];
      cbn; try reflexivity. destruct (is_validated tp); reflexivity.
  - cbn [renamed_all]. rewrite IH, renamed_at.
    destruct attr as [r' | q | v | names];
      try (destruct (h !! r) as [[tp sn | fg fs] |]; cbn; try reflexivity;
           destruct (is_validated tp); try reflexivity;
           destruct (last_key ns r); reflexivity).
    destruct (h !! r) as [[tp sn | fg fs] |]; cbn; try reflexivity.
    destruct (Nat.eqb_spec r' r) as [-> | Hne]; cbn [andb];
      destruct (is_validated tp) eqn:Ev; cbn; rewrite ?Ev;
      destruct (last_key ns r); reflexivity.
Qed.

Lemma renamed_length h key attr : length (renamed h key attr) = length h.
Proof.
  destruct attr as [r | q | v | names]; try reflexivity. unfold renamed.
  destruct (h !! r) as [[tp sn | fg fs] |]; try reflexivity.
  destruct (isinstance h (CRef r) "descriptor_bulkfood2.Validated");
    [apply length_insert | reflexivity].
Qed.

Lemma renamed_all_length ns : forall h, length (renamed_all h ns) = length h.
Proof.
  induction ns as [| [key attr] ns IH]; intros h; [reflexivity |].
  cbn [renamed_all]. rewrite IH. apply renamed_length.
Qed.

Lemma customized_idempotent ns r o :
  customized ns r (customized ns r o) = customized ns r o.
Proof.
  destruct o as [tp sn | fg fs]; [| reflexivity]. cbn.
  destruct (is_validated tp) eqn:Ev; cbn; rewrite ?Ev; [| reflexivity].
  destruct (last_key ns r) eqn:El; cbn; rewrite Ev, ?El; reflexivity.
Qed.

Lemma renamed_all_idempotent ns h :
  renamed_all (renamed_all h ns) ns = renamed_all h ns.
Proof.
  apply list_eq. intros r. rewrite !renamed_all_at.
  destruct (h !! r) as [o |]; [| reflexivity]. cbn.
  rewrite customized_idempotent. reflexivity.
Qed.

Lemma last_key_in ns r key :
  last_key ns r = Some key -> In (key, CRef r) ns.
Proof.
  induction ns as [| [k attr] ns IH]; [discriminate |]. cbn [last_key].
  destruct (last_key ns r) as [k' |].
  - intros H. injection H as ->. right. apply IH. reflexivity.
  - destruct attr as [r' | q | v | names]; try discriminate.
    destruct (Nat.eqb_spec r' r) as [-> | Hne]; [| discriminate].
    intros H. injection H as ->. left. reflexivity.
Qed.

Lemma last_key_bound ns r key :
  In (key, CRef r) ns -> is_Some (last_key ns r).
Proof.
  induction ns as [| [k attr] ns IH]; [intros [] |]. cbn [last_key].
  intros [H | H].
  - injection H as -> ->. destruct (last_key ns r); [eauto |].
    rewrite Nat.eqb_refl. eauto.
  - destruct (IH H) as [k' ->]. eauto.
Qed.

Lemma distinct_keys_one_value (ns : namespace) key a b :
  NoDup (map fst ns) -> In (key, a) ns -> In (key, b) ns -> a = b.
Proof.
  induction ns as [| [k c] ns IH]; [intros _ [] |]. cbn [map fst].
  intros Hnd. apply NoDup_cons in Hnd. destruct Hnd as [Hk Hnd].
  assert (Hin : forall x, In (k, x) ns -> False).
  { intros x Hx. apply Hk. apply list_elem_of_In.
    apply (in_map fst) in Hx. exact Hx. }
  intros [Ha | Ha] [Hb | Hb].
  - congruence.
  - injection Ha as -> _. destruct (Hin _ Hb).
  - injection Hb as -> _. destruct (Hin _ Ha).
  - apply IH; assumption.
Qed.

Lemma entity_run cls s :
  descriptor_bulkfood2.entity cls s
  = (Ok cls, with_heap s (renamed_all (heap s) (cls_dict cls))).
Proof.
  unfold descriptor_bulkfood2.entity, bind. rewrite rename_loop. reflexivity.
Qed.

(** X9.  The class decorator [entity] and the [__init__] of the two
    metaclasses have the same effect, and never fail, whatever the class
    body binds: they leave the counters alone and every object in place,
    and change nothing but the [storage_name] of the Validated descriptors
    that the class body binds, which becomes '_<type name>#<key>' for the
    last key bound to the descriptor.  Properties, descriptors of other
    classes (a plain AutoStorage among them) and objects that the body does
    not bind are as before. *)
Theorem customizing_storage_names (name : string) (ns : namespace)
    (s : cstate) :
  let cls := {| cls_name := name; cls_dict := ns |} in
  exists s',
    descriptor_bulkfood2.entity cls s = (Ok cls, s') /\
    metaclass_bulkfood.EntityMeta.__init__ cls ns s = (Ok cls, s') /\
    (exists cls',
        metaclass_bulkfood.EntityMeta2.__init__ cls ns s = (Ok cls', s')) /\
    class_attrs s' = class_attrs s /\
    quantity_auto_counter s' = quantity_auto_counter s /\
    length (heap s') = length (heap s) /\
    forall r, heap s' !! r = customized ns r <$> (heap s !! r).
Proof.
  intros cls. exists (with_heap s (renamed_all (heap s) ns)).
  split; [apply entity_run |].
  split; [exact (entity_run cls s) |]. split.
  - destruct (field_names_init name ns s) as (cls' & H & _). eauto.
  - split; [reflexivity |]. split; [reflexivity |].
    split; [apply renamed_all_length | apply renamed_all_at].
Qed.

(** X10.  Decorating a class twice is the same as decorating it once: a
    second run of [entity] over the class returns the class and leaves the
    interpreter as the first run left it. *)
Theorem entity_twice (cls : pyclass) (s : cstate) :
  (let* cls1 := descriptor_bulkfood2.entity cls in
   descriptor_bulkfood2.entity cls1) s
  = descriptor_bulkfood2.entity cls s.
Proof.
  unfold bind. rewrite !entity_run. cbn [heap with_heap].
  rewrite renamed_all_idempotent. reflexivity.
Qed.

Lemma format_hash_chars tn key :
  In "#"%char (list_ascii_of_string (format_hash tn key)).
Proof.
  unfold format_hash. cbv [String.append]. simpl. right.
  induction tn as [| a tn IH]; simpl; auto.
Qed.

Lemma format_colon_chars tn key :
  In ":"%char (list_ascii_of_string (format_colon tn key)).
Proof.
  unfold format_colon. cbv [String.append]. simpl. right.
  induction tn as [| a tn IH]; simpl; auto.
Qed.

Lemma not_identifier_chars name c :
  In c (list_ascii_of_string name) -> identifier_char c = false ->
  identifier_chars name = false.
Proof.
  unfold identifier_chars.
  induction (list_ascii_of_string name) as [| a l IH]; [intros [] |].
  intros [-> | H] Hc; cbn [forallb].
  - rewrite Hc. reflexivity.
  - rewrite (IH H Hc). apply andb_false_r.
Qed.

Lemma auto_name_chars k i : identifier_chars (auto_name k i) = false.
Proof.
  destruct k; cbn [auto_name];
    first [ apply (not_identifier_chars _ "#"%char);
            [apply format_hash_chars | reflexivity]
          | apply (not_identifier_chars _ ":"%char);
            [apply format_colon_chars | reflexivity] ].
Qed.

Lemma received_name_form k s name s' :
  received_name k s = (Ok name, s') -> exists i, name = auto_name k i.
Proof.
  intros H. destruct (next_index s k) as [i |] eqn:E.
  - destruct (received_name_step s k i E) as (s1 & E1 & _).
    rewrite E1 in H. injection H as <- _. eauto.
  - exfalso. destruct k; cbn in E; try discriminate E;
      unfold received_name, construct, new, bind in H;
      cbn [tp_abstract descriptor_bulkfood2.AutoStorage.type_object
           descriptor_bulkfood2.Quantity.type_object
           descriptor_bulkfood2.NonBlank.type_object
           descriptor_bulkfood.QuantityAuto.type_object] in H;
      unfold descriptor_bulkfood2.AutoStorage.__init__,
        descriptor_bulkfood.QuantityAuto.__init__, bind, class_getattr in H;
      cbn [tp_mro descriptor_bulkfood2.AutoStorage.type_object
           descriptor_bulkfood2.Quantity.type_object
           descriptor_bulkfood2.NonBlank.type_object
           descriptor_bulkfood.QuantityAuto.type_object] in H;
      cbn [mro_lookup] in *; rewrite E in H; discriminate H.
Qed.

(** X11.  A storage name that the code makes up is no Python identifier:
    the name that AutoStorage(), Quantity(), NonBlank(), QuantityAuto() or
    quantity_auto() derives from a counter, in whatever state of the
    interpreter the call succeeds, and the name that [entity] gives to a
    Validated descriptor of a class body, hold a '#' or a ':'.  Attribute
    syntax on an instance cannot spell them. *)
Theorem generated_names_are_no_identifiers :
  (forall k s name s',
      received_name k s = (Ok name, s') -> identifier_chars name = false) /\
  (forall name ns s key r tp sn,
      In (key, CRef r) ns ->
      heap s !! r = Some (Descriptor tp sn) ->
      is_validated tp = true ->
      exists sn',
        storage_name_at
          (heap (snd (descriptor_bulkfood2.entity
                        {| cls_name := name; cls_dict := ns |} s))) r
        = Some sn' /\
        identifier_chars sn' = false).
Proof.
  split.
  - intros k s name s' H. apply received_name_form in H.
    destruct H as [i ->]. apply auto_name_chars.
  - intros name ns s key r tp sn Hin Hr Hv.
    destruct (last_key_bound ns r key Hin) as [k Hk].
    exists (format_hash (tp_name tp) k). split.
    + rewrite entity_run. cbn [snd heap with_heap cls_dict].
      unfold storage_name_at. rewrite renamed_all_at, Hr. cbn.
      rewrite Hv, Hk. reflexivity.
    + apply (not_identifier_chars _ "#"%char);
        [apply format_hash_chars | reflexivity].
Qed.

Lemma generated_names_are_no_identifiers_witness :
  identifier_chars "_quantity_auto:0" = false.
Proof.
  apply (proj1 generated_names_are_no_identifiers make_quantity_auto
           classes_defined "_quantity_auto:0"
           (snd (received_name make_quantity_auto classes_defined))).
  vm_compute. reflexivity.
Defined.

Lemma format_hash_key_inj tn k1 k2 :
  format_hash tn k1 = format_hash tn k2 -> k1 = k2.
Proof.
  unfold format_hash. intros H. cbv [String.append] in H.
  injection H as H. induction tn as [| a tn IH]; cbn in H.
  - injection H as H. exact H.
  - injection H as H. apply IH, H.
Qed.

(** X12.  After [entity] (or a metaclass [__init__]) has run over a class
    body, which like every dict has no key twice, two different Quantity
    or NonBlank descriptors bound in it have different storage names: two
    managed attributes of the class never share a storage attribute. *)
Theorem customized_names_are_distinct (name : string) (ns : namespace)
    (s : cstate) (k1 k2 : string) (r1 r2 : ref) (tp1 tp2 : dtype)
    (sn1 sn2 : string) :
  NoDup (map fst ns) ->
  In (k1, CRef r1) ns -> In (k2, CRef r2) ns -> r1 <> r2 ->
  heap s !! r1 = Some (Descriptor tp1 sn1) ->
  heap s !! r2 = Some (Descriptor tp2 sn2) ->
  In tp1 [descriptor_bulkfood2.Quantity.type_object;
          descriptor_bulkfood2.NonBlank.type_object] ->
  In tp2 [descriptor_bulkfood2.Quantity.type_object;
          descriptor_bulkfood2.NonBlank.type_object] ->
  let s' := snd (descriptor_bulkfood2.entity
                   {| cls_name := name; cls_dict := ns |} s) in
  exists n1 n2,
    storage_name_at (heap s') r1 = Some n1 /\
    storage_name_at (heap s') r2 = Some n2 /\
    n1 <> n2.
Proof.
  intros Hnd H1 H2 Hne Hr1 Hr2 Ht1 Ht2 s'.
  destruct (last_key_bound ns r1 k1 H1) as [l1 Hl1].
  destruct (last_key_bound ns r2 k2 H2) as [l2 Hl2].
  assert (Hl : l1 <> l2).
  { intros <-. apply last_key_in in Hl1, Hl2.
    pose proof (distinct_keys_one_value ns l1 _ _ Hnd Hl1 Hl2) as E.
    congruence. }
  assert (Hv1 : is_validated tp1 = true)
    by (simpl in Ht1; destruct Ht1 as [<- | [<- | []]]; reflexivity).
  assert (Hv2 : is_validated tp2 = true)
    by (simpl in Ht2; destruct Ht2 as [<- | [<- | []]]; reflexivity).
  exists (format_hash (tp_name tp1) l1), (format_hash (tp_name tp2) l2).
  subst s'. rewrite entity_run. cbn [snd heap with_heap cls_dict].
  unfold storage_name_at.
  rewrite !renamed_all_at, Hr1, Hr2. cbn. rewrite Hv1, Hv2, Hl1, Hl2.
  split; [reflexivity |]. split; [reflexivity |].
  simpl in Ht1, Ht2.
  destruct Ht1 as [<- | [<- | []]]; destruct Ht2 as [<- | [<- | []]];
    cbn [tp_name descriptor_bulkfood2.Quantity.type_object
         descriptor_bulkfood2.NonBlank.type_object];
    intros E;
    first [ apply format_hash_key_inj in E; contradiction
          | unfold format_hash in E; cbv [String.append] in E;
            discriminate E ].
Qed.

Lemma customized_names_are_distinct_witness :
  let s := {| heap := [Descriptor descriptor_bulkfood2.Quantity.type_object
                         "_Quantity#0";
                       Descriptor descriptor_bulkfood2.Quantity.type_object
                         "_Quantity#1"];
              class_attrs := ∅; quantity_auto_counter := None |} in
  let s' := snd (descriptor_bulkfood2.entity
                   {| cls_name := "LineItem";
                      cls_dict := [("weight", CRef 0%nat);
                                   ("price", CRef 1%nat)] |} s) in
  exists n1 n2,
    storage_name_at (heap s') 0%nat = Some n1 /\
    storage_name_at (heap s') 1%nat = Some n2 /\
    n1 <> n2.
Proof.
  intros s.
  apply (customized_names_are_distinct "LineItem"
           [("weight", CRef 0%nat); ("price", CRef 1%nat)] s
           "weight" "price" 0%nat 1%nat
           descriptor_bulkfood2.Quantity.type_object
           descriptor_bulkfood2.Quantity.type_object
           "_Quantity#0" "_Quantity#1").
  - cbn [map fst]. apply NoDup_cons. split; [| apply NoDup_singleton].
    rewrite list_elem_of_In. simpl. intros [H | []]. discriminate H.
  - simpl; tauto.
  - simpl; tauto.
  - discriminate.
  - reflexivity.
  - reflexivity.
  - simpl; tauto.
  - simpl; tauto.
Defined.

(** ** The counters, call after call *)

Ltac descriptor_call tp attr init :=
  match goal with
  | H : next_index ?s ?k = Some ?i, E1 : received_name ?k ?s = _ |- _ =>
      let E' := fresh "E" in
      pose proof (new_auto_descriptor tp attr init i s eq_refl H
                    (fun _ => eq_refl) _ _ eq_refl) as E';
      cbv zeta in E';
      match type of E' with
      | _ = ?rhs =>
          let E2 := fresh "E" in
          assert (E2 : received_name k s = rhs) by exact E';
          rewrite E2 in E1; injection E1 as <-; reflexivity
      end
  end.

Lemma call_writes_own_counter s k i :
  next_index s k = Some i ->
  exists s',
    received_name k s = (Ok (auto_name k i), s') /\
    next_index s' k = Some (S i) /\
    class_attrs s' = match counter_of k with
                     | Some key => <[key := S i]> (class_attrs s)
                     | None => class_attrs s
                     end.
Proof.
  intros H.
  destruct (received_name_step s k i H) as (s1 & E1 & Hnext & _).
  exists s1. split; [exact E1 |]. split; [exact Hnext |].
  destruct k.
  - descriptor_call descriptor_bulkfood2.AutoStorage.type_object
      "_AutoStorage__counter" descriptor_bulkfood2.AutoStorage.__init__.
  - descriptor_call descriptor_bulkfood2.Quantity.type_object
      "_AutoStorage__counter" descriptor_bulkfood2.AutoStorage.__init__.
  - descriptor_call descriptor_bulkfood2.NonBlank.type_object
      "_AutoStorage__counter" descriptor_bulkfood2.AutoStorage.__init__.
  - descriptor_call descriptor_bulkfood.QuantityAuto.type_object
      "_QuantityAuto__counter" descriptor_bulkfood.QuantityAuto.__init__.
  - unfold received_name, construct, property_factory.quantity_auto,
      property_factory.quantity_auto.bump_counter, bind, alloc, get_state,
      storage_attribute_at in E1.
    cbn [heap class_attrs quantity_auto_counter] in E1.
    rewrite alloc_lookup in E1. cbn [storage_attribute] in E1.
    destruct (property_factory.quantity_auto.qty_getter _ spy ∅)
      as [[[] |] ?]; try discriminate E1;
      injection E1 as _ <-; reflexivity.
Qed.

Lemma calls_in_a_row k n :
  forall s j,
    next_index s k = Some j ->
    exists s',
      received_names (repeat k n) s
      = (Ok (map (auto_name k) (seq j n)), s') /\
      next_index s' k = Some (j + n)%nat /\
      (forall key, counter_of k <> Some key ->
                   class_attrs s' !! key = class_attrs s !! key).
Proof.
  induction n as [| n IH]; intros s j Hj.
  - exists s. rewrite Nat.add_0_r. auto.
  - destruct (call_writes_own_counter s k j Hj) as (s1 & E1 & Hnext & Hattrs).
    destruct (IH s1 (S j) Hnext) as (s' & E & Hnext' & Hframe).
    exists s'. split; [| split].
    + cbn [repeat received_names seq map]. unfold bind.
      rewrite E1, E. reflexivity.
    + rewrite Hnext'. f_equal. lia.
    + intros key Hkey. rewrite (Hframe key Hkey), Hattrs.
      destruct (counter_of k) as [key' |]; [| reflexivity].
      apply lookup_insert_ne. congruence.
Qed.

Lemma received_names_app ks1 :
  forall ks2 s names1 s1,
    received_names ks1 s = (Ok names1, s1) ->
    received_names (ks1 ++ ks2)%list s
    = match received_names ks2 s1 with
      | (Ok names2, s2) => (Ok (names1 ++ names2)%list, s2)
      | (Raise e, s2) => (Raise e, s2)
      end.
Proof.
  induction ks1 as [| k ks1 IH]; intros ks2 s names1 s1 H.
  - injection H as <- <-. cbn [app].
    destruct (received_names ks2 s) as [[names2 | e] s2]; reflexivity.
  - cbn [received_names app] in *. unfold bind in *.
    destruct (received_name k s) as [[name | e] s'']; [| discriminate H].
    destruct (received_names ks1 s'') as [[names | e] s3] eqn:E;
      [| discriminate H].
    injection H as <- <-. rewrite (IH ks2 s'' names s3 E).
    destruct (received_names ks2 s3) as [[names2 | e] s2]; reflexivity.
Qed.

(** X13.  A counter hands out consecutive indices: [n] calls in a row of
    one constructor receive the names with the indices [j], [j + 1], ...,
    [j + n - 1], where [j] is the value that the counter of the constructor
    holds before the first call; right after the class definitions [j] is
    0, for each of the five constructors. *)
Theorem counters_give_consecutive_indices :
  (forall k n s j,
      next_index s k = Some j ->
      fst (received_names (repeat k n) s)
      = Ok (map (auto_name k) (seq j n))) /\
  (forall k n,
      fst (received_names (repeat k n) classes_defined)
      = Ok (map (auto_name k) (seq 0 n))).
Proof.
  assert (H : forall k n s j,
             next_index s k = Some j ->
             fst (received_names (repeat k n) s)
             = Ok (map (auto_name k) (seq j n))).
  { intros k n s j Hj. destruct (calls_in_a_row k n s j Hj) as (s' & E & _).
    rewrite E. reflexivity. }
  split; [exact H |]. intros k n. apply H.
  destruct k; vm_compute; reflexivity.
Qed.

Lemma counters_give_consecutive_indices_witness :
  fst (received_names (repeat make_QuantityAuto 3) classes_defined)
  = Ok (map (auto_name make_QuantityAuto) (seq 0 3)).
Proof.
  apply (proj1 counters_give_consecutive_indices make_QuantityAuto 3%nat
           classes_defined 0%nat).
  vm_compute. reflexivity.
Defined.

(** X14.  [cls.__counter += 1] reads the counter through the MRO and
    writes it in the class of the new object, so that a subclass of
    AutoStorage counts on from the value that the counter of AutoStorage
    holds at its first call, and on its own from then on: after [m] calls
    of AutoStorage(), [n] calls of Quantity() receive the indices [m], ...,
    [m + n - 1]; they leave the counter of AutoStorage alone, whose next
    call receives [m], and the first NonBlank() after that receives
    [m + 1]. *)
Theorem subclass_counters_start_at_the_base_value (m n : nat) :
  fst (received_names
         (repeat make_AutoStorage m ++ repeat make_Quantity n
          ++ [make_AutoStorage; make_NonBlank])%list
         classes_defined)
  = Ok (map (auto_name make_AutoStorage) (seq 0 m)
        ++ map (auto_name make_Quantity) (seq m n)
        ++ [auto_name make_AutoStorage m; auto_name make_NonBlank (S m)])%list.
Proof.
  assert (F0 : forall cl,
             In cl ["descriptor_bulkfood2.Quantity";
                    "descriptor_bulkfood2.NonBlank";
                    "descriptor_bulkfood2.Validated"; "abc.ABC"; "object"] ->
             class_attrs classes_defined !! (cl, "_AutoStorage__counter") = None).
  { intros cl Hcl. simpl in Hcl.
    repeat (destruct Hcl as [<- | Hcl]; [vm_compute; reflexivity |]).
    destruct Hcl. }
  assert (N0 : next_index classes_defined make_AutoStorage = Some 0%nat)
    by (vm_compute; reflexivity).
  (* the calls of AutoStorage() *)
  destruct (calls_in_a_row make_AutoStorage m classes_defined 0%nat N0)
    as (s1 & E1 & N1 & Fr1).
  assert (F1 : forall cl,
             In cl ["descriptor_bulkfood2.Quantity";
                    "descriptor_bulkfood2.NonBlank";
                    "descriptor_bulkfood2.Validated"; "abc.ABC"; "object"] ->
             class_attrs s1 !! (cl, "_AutoStorage__counter") = None).
  { intros cl Hcl. rewrite Fr1; [apply F0, Hcl |].
    simpl in Hcl. cbn [counter_of]. intros E. injection E as <-.
    repeat (destruct Hcl as [Hcl | Hcl]; [discriminate Hcl |]).
    destruct Hcl. }
  assert (A1 : class_attrs s1 !! ("descriptor_bulkfood2.AutoStorage",
                       "_AutoStorage__counter") = Some m).
  { cbn [next_index mro_lookup tp_mro
         descriptor_bulkfood2.AutoStorage.type_object] in N1.
    rewrite (F1 "object") in N1 by (simpl; tauto).
    destruct (class_attrs s1 !! ("descriptor_bulkfood2.AutoStorage",
                       "_AutoStorage__counter")); [exact N1 | discriminate N1]. }
  (* the calls of Quantity() *)
  assert (N1q : next_index s1 make_Quantity = Some m).
  { cbn [next_index mro_lookup tp_mro
         descriptor_bulkfood2.Quantity.type_object].
    rewrite !F1 by (simpl; tauto). rewrite A1. reflexivity. }
  destruct (calls_in_a_row make_Quantity n s1 m N1q) as (s2 & E2 & _ & Fr2).
  assert (F2 : forall cl,
             In cl ["descriptor_bulkfood2.NonBlank";
                    "descriptor_bulkfood2.Validated"; "abc.ABC"; "object"] ->
             class_attrs s2 !! (cl, "_AutoStorage__counter") = None).
  { intros cl Hcl. rewrite Fr2; [apply F1; simpl in *; tauto |].
    simpl in Hcl. cbn [counter_of]. intros E. injection E as <-.
    repeat (destruct Hcl as [Hcl | Hcl]; [discriminate Hcl |]).
    destruct Hcl. }
  assert (A2 : class_attrs s2 !! ("descriptor_bulkfood2.AutoStorage",
                       "_AutoStorage__counter") = Some m).
  { rewrite Fr2; [exact A1 |]. cbn [counter_of]. discriminate. }
  (* AutoStorage() once more, then NonBlank() *)
  assert (N2 : next_index s2 make_AutoStorage = Some m).
  { cbn [next_index mro_lookup tp_mro
         descriptor_bulkfood2.AutoStorage.type_object].
    rewrite A2. reflexivity. }
  destruct (call_writes_own_counter s2 make_AutoStorage m N2)
    as (s3 & E3 & _ & At3).
  cbn [counter_of] in At3.
  assert (N3 : next_index s3 make_NonBlank = Some (S m)).
  { cbn [next_index mro_lookup tp_mro
         descriptor_bulkfood2.NonBlank.type_object].
    rewrite At3.
    rewrite !lookup_insert_ne by congruence.
    rewrite !F2 by (simpl; tauto).
    rewrite lookup_insert_eq. reflexivity. }
  destruct (call_writes_own_counter s3 make_NonBlank (S m) N3)
    as (s4 & E4 & _ & _).
  rewrite (received_names_app _ _ _ _ _ E1).
  rewrite (received_names_app _ _ _ _ _ E2).
  cbn [received_names]. unfold bind. rewrite E3, E4. reflexivity.
Qed.

(** ** What a description and a new instance hold *)







(** ** Classes that cannot be told apart *)

(** The check of a store depends on the value only; the storage name and
    the store decide where the value goes. *)
Lemma store_pure g v :
  exists o : result value,
    forall sn d,
      store g sn v d = match o with
                       | Ok v' => (Ok tt, <[sn := v']> d)
                       | Raise e => (Raise e, d)
                       end.
Proof.
  destruct g; unfold store, bind, lift, raise, ret, dict_setitem.
  - exists (Ok v). reflexivity.
  - destruct (py_gt0 v) as [[|] | e].
    + exists (Ok v). reflexivity.
    + exists (Raise (ValueError "value must be > 0")). reflexivity.
    + exists (Raise e). reflexivity.
  - destruct (py_le0 v) as [[|] | e].
    + exists (Raise (ValueError "value must be > 0")). reflexivity.
    + exists (Ok v). reflexivity.
    + exists (Raise e). reflexivity.
  - destruct v;
      try (exists (Raise (AttributeError "strip")); reflexivity).
    destruct (String.length (str_strip s) =? 0)%nat.
    + exists (Raise (ValueError "value cannot be empty or blank")).
      reflexivity.
    + exists (Ok (VStr (str_strip s))). reflexivity.
Qed.

Lemma alike_insert i j a v di dj :
  In a ["description"; "weight"; "price"] ->
  alike i j di dj ->
  alike i j (<[storage_for i a := v]> di) (<[storage_for j a := v]> dj).
Proof.
  intros Ha H b Hb. destruct (String.eqb_spec a b) as [<- | Hne].
  - rewrite !lookup_insert_eq. reflexivity.
  - rewrite !lookup_insert_ne
      by (intros E; apply Hne; eapply storage_inj; eauto).
    apply H, Hb.
Qed.

Lemma held_insert_same (sn : string) (v : value) (d : gmap string value) :
  is_Some (<[sn := v]> d !! sn).
Proof. rewrite lookup_insert_eq. eauto. Qed.

Lemma held_insert_other (sn sn' : string) (v : value)
    (d : gmap string value) :
  is_Some (d !! sn') -> is_Some (<[sn := v]> d !! sn').
Proof.
  intros H. destruct (decide (sn = sn')) as [-> | Hne].
  - apply held_insert_same.
  - rewrite lookup_insert_ne by exact Hne. exact H.
Qed.

Lemma complete_insert i a v d :
  complete i d -> complete i (<[storage_for i a := v]> d).
Proof. intros H b Hb. apply held_insert_other, H, Hb. Qed.

Lemma complete_three i a b c va vb vc :
  (forall x, In x ["description"; "weight"; "price"] ->
             x = a \/ x = b \/ x = c) ->
  complete i (<[storage_for i c := vc]>
                (<[storage_for i b := vb]> (<[storage_for i a := va]> ∅))).
Proof.
  intros Hall x Hx. destruct (Hall x Hx) as [-> | [-> | ->]].
  - apply held_insert_other, held_insert_other, held_insert_same.
  - apply held_insert_other, held_insert_same.
  - apply held_insert_same.
Qed.

Lemma same_guards i j a :
  In (i, j) interchangeable ->
  In a ["description"; "weight"; "price"] ->
  guard_for i a = guard_for j a.
Proof.
  intros Hij Ha. simpl in Hij, Ha.
  destruct Ha as [<- | [<- | [<- | []]]];
    repeat (destruct Hij as [Hij | Hij];
            [injection Hij as <- <-; vm_compute; reflexivity |]);
    destruct Hij.
Qed.

Lemma same_order i j :
  In (i, j) interchangeable ->
  (forall self description weight price,
      init_for i self description weight price
      = (py_setattr self "description" description >>>
         py_setattr self "weight" weight >>> py_setattr self "price" price) /\
      init_for j self description weight price
      = (py_setattr self "description" description >>>
         py_setattr self "weight" weight >>> py_setattr self "price" price))
  \/
  (forall self description weight price,
      init_for i self description weight price
      = (py_setattr self "description" description >>>
         py_setattr self "price" price >>> py_setattr self "weight" weight) /\
      init_for j self description weight price
      = (py_setattr self "description" description >>>
         py_setattr self "price" price >>> py_setattr self "weight" weight)).
Proof.
  intros Hij. simpl in Hij.
  repeat (destruct Hij as [Hij | Hij];
          [injection Hij as <- <-;
           first [ left; intros; split; reflexivity
                 | right; intros; split; reflexivity ] |]).
  destruct Hij.
Qed.

(** Three stores in a row, from alike stores, in two classes with the same
    checks. *)
Lemma three_stores i j a b c va vb vc :
  In a ["description"; "weight"; "price"] ->
  In b ["description"; "weight"; "price"] ->
  In c ["description"; "weight"; "price"] ->
  (forall x, In x ["description"; "weight"; "price"] ->
             x = a \/ x = b \/ x = c) ->
  guard_for i a = guard_for j a ->
  guard_for i b = guard_for j b ->
  guard_for i c = guard_for j c ->
  let run k :=
    (store (guard_for k a) (storage_for k a) va >>>
     store (guard_for k b) (storage_for k b) vb >>>
     store (guard_for k c) (storage_for k c) vc) ∅ in
  fst (run i) = fst (run j) /\
  (fst (run i) = Ok tt ->
   alike i j (snd (run i)) (snd (run j)) /\
   complete i (snd (run i)) /\ complete j (snd (run j))).
Proof.
  intros Ha Hb Hc Hall Ga Gb Gc run. subst run. cbv beta.
  rewrite <- Ga, <- Gb, <- Gc. unfold bind.
  destruct (store_pure (guard_for i a) va) as [[xa | ea] Sa];
    rewrite !Sa; [| split; [reflexivity | discriminate]].
  destruct (store_pure (guard_for i b) vb) as [[xb | eb] Sb];
    rewrite !Sb; [| split; [reflexivity | discriminate]].
  destruct (store_pure (guard_for i c) vc) as [[xc | ec] Sc];
    rewrite !Sc; [| split; [reflexivity | discriminate]].
  cbn [fst snd]. split; [reflexivity |]. intros _. split; [| split].
  - repeat apply alike_insert; try assumption. intros x _.
    rewrite !lookup_empty. reflexivity.
  - apply complete_three, Hall.
  - apply complete_three, Hall.
Qed.

Lemma constructions_alike i j description weight price :
  In (i, j) interchangeable ->
  match construct_item i description weight price,
        construct_item j description weight price with
  | Ok di, Ok dj => alike i j di dj /\ complete i di /\ complete j dj
  | Raise ei, Raise ej => ei = ej
  | _, _ => False
  end.
Proof.
  intros Hij.
  assert (Hd : In "description" ["description"; "weight"; "price"])
    by (simpl; tauto).
  assert (Hw : In "weight" ["description"; "weight"; "price"])
    by (simpl; tauto).
  assert (Hp : In "price" ["description"; "weight"; "price"])
    by (simpl; tauto).
  pose proof (same_guards i j "description" Hij Hd) as Gd.
  pose proof (same_guards i j "weight" Hij Hw) as Gw.
  pose proof (same_guards i j "price" Hij Hp) as Gp.
  unfold construct_item, instantiate.
  destruct (same_order i j Hij) as [Ho | Ho].
  - assert (Ei : init_for i (instance_for i) description weight price ∅
                 = (store (guard_for i "description")
                      (storage_for i "description") description >>>
                    store (guard_for i "weight") (storage_for i "weight")
                      weight >>>
                    store (guard_for i "price") (storage_for i "price")
                      price) ∅).
    { rewrite (proj1 (Ho _ _ _ _)).
      (apply bind_ext; [| intros _ ?; apply bind_ext; [| intros _ ?]]);
        intros; apply setattr_summary; simpl; tauto. }
    assert (Ej : init_for j (instance_for j) description weight price ∅
                 = (store (guard_for j "description")
                      (storage_for j "description") description >>>
                    store (guard_for j "weight") (storage_for j "weight")
                      weight >>>
                    store (guard_for j "price") (storage_for j "price")
                      price) ∅).
    { rewrite (proj2 (Ho _ _ _ _)).
      (apply bind_ext; [| intros _ ?; apply bind_ext; [| intros _ ?]]);
        intros; apply setattr_summary; simpl; tauto. }
    rewrite Ei, Ej.
    destruct (three_stores i j "description" "weight" "price"
                description weight price Hd Hw Hp
                ltac:(simpl; intuition congruence) Gd Gw Gp) as [Hr Hs].
    cbv zeta beta in Hr, Hs.
    destruct (bind _ _ (∅ : gmap string value)) as [[[] | ei] di];
      destruct (bind _ _ (∅ : gmap string value)) as [[[] | ej] dj];
      cbn [fst snd] in Hr, Hs; try discriminate Hr.
    + apply Hs. reflexivity.
    + congruence.
  - assert (Ei : init_for i (instance_for i) description weight price ∅
                 = (store (guard_for i "description")
                      (storage_for i "description") description >>>
                    store (guard_for i "price") (storage_for i "price")
                      price >>>
                    store (guard_for i "weight") (storage_for i "weight")
                      weight) ∅).
    { rewrite (proj1 (Ho _ _ _ _)).
      (apply bind_ext; [| intros _ ?; apply bind_ext; [| intros _ ?]]);
        intros; apply setattr_summary; simpl; tauto. }
    assert (Ej : init_for j (instance_for j) description weight price ∅
                 = (store (guard_for j "description")
                      (storage_for j "description") description >>>
                    store (guard_for j "price") (storage_for j "price")
                      price >>>
                    store (guard_for j "weight") (storage_for j "weight")
                      weight) ∅).
    { rewrite (proj2 (Ho _ _ _ _)).
      (apply bind_ext; [| intros _ ?; apply bind_ext; [| intros _ ?]]);
        intros; apply setattr_summary; simpl; tauto. }
    rewrite Ei, Ej.
    destruct (three_stores i j "description" "price" "weight"
                description price weight Hd Hp Hw
                ltac:(simpl; intuition congruence) Gd Gp Gw) as [Hr Hs].
    cbv zeta beta in Hr, Hs.
    destruct (bind _ _ (∅ : gmap string value)) as [[[] | ei] di];
      destruct (bind _ _ (∅ : gmap string value)) as [[[] | ej] dj];
      cbn [fst snd] in Hr, Hs; try discriminate Hr.
    + apply Hs. reflexivity.
    + congruence.
Qed.

Lemma serve_alike i j q di dj :
  In (i, j) interchangeable -> public q ->
  alike i j di dj -> complete i di -> complete j dj ->
  fst (serve i q di) = fst (serve j q dj) /\
  alike i j (snd (serve i q di)) (snd (serve j q dj)) /\
  complete i (snd (serve i q di)) /\ complete j (snd (serve j q dj)).
Proof.
  intros Hij Hq Hal Hi Hj. destruct q as [a v | a |]; cbn [serve public] in *.
  - unfold bind. rewrite !setattr_summary by exact Hq.
    rewrite <- (same_guards i j a Hij Hq).
    destruct (store_pure (guard_for i a) v) as [[x | e] Sx]; rewrite !Sx;
      cbn [fst snd ret].
    + split; [reflexivity |].
      split; [apply alike_insert; assumption |].
      split; apply complete_insert; assumption.
    + auto.
  - rewrite !getattr_summary by exact Hq.
    destruct (Hi a Hq) as [x Hx]. pose proof Hx as Hx'.
    rewrite (Hal a Hq) in Hx'.
    rewrite (load_present _ _ _ _ Hx), (load_present _ _ _ _ Hx').
    auto.
  - assert (Hw : In "weight" ["description"; "weight"; "price"])
      by (simpl; tauto).
    assert (Hp : In "price" ["description"; "weight"; "price"])
      by (simpl; tauto).
    destruct (Hi "weight" Hw) as [w Ew]. destruct (Hi "price" Hp) as [p Ep].
    pose proof Ew as Ew'. rewrite (Hal "weight" Hw) in Ew'.
    pose proof Ep as Ep'. rewrite (Hal "price" Hp) in Ep'.
    destruct (subtotal_of_storage i di w p Ew Ep) as (_ & _ & ->).
    destruct (subtotal_of_storage j dj w p Ew' Ep') as (_ & _ & ->).
    auto.
Qed.

Lemma responses_alike i j qs :
  In (i, j) interchangeable -> Forall public qs ->
  forall di dj,
    alike i j di dj -> complete i di -> complete j dj ->
    responses i qs di = responses j qs dj.
Proof.
  intros Hij Hqs. induction Hqs as [| q qs Hq _ IH]; intros di dj Hal Hi Hj.
  - reflexivity.
  - cbn [responses].
    destruct (serve_alike i j q di dj Hij Hq Hal Hi Hj)
      as (-> & Hal' & Hi' & Hj').
    f_equal. apply IH; assumption.
Qed.

(** X17.  The source writes one class in several ways, and the ways cannot
    be told apart through the three attributes and [subtotal]: the weight
    property with and without decorators, the set-only descriptor and the
    [quantity] property factory, the factory with and without automatic
    storage names, and the class decorator and the metaclass give, for the
    same constructor arguments and the same requests, the same outcome of
    the construction (the same exception when it raises) and the same
    outcome of every request. *)
Theorem interchangeable_classes (i j : line_item)
    (description weight price : value) (qs : list request) :
  In (i, j) interchangeable -> Forall public qs ->
  session i description weight price qs
  = session j description weight price qs.
Proof.
  intros Hij Hqs. unfold session.
  pose proof (constructions_alike i j description weight price Hij) as H.
  destruct (construct_item i description weight price) as [di | ei];
    destruct (construct_item j description weight price) as [dj | ej];
    try contradiction.
  - destruct H as (Hal & Hi & Hj).
    rewrite (responses_alike i j qs Hij Hqs di dj Hal Hi Hj). reflexivity.
  - subst ej. reflexivity.
Qed.

Lemma interchangeable_classes_witness :
  session property_LineItem (VStr "Golden raisins") (VInt 10)
    (VFloat float_6_95)
    [Assign "weight" (VInt (-20)); Read "weight"; Subtotal]
  = session property_LineItemClassic (VStr "Golden raisins") (VInt 10)
      (VFloat float_6_95)
      [Assign "weight" (VInt (-20)); Read "weight"; Subtotal].
Proof.
  apply interchangeable_classes.
  - simpl. tauto.
  - repeat constructor; simpl; tauto.
Defined.

(** The order of the assignments in [__init__] shows: LineItem and
    LineItemAuto of descriptor_bulkfood.py report different errors when
    weight and price are both refused. *)
Example constructors_differ_in_order :
  session descriptor_LineItem (VStr "walnuts") (VStr "heavy") (VInt 0) []
  = (Raise TypeError, []) /\
  session descriptor_LineItemAuto (VStr "walnuts") (VStr "heavy") (VInt 0) []
  = (Raise (ValueError "value must be > 0"), []).
Proof. split; vm_compute; reflexivity. Qed.

(** ** The black knight *)

(** The doctest of BlackKnight. *)
Example doctest_BlackKnight :
  let knight := {| BlackKnight.self := BlackKnight.__init__;
                   BlackKnight.stdout := [] |} in
  let (r1, w1) := BlackKnight.member knight in
  let (r2, w2) := BlackKnight.del_member w1 in
  let (r3, w3) := BlackKnight.del_member w2 in
  r1 = BlackKnight.Returns "an arm" /\
  r2 = BlackKnight.Returns tt /\ r3 = BlackKnight.Returns tt /\
  BlackKnight.stdout w3
  = ["next member is:";
     "BLACK KNIGHT (loses an arm)" ++ String "010"%char
       "-- 'Tis but a scratch.";
     "BLACK KNIGHT (loses another arm)" ++ String "010"%char
       "-- It's just a flesh wound."].
Proof. vm_compute. repeat split; reflexivity. Qed.

Lemma after_snoc acts a :
  BlackKnight.after (acts ++ [a])%list
  = BlackKnight.act (BlackKnight.after acts) a.
Proof. unfold BlackKnight.after. rewrite fold_left_app. reflexivity. Qed.

Lemma deletions_snoc acts a :
  BlackKnight.deletions (acts ++ [a])%list
  = (BlackKnight.deletions acts
     + (if BlackKnight.is_deletion a then 1 else 0))%nat.
Proof.
  unfold BlackKnight.deletions. rewrite List.filter_app, length_app.
  cbn [List.filter]. destruct (BlackKnight.is_deletion a); reflexivity.
Qed.

Lemma reads_snoc acts a :
  BlackKnight.reads (acts ++ [a])%list
  = (BlackKnight.reads acts
     + (if BlackKnight.is_deletion a then 0 else 1))%nat.
Proof.
  unfold BlackKnight.reads. rewrite List.filter_app, length_app.
  cbn [List.filter]. destruct (BlackKnight.is_deletion a); reflexivity.
Qed.

Lemma losses_snoc out line :
  BlackKnight.losses (out ++ [line])%list
  = (BlackKnight.losses out
     ++ (if String.eqb line "next member is:" then [] else [line]))%list.
Proof.
  unfold BlackKnight.losses. rewrite List.filter_app. cbn [List.filter].
  destruct (String.eqb line "next member is:"); reflexivity.
Qed.

(** The knight after any actions: he has lost as many members, and said as
    many phrases, as deletions were asked for, up to two. *)
Lemma knight_after acts :
  let k := Nat.min 2 (BlackKnight.deletions acts) in
  BlackKnight.self (BlackKnight.after acts)
  = {| BlackKnight.members := drop k (BlackKnight.members BlackKnight.__init__);
       BlackKnight.phrases := drop k (BlackKnight.phrases BlackKnight.__init__)
    |} /\
  BlackKnight.losses (BlackKnight.stdout (BlackKnight.after acts))
  = take k (zip_with BlackKnight.text
              (BlackKnight.members BlackKnight.__init__)
              (BlackKnight.phrases BlackKnight.__init__)) /\
  length (BlackKnight.stdout (BlackKnight.after acts))
  = (BlackKnight.reads acts + k)%nat.
Proof.
  induction acts as [| a acts IH] using rev_ind.
  - repeat split; reflexivity.
  - cbv zeta in IH. destruct IH as (Hs & Hl & Hn).
    rewrite after_snoc, deletions_snoc, reads_snoc. cbv zeta.
    destruct a; cbn [BlackKnight.is_deletion BlackKnight.act].
    + rewrite Nat.add_0_r.
      unfold BlackKnight.member, BlackKnight.print.
      cbn [BlackKnight.self BlackKnight.stdout]. rewrite Hs.
      cbn [BlackKnight.members].
      destruct (drop _ (BlackKnight.members BlackKnight.__init__));
        cbn [snd BlackKnight.self BlackKnight.stdout];
        rewrite losses_snoc, length_app, Hl, Hn; cbn;
        rewrite app_nil_r; repeat split; lia.
    + unfold BlackKnight.del_member. rewrite Hs.
      cbn [BlackKnight.members BlackKnight.phrases BlackKnight.self].
      destruct (BlackKnight.deletions acts) as [| [| n]];
        cbn [Nat.min drop BlackKnight.members BlackKnight.phrases
             BlackKnight.__init__ snd BlackKnight.print BlackKnight.self
             BlackKnight.stdout Nat.add] in *.
      * rewrite losses_snoc, length_app, Hl, Hn. repeat split; cbn; lia.
      * rewrite losses_snoc, length_app, Hl, Hn. repeat split; cbn; lia.
      * rewrite Hs, Hl, Hn. replace (S (S n) + 1)%nat with (S (S (S n))) by lia.
        repeat split; lia.
Qed.

(** X18.  The knight loses his members in step with his phrases, and no
    more than he has: after any number of reads and deletions of [member]
    on a new knight, of which [n] are deletions, the first [min 2 n]
    members and phrases are gone; the deletions have printed the lines of
    the first [min 2 n] members, each with its phrase, in order; and every
    read has printed its line, also a read that raised. *)
Theorem knight_loses_members_in_step (acts : list BlackKnight.action) :
  let k := Nat.min 2 (BlackKnight.deletions acts) in
  let w := BlackKnight.after acts in
  BlackKnight.members (BlackKnight.self w) = drop k ["an arm"; "another arm"] /\
  BlackKnight.phrases (BlackKnight.self w)
  = drop k ["'Tis but a scratch."; "It's just a flesh wound."] /\
  BlackKnight.losses (BlackKnight.stdout w)
  = take k [BlackKnight.text "an arm" "'Tis but a scratch.";
            BlackKnight.text "another arm" "It's just a flesh wound."] /\
  length (BlackKnight.stdout w) = (BlackKnight.reads acts + k)%nat.
Proof.
  intros k w. destruct (knight_after acts) as (Hs & Hl & Hn).
  subst k w. rewrite Hs. cbn [BlackKnight.members BlackKnight.phrases].
  split; [reflexivity |]. split; [reflexivity |].
  split; [exact Hl | exact Hn].
Qed.

(** X19.  [del knight.member] succeeds as long as fewer than two deletions
    have been asked for, and a read then returns a member.  From the
    second deletion on the knight has nothing left: a deletion raises
    IndexError and changes nothing, and a read raises IndexError after it
    has printed its line. *)
Theorem knight_runs_out (acts : list BlackKnight.action) :
  let w := BlackKnight.after acts in
  ((BlackKnight.deletions acts < 2)%nat ->
   fst (BlackKnight.del_member w) = BlackKnight.Returns tt /\
   exists m, fst (BlackKnight.member w) = BlackKnight.Returns m) /\
  ((2 <= BlackKnight.deletions acts)%nat ->
   BlackKnight.del_member w
   = (BlackKnight.IndexError "pop from empty list", w) /\
   BlackKnight.member w
   = (BlackKnight.IndexError "list index out of range",
      BlackKnight.print "next member is:" w)).
Proof.
  intros w. destruct (knight_after acts) as (Hs & _ & _). subst w.
  unfold BlackKnight.del_member, BlackKnight.member, BlackKnight.print.
  cbn [BlackKnight.self BlackKnight.stdout]. rewrite Hs.
  cbn [BlackKnight.members BlackKnight.phrases].
  destruct (BlackKnight.deletions acts) as [| [| n]];
    cbn [Nat.min drop BlackKnight.members BlackKnight.phrases
         BlackKnight.__init__ fst]; (split; intros H; [| ]); try lia;
    repeat split; eauto.
Qed.

Lemma knight_runs_out_witness :
  BlackKnight.del_member
    (BlackKnight.after
       [BlackKnight.delete_member; BlackKnight.get_member;
        BlackKnight.delete_member])
  = (BlackKnight.IndexError "pop from empty list",
     BlackKnight.after
       [BlackKnight.delete_member; BlackKnight.get_member;
        BlackKnight.delete_member]).
Proof.
  apply (proj2 (knight_runs_out
                  [BlackKnight.delete_member; BlackKnight.get_member;
                   BlackKnight.delete_member])).
  vm_compute. lia.
Defined.

(** ** The subtotal of numbers *)

Lemma product_of_numbers w p :
  is_number w -> is_number p ->
  (exists v, py_mul w p = Ok v /\ is_number v) \/
  py_mul w p = Raise OverflowError.
Proof.
  destruct w as [x | x | | | | |], p as [y | y | | | | |];
    cbn [is_number]; try tauto; intros _ _; cbn [py_mul].
  - left. eexists. split; [reflexivity | exact I].
  - unfold float_of_int.
    destruct (binary_normalize binary64_prec binary64_emax x 0 false);
      first [ right; reflexivity
            | left; eexists; split; [reflexivity | exact I] ].
  - unfold float_of_int.
    destruct (binary_normalize binary64_prec binary64_emax y 0 false);
      first [ right; reflexivity
            | left; eexists; split; [reflexivity | exact I] ].
  - left. eexists. split; [reflexivity | exact I].
Qed.

(** While weight and price are given numbers only, the instance holds
    numbers for them: a value that is accepted is stored as given, and one
    that is refused leaves the old value. *)
Lemma numbers_are_held i d :
  live_on_numbers i d ->
  exists w p,
    d !! storage_for i "weight" = Some w /\ is_number w /\
    d !! storage_for i "price" = Some p /\ is_number p.
Proof.
  destruct (storage_distinct i) as (Hwp & Hdw & Hdp).
  induction 1 as [description weight price d Hw Hp H
                 | a v d r d' _ IH Ha Hv H].
  - apply constructed_storage in H. destruct H as [Ew Ep].
    exists weight, price. auto.
  - destruct IH as (w & p & Ew & Nw & Ep & Np).
    rewrite setattr_summary in H by exact Ha.
    destruct r as [u | e]; [| apply store_raise in H; subst d'; eauto 8].
    apply store_ok in H. destruct H as (v' & -> & Hv').
    simpl in Ha. destruct Ha as [<- | [<- | [<- | []]]].
    + exists w, p. rewrite !lookup_insert_ne by assumption. auto.
    + rewrite Hv' by (apply quantity_guard_not_stripped; simpl; tauto).
      exists v, p. rewrite lookup_insert_eq.
      rewrite lookup_insert_ne by assumption.
      repeat split; try assumption. apply Hv. simpl. tauto.
    + rewrite Hv' by (apply quantity_guard_not_stripped; simpl; tauto).
      exists w, v. rewrite lookup_insert_eq.
      rewrite lookup_insert_ne by congruence.
      repeat split; try assumption. apply Hv. simpl. tauto.
Qed.

(** X20.  Numbers in, a number out: in each of the eight classes, while
    weight and price are only ever given an [int] or a [float] (in the
    constructor and in every later assignment, accepted or refused),
    [subtotal] returns an [int] or a [float] and leaves the instance as it
    is, or raises OverflowError (an [int] operand too large for a [float]
    in a mixed product); it raises nothing else. *)
Theorem subtotal_of_numbers (i : line_item) (d : gmap string value) :
  live_on_numbers i d ->
  (exists v, subtotal_for i (instance_for i) d = (Ok v, d) /\ is_number v) \/
  subtotal_for i (instance_for i) d = (Raise OverflowError, d).
Proof.
  intros Hlive.
  destruct (numbers_are_held i d Hlive) as (w & p & Ew & Nw & Ep & Np).
  destruct (subtotal_of_storage i d w p Ew Ep) as (_ & _ & ->).
  destruct (product_of_numbers w p Nw Np) as [(v & -> & Hv) | ->]; eauto.
Qed.

Lemma subtotal_of_numbers_witness :
  (exists v,
      subtotal_for factory_LineItem (instance_for factory_LineItem)
        (<["price" := VFloat float_13_95]>
           (<["weight" := VInt 8]>
              {["description" := VStr "Moluccan nutmeg"]}))
      = (Ok v, <["price" := VFloat float_13_95]>
                 (<["weight" := VInt 8]>
                    {["description" := VStr "Moluccan nutmeg"]})) /\
      is_number v) \/
  subtotal_for factory_LineItem (instance_for factory_LineItem)
    (<["price" := VFloat float_13_95]>
       (<["weight" := VInt 8]>
          {["description" := VStr "Moluccan nutmeg"]}))
  = (Raise OverflowError,
     <["price" := VFloat float_13_95]>
       (<["weight" := VInt 8]>
          {["description" := VStr "Moluccan nutmeg"]})).
Proof.
  apply (subtotal_of_numbers factory_LineItem).
  apply (numbers_new factory_LineItem (VStr "Moluccan nutmeg") (VInt 8)
           (VFloat float_13_95)); [exact I | exact I |].
  vm_compute. reflexivity.
Defined.

(** The price of property_bulkfood.py is not checked, and [subtotal] shows
    it: a [str] price is repeated, [None] is a TypeError. *)
Example subtotal_of_an_unchecked_price :
  session property_LineItem (VStr "walnuts") (VInt 2) (VStr "ab") [Subtotal]
  = (Ok tt, [Ok (VStr "abab")]) /\
  session property_LineItem (VStr "walnuts") (VInt 2) VNone [Subtotal]
  = (Ok tt, [Raise TypeError]).
Proof. split; vm_compute; reflexivity. Qed.

(** ** Managed attributes of one class *)


















